(** * LocalGo: discovery registry and transfer-session protocol

    A shallow embedding of the session services ([pkg/server/services]),
    the receive and download handlers ([pkg/server/handlers]), the storage
    sink ([pkg/storage]) and the discovery registry ([pkg/discovery],
    [pkg/model]) of LocalGo, together with the properties the protocol
    description states about them; then the rest of the packages (the
    discovery endpoints, the multicast listener, the HTTP probe, the
    router, the sender and the device output of the command line) with
    further properties of the code.

    Conventions.
    - A Go [map[string]T] is a [gmap string T]; a nil map and an empty map
      are both [∅] (the code only reads, ranges over and takes [len] of
      maps that may be nil).
    - A Go pointer that may be nil is an [option]; device records, which
      several registries share by pointer, live in an explicit store.
    - Every method that takes the service mutex is one atomic function on
      the service state.
    - [time.Now()] is a parameter [now : Z] (nanoseconds on the monotonic
      clock); [uuid.NewString()] draws from a supply indexed by a counter.
    - An [http.ResponseWriter] is what the handler has left in it: the
      status, the headers sent and the body written.
    - The operating system is a parameter of the storage sink: what it
      answers to each call, and whether its paths are those of a Unix-like
      system or of Windows. *)

From stdpp Require Import base gmap strings list fin_maps pretty.
From Stdlib Require Import ZArith Lia String Ascii.

Open Scope string_scope.

(** ** pkg/model *)

Module model.

Inductive DeviceType :=
| DeviceTypeMobile | DeviceTypeDesktop | DeviceTypeWeb | DeviceTypeHeadless
| DeviceTypeServer | DeviceTypeLaptop | DeviceTypeTablet | DeviceTypeOther.

Inductive ProtocolType := ProtocolTypeHTTP | ProtocolTypeHTTPS.

(** [DeviceInfo]: the fields the handlers fill in or read. *)
Record DeviceInfo := mkDeviceInfo {
  di_Alias : string;
  di_Version : string;
  di_DeviceModel : option string;
  di_DeviceType : DeviceType;
  di_Fingerprint : string;
  di_IP : string
}.

Record InfoDto := mkInfoDto {
  info_Alias : string;
  info_Version : string;
  info_DeviceModel : option string;
  info_DeviceType : DeviceType;
  info_Fingerprint : string;
  info_Download : bool
}.

Record FileDto := mkFileDto {
  ID : string;
  FileName : string;
  Size : Z;
  FileType : string;
  SHA256 : option string
}.

Record PrepareUploadRequestDto := mkPrepareUploadRequestDto {
  Info : InfoDto;
  Files : gmap string FileDto
}.

Record PrepareUploadResponseDto := mkPrepareUploadResponseDto {
  resp_SessionID : string;
  resp_Files : gmap string string
}.

Record MulticastDto := mkMulticastDto {
  dto_Alias : string;
  dto_Version : string;
  dto_DeviceModel : option string;
  dto_DeviceType : DeviceType;
  dto_Fingerprint : string;
  dto_Port : Z;
  dto_Protocol : ProtocolType;
  dto_Download : bool;
  dto_Announce : bool
}.

Record Device := mkDevice {
  IP : string;
  Version : string;
  Port : Z;
  Alias : string;
  Protocol : ProtocolType;
  Fingerprint : string;
  DeviceModel : option string;
  DeviceType_ : DeviceType;
  Download : bool;
  LastSeen : Z;
  Available : bool
}.

(** [FromMulticastDto(dto, ip)], with [ip.String()] already taken and
    [time.Now()] passed in. *)
Definition FromMulticastDto (dto : MulticastDto) (ip : string) (now : Z) : Device :=
  {| IP := ip;
     Version := dto_Version dto;
     Port := dto_Port dto;
     Alias := dto_Alias dto;
     Protocol := dto_Protocol dto;
     Fingerprint := dto_Fingerprint dto;
     DeviceModel := dto_DeviceModel dto;
     DeviceType_ := dto_DeviceType dto;
     Download := dto_Download dto;
     LastSeen := now;
     Available := true |}.

(** [d.UpdateLastSeen()] *)
Definition UpdateLastSeen (now : Z) (d : Device) : Device :=
  {| IP := IP d;
     Version := Version d;
     Port := Port d;
     Alias := Alias d;
     Protocol := Protocol d;
     Fingerprint := Fingerprint d;
     DeviceModel := DeviceModel d;
     DeviceType_ := DeviceType_ d;
     Download := Download d;
     LastSeen := now;
     Available := true |}.

(** [d.IsStale(staleThreshold)]: [time.Since(d.LastSeen) > staleThreshold]. *)
Definition IsStale (now : Z) (d : Device) (staleThreshold : Z) : bool :=
  (staleThreshold <? now - LastSeen d)%Z.

End model.

(** ** github.com/google/uuid *)

Module uuid.

(** The supply of identifiers: [NewString] returns the next one and
    advances the counter. *)
Definition NewString (supply : nat -> string) (g : nat) : string * nat :=
  (supply g, S g).

End uuid.

(** ** pkg/server/services *)

Module services.
Import model.

Definition err_session_active : string := "session already active".

(** *** SendService *)

Record ActiveSendSession := mkActiveSendSession {
  send_SessionID : string;
  send_Files : gmap string FileDto
}.

Record SendService := mkSendService {
  send_currentSession : option ActiveSendSession
}.

Definition NewSendService : SendService :=
  {| send_currentSession := None |}.

Record ActiveFile := mkActiveFile {
  Dto : FileDto;
  Token : string
}.

Record ActiveReceiveSession := mkActiveReceiveSession {
  SessionID : string;
  Sender : DeviceInfo;
  sess_Files : gmap string ActiveFile
}.

Record ReceiveService := mkReceiveService {
  currentSession : option ActiveReceiveSession
}.

Definition NewReceiveService : ReceiveService :=
  {| currentSession := None |}.

Section with_uuid.
Variable supply : nat -> string.

(** [SendService.CreateSession] *)
Definition Send_CreateSession (s : SendService) (g : nat)
    (files : gmap string FileDto)
  : SendService * nat * (ActiveSendSession + string) :=
  match send_currentSession s with
  | Some _ => (s, g, inr err_session_active)
  | None =>
      let '(sessionId, g1) := uuid.NewString supply g in
      let sess := {| send_SessionID := sessionId; send_Files := files |} in
      ({| send_currentSession := Some sess |}, g1, inl sess)
  end.

(** The [for fileId, fileDto := range files] loop of
    [ReceiveService.CreateSession], over the entries in the order the
    range visits them. *)
Fixpoint range_files (l : list (string * FileDto)) (g : nat)
    (sessionFiles : gmap string ActiveFile) : gmap string ActiveFile * nat :=
  match l with
  | [] => (sessionFiles, g)
  | (fileId, fileDto) :: l' =>
      let '(token, g') := uuid.NewString supply g in
      range_files l' g' (<[fileId := {| Dto := fileDto; Token := token |}]> sessionFiles)
  end.

(** [ReceiveService.CreateSession] *)
Definition CreateSession (s : ReceiveService) (g : nat)
    (sender : DeviceInfo) (files : gmap string FileDto)
  : ReceiveService * nat * (ActiveReceiveSession + string) :=
  match currentSession s with
  | Some _ => (s, g, inr err_session_active)
  | None =>
      let '(sessionId, g1) := uuid.NewString supply g in
      let '(sessionFiles, g2) := range_files (map_to_list files) g1 ∅ in
      let sess := {| SessionID := sessionId; Sender := sender;
                     sess_Files := sessionFiles |} in
      ({| currentSession := Some sess |}, g2, inl sess)
  end.
End with_uuid.

(** [SendService.GetSession] *)
Definition Send_GetSession (s : SendService) : option ActiveSendSession :=
  send_currentSession s.

(** [SendService.GetSessionByID] *)
Definition Send_GetSessionByID (s : SendService) (sessionID : string)
  : option ActiveSendSession :=
  match send_currentSession s with
  | Some sess => if decide (send_SessionID sess = sessionID) then Some sess else None
  | None => None
  end.

(** [SendService.CloseSession] *)
Definition Send_CloseSession (s : SendService) : SendService :=
  {| send_currentSession := None |}.

(** [ReceiveService.GetSession] *)
Definition GetSession (s : ReceiveService) : option ActiveReceiveSession :=
  currentSession s.

(** [ReceiveService.GetSessionByID] *)
Definition GetSessionByID (s : ReceiveService) (sessionID : string)
  : option ActiveReceiveSession :=
  match currentSession s with
  | Some sess => if decide (SessionID sess = sessionID) then Some sess else None
  | None => None
  end.

(** [ReceiveService.CloseSession] *)
Definition CloseSession (s : ReceiveService) : ReceiveService :=
  {| currentSession := None |}.

(** [ReceiveService.RemoveFileFromSession] *)
Definition RemoveFileFromSession (s : ReceiveService) (sessionID fileID : string)
  : ReceiveService :=
  match currentSession s with
  | Some sess =>
      if decide (SessionID sess = sessionID) then
        let files' := delete fileID (sess_Files sess) in
        if decide (size files' = 0) then {| currentSession := None |}
        else {| currentSession :=
                  Some {| SessionID := SessionID sess; Sender := Sender sess;
                          sess_Files := files' |} |}
      else s
  | None => s
  end.

End services.

(** ** path/filepath

    The lexical path functions of the Go standard library that the handlers
    and the storage sink call, after the rules its documentation gives for
    [Clean], [Join] and [Dir], in the version for Unix-like systems (Linux,
    macOS), where the slash alone separates the elements of a path.  What
    a build for Windows uses instead is at the end of the module. *)

Module filepath.

Definition Separator : ascii := "/"%char.

(** The elements of a path between separators, empty ones included:
    [elements "a//b" = ["a"; ""; "b"]]. *)
Fixpoint elements_from (cur : string) (p : string) : list string :=
  match p with
  | EmptyString => [cur]
  | String c p' =>
      if Ascii.eqb c Separator then cur :: elements_from "" p'
      else elements_from (cur ++ String c "") p'
  end.

Definition elements (p : string) : list string := elements_from "" p.

Definition IsRooted (p : string) : bool :=
  match p with
  | String c _ => Ascii.eqb c Separator
  | EmptyString => false
  end.

(** One step of [Clean] on the elements kept so far ([out], innermost
    first): empty and [.] elements are dropped, [..] removes the element
    before it, or is dropped at the root, or is kept when nothing but
    [..] elements precede it. *)
Definition clean_step (rooted : bool) (out : list string) (e : string) : list string :=
  if decide (e = "") then out
  else if decide (e = ".") then out
  else if decide (e = "..") then
    match out with
    | [] => if rooted then [] else [".."]
    | top :: rest => if decide (top = "..") then ".." :: out else rest
    end
  else e :: out.

Definition clean_elements (rooted : bool) (es : list string) : list string :=
  reverse (fold_left (clean_step rooted) es []).

Fixpoint join_elements (es : list string) : string :=
  match es with
  | [] => ""
  | [e] => e
  | e :: es' => e ++ "/" ++ join_elements es'
  end.

(** [filepath.Clean] *)
Definition Clean (path : string) : string :=
  let rooted := IsRooted path in
  let out := join_elements (clean_elements rooted (elements path)) in
  if rooted then "/" ++ out
  else if decide (out = "") then "." else out.

(** [filepath.Join]: the elements from the first non-empty one on are
    joined with the separator and the result is cleaned. *)
Fixpoint Join (elem : list string) : string :=
  match elem with
  | [] => ""
  | e :: rest =>
      if decide (e = "") then Join rest
      else Clean (join_elements elem)
  end.

(** The part of [p] up to and including its last separator. *)
Fixpoint upto_last_separator (p : string) : string :=
  match p with
  | EmptyString => ""
  | String c p' =>
      let r := upto_last_separator p' in
      if Ascii.eqb c Separator then String c r
      else if decide (r = "") then "" else String c r
  end.

(** [filepath.Dir] *)
Definition Dir (path : string) : string :=
  Clean (upto_last_separator path).

(** [within dir p]: the cleaned path [p] names [dir] itself or something
    below it (both paths taken lexically, relative to the same working
    directory). *)
Fixpoint below (ds ps : list string) : bool :=
  match ds, ps with
  | [], [] => true
  | [], e :: _ => negb (bool_decide (e = ".."))
  | d :: ds', e :: ps' => bool_decide (d = e) && below ds' ps'
  | _ :: _, [] => false
  end.

Definition within (dir p : string) : bool :=
  Bool.eqb (IsRooted dir) (IsRooted p)
  && below (clean_elements (IsRooted dir) (elements dir))
           (clean_elements (IsRooted p) (elements p)).

(** The system the program is built for.  LocalGo is built for Linux and
    macOS, where [path/filepath] is as above, and for Windows, where the
    backslash separates elements too and a path may begin with a volume
    name: the Windows versions of [Join] and [Dir] are not described here,
    a Windows build brings them along. *)
Inductive GOOS :=
| unix
| windows (Join_windows : list string -> string) (Dir_windows : string -> string).

(** [filepath.Join] as the build has it *)
Definition Join_on (goos : GOOS) (elem : list string) : string :=
  match goos with
  | unix => Join elem
  | windows Join_windows _ => Join_windows elem
  end.

(** [filepath.Dir] as the build has it *)
Definition Dir_on (goos : GOOS) (path : string) : string :=
  match goos with
  | unix => Dir path
  | windows _ Dir_windows => Dir_windows path
  end.

Global Arguments Join_on : simpl never.
Global Arguments Dir_on : simpl never.

End filepath.

(** ** pkg/storage *)

Module storage.

(** The file system as the sink sees it: the content of each regular
    file, by path.  Directories are not tracked. *)
Abbreviation FS := (gmap string string).

(** The operating system: what it answers to the sink's calls, and which
    kind of system it is. *)
Record OS := mkOS {
  MkdirAll_fails : string -> bool;
  Create_fails : string -> bool;
  (** [Some written]: the copy fails after [written] reached the file *)
  Copy_fails : string -> option string;
  Remove_fails : string -> bool;
  goos : filepath.GOOS
}.

(** [EnsureDirExists] *)
Definition EnsureDirExists (os : OS) (path : string) : option string :=
  if MkdirAll_fails os path then Some ("failed to create directory " ++ path)
  else None.

(** [SaveStreamToFile], without the progress callback (it only logs). *)
Definition SaveStreamToFile (os : OS) (fs : FS) (stream filePath : string)
  : FS * option string :=
  let dir := filepath.Dir_on (goos os) filePath in
  match EnsureDirExists os dir with
  | Some err => (fs, Some err)
  | None =>
      if Create_fails os filePath then
        (fs, Some ("failed to create file " ++ filePath))
      else
        match Copy_fails os filePath with
        | Some written =>
            let fs' := if Remove_fails os filePath
                       then <[filePath := written]> fs
                       else delete filePath fs in
            (fs', Some ("failed to copy stream to file " ++ filePath))
        | None => (<[filePath := stream]> fs, None)
        end
  end.

End storage.

(** ** pkg/config *)

Module config.
Import model.

Definition ProtocolVersion : string := "2.1".

Record Config := mkConfig {
  cfg_Alias : string;
  cfg_Port : Z;
  cfg_HttpsEnabled : bool;
  cfg_DeviceModel : option string;
  cfg_DeviceType : DeviceType;
  (** [SecurityContext.CertificateHash] *)
  cfg_CertificateHash : string;
  PIN : string;
  DownloadDir : string
}.

(** [Config.ToInfoDto] *)
Definition ToInfoDto (c : Config) : InfoDto :=
  {| info_Alias := cfg_Alias c;
     info_Version := ProtocolVersion;
     info_DeviceModel := cfg_DeviceModel c;
     info_DeviceType := cfg_DeviceType c;
     info_Fingerprint := cfg_CertificateHash c;
     info_Download := false |}.

End config.

(** ** net/http and pkg/httputil *)

(** ** strconv and net/http, as far as the handlers rely on them *)

Module strconv.
Local Open Scope Z_scope.

(** The value of a decimal digit. *)
Definition digit (c : ascii) : option Z :=
  let n := Z.of_N (Ascii.N_of_ascii c) in
  if decide (48 <= n <= 57) then Some (n - 48) else None.

Fixpoint digits (s : string) (acc : Z) : option Z :=
  match s with
  | EmptyString => Some acc
  | String c s' =>
      match digit c with
      | Some d => digits s' (10 * acc + d)
      | None => None
      end
  end.

(** [strconv.ParseInt(s, 10, 64)]: an optional sign and at least one
    decimal digit, the value within the 64-bit signed range; [None] stands
    for the syntax and range errors. *)
Definition ParseInt (s : string) : option Z :=
  match s with
  | EmptyString => None
  | String c rest =>
      let neg := bool_decide (c = "-"%char) in
      let body := if decide (c = "+"%char ∨ c = "-"%char) then rest else s in
      if decide (body = "") then None
      else match digits body 0 with
           | Some un =>
               let v := if neg then - un else un in
               if decide (- 2 ^ 63 <= v <= 2 ^ 63 - 1) then Some v else None
           | None => None
           end
  end.

End strconv.

Module http.
Local Open Scope Z_scope.

Definition StatusOK : Z := 200.
Definition StatusBadRequest : Z := 400.
Definition StatusUnauthorized : Z := 401.
Definition StatusForbidden : Z := 403.
Definition StatusNotFound : Z := 404.
Definition StatusMethodNotAllowed : Z := 405.
Definition StatusConflict : Z := 409.
Definition StatusInternalServerError : Z := 500.

Definition MethodPost : string := "POST".

(** An incoming request: method, parsed query ([url.Values]), peer
    address and body bytes. *)
Record Request := mkRequest {
  Method : string;
  Query : gmap string (list string);
  RemoteAddr : string;
  Body : string
}.

(** [url.Values.Get]: the first value of the key, or the empty string. *)
Definition Get (q : gmap string (list string)) (key : string) : string :=
  match q !! key with
  | Some (v :: _) => v
  | _ => ""
  end.

(** What [ResponseWriter.WriteHeader] makes of the headers the handler has
    set: the [Content-Length] the handler declared becomes the length the
    writer enforces; a declaration that does not parse or is negative is
    dropped from the headers; without one nothing is enforced, which the
    writer records as [-1]. *)
Definition WriteHeader (handlerHeader : gmap string string)
  : gmap string string * Z :=
  match handlerHeader !! "Content-Length" with
  | Some cl =>
      if decide (cl = "") then (handlerHeader, -1)
      else match strconv.ParseInt cl with
           | Some v =>
               if decide (0 <= v) then (handlerHeader, v)
               else (delete "Content-Length" handlerHeader, -1)
           | None => (delete "Content-Length" handlerHeader, -1)
           end
  | None => (handlerHeader, -1)
  end.

(** What a first [ResponseWriter.Write] of [data] sends as body: nothing,
    the write failing with [ErrContentLength], when [data] is longer than
    the enforced length. *)
Definition write (contentLength : Z) (data : string) : string :=
  if decide (contentLength ≠ -1 ∧ contentLength < Z.of_nat (String.length data))
  then "" else data.

End http.

Module httputil.
Import model.

(** The values the handlers hand to [json.Marshal]. *)
Inductive Json :=
| JNull
| JError (message : string)
| JPrepareUploadResponse (dto : PrepareUploadResponseDto)
| JReceiveRequestResponse (info : InfoDto) (sessionId : string)
    (files : gmap string FileDto).

Inductive Payload :=
| PayloadJson (data : Json)
| PayloadText (text : string).

(** What the handler left in the [http.ResponseWriter]. *)
Record Response := mkResponse {
  StatusCode : Z;
  Header : gmap string string;
  Written : Payload
}.

(** [RespondJSON] on a writer whose headers so far are [hdr]. *)
Definition RespondJSON (hdr : gmap string string) (statusCode : Z) (data : Json)
  : Response :=
  {| StatusCode := statusCode;
     Header := <["Content-Type" := "application/json"]> hdr;
     Written := PayloadJson data |}.

(** [RespondError] *)
Definition RespondError (hdr : gmap string string) (statusCode : Z)
    (message : string) : Response :=
  RespondJSON hdr statusCode (JError message).

(** [fmt.Fprint(w, text)] on a writer nothing was written to yet, whose
    headers so far are [hdr]: the write sends the headers with status 200
    first. *)
Definition Fprint (hdr : gmap string string) (text : string) : Response :=
  let '(sent, contentLength) := http.WriteHeader hdr in
  {| StatusCode := http.StatusOK; Header := sent;
     Written := PayloadText (http.write contentLength text) |}.

End httputil.

(** ** pkg/server/handlers *)

Module handlers.
Import model services config http httputil.

(** The state a receive handler works on: the receive service, the
    number of identifiers drawn from the supply so far, and the file
    system behind the storage sink. *)
Record ReceiveState := mkReceiveState {
  receiveService : ReceiveService;
  drawn : nat;
  disk : storage.FS
}.

(** The state of the download handlers. *)
Record SendState := mkSendState {
  sendService : SendService;
  send_drawn : nat
}.

Definition dquote : string := String "034"%char EmptyString.

Section with_environment.
(** [uuid.NewString], as a supply *)
Variable supply : nat -> string.
(** [json.NewDecoder(r.Body).Decode(&requestDto)]; [None] on an error *)
Variable decodePrepareUpload : string -> option PrepareUploadRequestDto.
(** the host part [net.SplitHostPort] returns (empty on an error) *)
Variable SplitHostPort : string -> string.
(** the operating system under the storage sink *)
Variable os : storage.OS.

(** [ReceiveHandler.PrepareUploadHandlerV2] *)
Definition PrepareUploadHandlerV2 (cfg : Config) (st : ReceiveState) (r : Request)
  : ReceiveState * Response :=
  if decide (Method r ≠ MethodPost) then
    (st, RespondError ∅ StatusMethodNotAllowed "Method Not Allowed")
  else if decide (PIN cfg ≠ "" ∧ Get (Query r) "pin" ≠ PIN cfg) then
    (st, RespondError ∅ StatusUnauthorized "Invalid PIN")
  else if decide (is_Some (GetSession (receiveService st))) then
    (st, RespondError ∅ StatusConflict "Blocked by another session")
  else
    match decodePrepareUpload (Body r) with
    | None => (st, RespondError ∅ StatusBadRequest "Request body malformed")
    | Some requestDto =>
        if decide (size (Files requestDto) = 0) then
          (st, RespondError ∅ StatusBadRequest "Request must contain at least one file")
        else
          let senderIP := SplitHostPort (RemoteAddr r) in
          let sender :=
            {| di_Alias := info_Alias (Info requestDto);
               di_Version := info_Version (Info requestDto);
               di_DeviceModel := info_DeviceModel (Info requestDto);
               di_DeviceType := info_DeviceType (Info requestDto);
               di_Fingerprint := info_Fingerprint (Info requestDto);
               di_IP := senderIP |} in
          match CreateSession supply (receiveService st) (drawn st) sender
                  (Files requestDto) with
          | (_, _, inr _) =>
              (st, RespondError ∅ StatusConflict "Blocked by another session")
          | (svc, g, inl session) =>
              (* responseTokens[fileID] = file.Token for every entry *)
              let responseTokens := Token <$> sess_Files session in
              let responseDto :=
                {| resp_SessionID := SessionID session;
                   resp_Files := responseTokens |} in
              ({| receiveService := svc; drawn := g; disk := disk st |},
               RespondJSON ∅ StatusOK (JPrepareUploadResponse responseDto))
          end
    end.

(** [ReceiveHandler.UploadHandlerV2] *)
Definition UploadHandlerV2 (cfg : Config) (st : ReceiveState) (r : Request)
  : ReceiveState * Response :=
  if decide (Method r ≠ MethodPost) then
    (st, RespondError ∅ StatusMethodNotAllowed "Method Not Allowed")
  else
    let reqSessionId := Get (Query r) "sessionId" in
    let reqFileId := Get (Query r) "fileId" in
    let reqToken := Get (Query r) "token" in
    if decide (reqSessionId = "" ∨ reqFileId = "" ∨ reqToken = "") then
      (st, RespondError ∅ StatusBadRequest
             "Missing query parameters (sessionId, fileId, token)")
    else
      match GetSessionByID (receiveService st) reqSessionId with
      | None => (st, RespondError ∅ StatusForbidden "Invalid session ID")
      | Some session =>
          let reqIP := SplitHostPort (RemoteAddr r) in
          if decide (reqIP ≠ di_IP (Sender session)) then
            (st, RespondError ∅ StatusForbidden ("Invalid IP address: " ++ reqIP))
          else
            match sess_Files session !! reqFileId with
            | None => (st, RespondError ∅ StatusForbidden "Invalid fileId or token")
            | Some fileInfo =>
                if decide (Token fileInfo ≠ reqToken) then
                  (st, RespondError ∅ StatusForbidden "Invalid fileId or token")
                else
                  let destinationPath :=
                    filepath.Join_on (storage.goos os)
                      [DownloadDir cfg; FileName (Dto fileInfo)] in
                  match storage.SaveStreamToFile os (disk st) (Body r)
                          destinationPath with
                  | (disk', Some _) =>
                      ({| receiveService := receiveService st;
                          drawn := drawn st; disk := disk' |},
                       RespondError ∅ StatusInternalServerError "Failed to save file")
                  | (disk', None) =>
                      ({| receiveService :=
                            RemoveFileFromSession (receiveService st)
                              reqSessionId reqFileId;
                          drawn := drawn st; disk := disk' |},
                       RespondJSON ∅ StatusOK JNull)
                  end
            end
      end.

(** [ReceiveHandler.CancelHandler] *)
Definition CancelHandler (st : ReceiveState) (r : Request)
  : ReceiveState * Response :=
  if decide (Method r ≠ MethodPost) then
    (st, RespondError ∅ StatusMethodNotAllowed "Method Not Allowed")
  else
    let reqSessionId := Get (Query r) "sessionId" in
    if decide (reqSessionId = "") then
      (st, RespondError ∅ StatusBadRequest "Missing sessionId parameter")
    else
      match GetSessionByID (receiveService st) reqSessionId with
      | Some _ =>
          ({| receiveService := CloseSession (receiveService st);
              drawn := drawn st; disk := disk st |},
           RespondJSON ∅ StatusOK JNull)
      | None => (st, RespondError ∅ StatusNotFound "Session not found")
      end.

(** [DownloadHandler.PrepareDownloadHandler] *)
Definition PrepareDownloadHandler (cfg : Config) (st : SendState) (r : Request)
  : SendState * Response :=
  if decide (PIN cfg ≠ "" ∧ Get (Query r) "pin" ≠ PIN cfg) then
    (st, RespondError ∅ StatusUnauthorized "Invalid PIN")
  else
    let '(key, g) := uuid.NewString supply (send_drawn st) in
    let dummyFiles : gmap string FileDto :=
      {[ key := {| ID := "dummy-file-id"; FileName := "dummy.txt"; Size := 12;
                   FileType := "text/plain"; SHA256 := None |} ]} in
    match Send_CreateSession supply (sendService st) g dummyFiles with
    | (_, g', inr _) =>
        ({| sendService := sendService st; send_drawn := g' |},
         RespondError ∅ StatusConflict "Blocked by another session")
    | (svc, g', inl session) =>
        ({| sendService := svc; send_drawn := g' |},
         RespondJSON ∅ StatusOK
           (JReceiveRequestResponse (ToInfoDto cfg) (send_SessionID session)
              (send_Files session)))
    end.

(** [DownloadHandler.DownloadHandler] *)
Definition DownloadHandler (st : SendState) (r : Request) : Response :=
  let sessionId := Get (Query r) "sessionId" in
  let fileId := Get (Query r) "fileId" in
  if decide (sessionId = "" ∨ fileId = "") then
    RespondError ∅ StatusBadRequest "Missing sessionId or fileId parameter"
  else
    match Send_GetSessionByID (sendService st) sessionId with
    | None => RespondError ∅ StatusNotFound "Session not found"
    | Some session =>
        match send_Files session !! fileId with
        | None => RespondError ∅ StatusNotFound "File not found"
        | Some file =>
            let h1 : gmap string string :=
              <["Content-Disposition" :=
                  "attachment; filename=" ++ dquote ++ FileName file ++ dquote]> ∅ in
            let h2 := <["Content-Type" := FileType file]> h1 in
            let h3 := <["Content-Length" := pretty (Size file)]> h2 in
            Fprint h3 "Hello, World"
        end
    end.
End with_environment.

End handlers.

(** ** pkg/discovery *)

Module discovery.
Import model.

(** [time.Duration] values, in nanoseconds. *)
Definition Millisecond : Z := 1000000.
Definition Second : Z := 1000 * Millisecond.
Definition Minute : Z := 60 * Second.

(** Device records are shared by pointer between the multicast registry,
    the service registry and the lists the reads return: a pointer is an
    address in a store of records. *)
Abbreviation Store := (gmap nat Device).

(** [&Device{...}]: a record at an address not in use. *)
Definition alloc (h : Store) (d : Device) : Store * nat :=
  let p := fresh (dom h) in (<[p := d]> h, p).

(** The registered device callbacks: the closure [Start]
    installs on the multicast instance, which calls the service's
    [updateDevice], or a callback of the embedding program. *)
Inductive Handler :=
| ServiceUpdate
| External (id : nat).

Record MulticastConfig := mkMulticastConfig {
  MulticastAddr : string;
  mc_Port : Z;
  AnnounceTimeout : Z;
  ListenTimeout : Z
}.

Definition DefaultMulticastConfig : MulticastConfig :=
  {| MulticastAddr := "224.0.0.167:53317";
     mc_Port := 53317;
     AnnounceTimeout := 2 * Second;
     ListenTimeout := 5 * Second |}.

Record ServiceConfig := mkServiceConfig {
  MulticastConfig_ : MulticastConfig;
  AnnounceInterval : Z;
  DeviceTimeout : Z;
  EnableAnnouncement : bool
}.

Definition DefaultServiceConfig : ServiceConfig :=
  {| MulticastConfig_ := DefaultMulticastConfig;
     AnnounceInterval := 30 * Second;
     DeviceTimeout := 2 * Minute;
     EnableAnnouncement := true |}.

(** *** MulticastDiscovery *)

Inductive Addr :=
| UDPAddr (ip : string) (port : Z)
| OtherAddr (network : string).

(** A datagram handed to the network: destination and message. *)
Inductive Datagram :=
| ToGroup (group : string) (dto : MulticastDto)
| ToPeer (ip : string) (port : Z) (dto : MulticastDto).

Record MulticastDiscovery := mkMulticastDiscovery {
  md_config : MulticastConfig;
  dto : MulticastDto;
  md_devices : gmap string nat;
  md_handlers : list Handler
}.

Definition with_Announce (d : MulticastDto) (announce : bool) : MulticastDto :=
  {| dto_Alias := dto_Alias d; dto_Version := dto_Version d;
     dto_DeviceModel := dto_DeviceModel d; dto_DeviceType := dto_DeviceType d;
     dto_Fingerprint := dto_Fingerprint d; dto_Port := dto_Port d;
     dto_Protocol := dto_Protocol d; dto_Download := dto_Download d;
     dto_Announce := announce |}.

(** [MulticastDiscovery.SetDto] *)
Definition SetDto (md : MulticastDiscovery) (d : MulticastDto) : MulticastDiscovery :=
  {| md_config := md_config md; dto := d;
     md_devices := md_devices md; md_handlers := md_handlers md |}.

(** [MulticastDiscovery.SendDiscoveryAnnouncement]; [net_ok] tells
    whether resolving, dialling and writing succeed.  Returns the
    datagrams sent and the error. *)
Definition SendDiscoveryAnnouncement (md : MulticastDiscovery) (net_ok : bool)
  : list Datagram * option string :=
  let announcementDto := with_Announce (dto md) true in
  if net_ok then ([ToGroup (MulticastAddr (md_config md)) announcementDto], None)
  else ([], Some "failed to send multicast announcement").

(** [MulticastDiscovery.SendDiscoveryResponse] *)
Definition SendDiscoveryResponse (md : MulticastDiscovery) (net_ok : bool)
    (ip : string) (port : Z) : list Datagram * option string :=
  let responseDto := with_Announce (dto md) false in
  if net_ok then ([ToPeer ip port responseDto], None)
  else ([], Some "failed to send discovery response").

(** [MulticastDiscovery.updateDevice]: the new registry, the new store
    and the handler goroutines started ([go handler(device)]).  [None] is
    the nil dereference of a pointer that is not in the store. *)
Definition md_updateDevice (md : MulticastDiscovery) (h : Store) (now : Z)
    (device : nat) : option (MulticastDiscovery * Store * list (Handler * nat)) :=
  match h !! device with
  | None => None
  | Some d =>
      let key := Fingerprint d in
      match md_devices md !! key with
      | Some existingDevice =>
          Some (md, alter (UpdateLastSeen now) existingDevice h, [])
      | None =>
          Some ({| md_config := md_config md; dto := dto md;
                   md_devices := <[key := device]> (md_devices md);
                   md_handlers := md_handlers md |},
                h,
                (λ handler, (handler, device)) <$> md_handlers md)
      end
  end.

(** What one call of [handlePacket] leaves behind. *)
Record PacketResult := mkPacketResult {
  pr_md : MulticastDiscovery;
  pr_store : Store;
  pr_started : list (Handler * nat);
  pr_sent : list Datagram;
  pr_err : option string
}.

Section with_decoder.
(** [json.Unmarshal(data, &dto)]; [None] on an error *)
Variable unmarshalMulticastDto : string -> option MulticastDto.

(** [MulticastDiscovery.handlePacket] *)
Definition handlePacket (md : MulticastDiscovery) (h : Store) (now : Z)
    (net_ok : bool) (data : string) (addr : Addr) : PacketResult :=
  match unmarshalMulticastDto data with
  | None => mkPacketResult md h [] [] (Some "failed to unmarshal packet")
  | Some d =>
      if decide (dto_Fingerprint d = dto_Fingerprint (dto md)) then
        mkPacketResult md h [] [] None
      else
        match addr with
        | OtherAddr _ => mkPacketResult md h [] [] (Some "unexpected address type")
        | UDPAddr ip port =>
            let '(h1, device) := alloc h (FromMulticastDto d ip now) in
            match md_updateDevice md h1 now device with
            | None => mkPacketResult md h1 [] [] (Some "nil dereference")
            | Some (md', h2, started) =>
                if dto_Announce d then
                  mkPacketResult md' h2 started
                    (fst (SendDiscoveryResponse md' net_ok ip port)) None
                else mkPacketResult md' h2 started [] None
            end
        end
  end.
End with_decoder.

(** *** Service *)

Record Service := mkService {
  config : ServiceConfig;
  devices : gmap string nat;
  handlers : list Handler
}.

(** [NewService] with a non-nil configuration *)
Definition NewService (cfg : ServiceConfig) : Service :=
  {| config := cfg; devices := ∅; handlers := [] |}.

(** [Service.AddDeviceHandler] *)
Definition AddDeviceHandler (s : Service) (handler : Handler) : Service :=
  {| config := config s; devices := devices s;
     handlers := handlers s ++ [handler] |}.

(** [Service.updateDevice] *)
Definition updateDevice (s : Service) (h : Store) (now : Z) (device : nat)
  : option (Service * Store * list (Handler * nat)) :=
  match h !! device with
  | None => None
  | Some d =>
      match devices s !! Fingerprint d with
      | Some existingDevice =>
          Some (s, alter (UpdateLastSeen now) existingDevice h, [])
      | None =>
          Some ({| config := config s;
                   devices := <[Fingerprint d := device]> (devices s);
                   handlers := handlers s |},
                h,
                (λ handler, (handler, device)) <$> handlers s)
      end
  end.

(** Whether the record behind a pointer is there and not stale. *)
Definition fresh_at (s : Service) (h : Store) (now : Z) (p : nat) : bool :=
  match h !! p with
  | Some d => negb (IsStale now d (DeviceTimeout (config s)))
  | None => false
  end.

(** [Service.GetDevices]: the pointers of the non-stale devices, in the
    order the range over the map visits them. *)
Definition GetDevices (s : Service) (h : Store) (now : Z) : list nat :=
  filter (λ p, fresh_at s h now p = true) (snd <$> map_to_list (devices s)).

(** [Service.GetDevice] *)
Definition GetDevice (s : Service) (h : Store) (now : Z) (id : string) : option nat :=
  match devices s !! id with
  | Some device => if fresh_at s h now device then Some device else None
  | None => None
  end.

(** A started handler goroutine, [go handler(device)]: the closure [Start]
    installs runs the service's [updateDevice]; the callbacks of the
    embedding program only report. *)
Definition run_handler (s : Service) (h : Store) (now : Z) (call : Handler * nat)
  : option (Service * Store * list (Handler * nat)) :=
  match call.1 with
  | ServiceUpdate => updateDevice s h now call.2
  | External _ => Some (s, h, [])
  end.

(** What the [select] of [Discover]'s loop, or another goroutine between
    two selects, does next. *)
Inductive Event :=
| CtxDone (now : Z)                (* <-ctx.Done() is chosen at [now] *)
| Tick (now : Z)                   (* <-ticker.C is chosen at [now] *)
| Sighting (now : Z) (d : Device). (* a goroutine runs updateDevice(&d) *)

(** The period of the ticker [Discover] polls with,
    [250 * time.Millisecond]. *)
Definition poll_interval : Z := 250 * Millisecond.

(** The number of ticks a ticker created at [start] has sent by [now],
    one at the end of each period. *)
Definition ticks_sent (start now : Z) : Z := ((now - start) / poll_interval)%Z.


Record DiscoverResult := mkDiscoverResult {
  found : list nat;
  err : option string;
  dr_service : Service;
  dr_store : Store
}.

(** The [for { select { ... } }] loop of [Service.Discover], the ticker
    having been created at [start] and a tick last received at [last] (at
    first, none since the ticker was created).  The channel of the ticker
    holds a tick at [now] when one was sent after [last].  [None]: the
    events given are no run of the loop, they end before the context is
    done or take a tick the ticker has not sent. *)
Fixpoint Discover_loop (evs : list Event) (start last : Z) (s : Service) (h : Store)
    (lastDevices : list nat) : option DiscoverResult :=
  match evs with
  | [] => None
  | CtxDone _ :: _ => Some (mkDiscoverResult lastDevices None s h)
  | Tick now :: evs' =>
      if decide (ticks_sent start last < ticks_sent start now)%Z
      then Discover_loop evs' start now s h (GetDevices s h now)
      else None
  | Sighting now d :: evs' =>
      let '(h1, p) := alloc h d in
      match updateDevice s h1 now p with
      | Some (s', h2, _) => Discover_loop evs' start last s' h2 lastDevices
      | None => None
      end
  end.

(** [Service.Discover], called at [start]: the multicast instance after
    [SetDto], the datagrams sent, and the result of the loop. *)
Definition Discover (s : Service) (md : MulticastDiscovery) (h : Store)
    (net_ok : bool) (start : Z) (evs : list Event)
    (alias : string) (port : Z) (fingerprint : string)
    (deviceType : DeviceType) (deviceModel : option string)
  : MulticastDiscovery * list Datagram * option DiscoverResult :=
  let multicastDto :=
    {| dto_Alias := alias; dto_Version := config.ProtocolVersion;
       dto_DeviceModel := deviceModel; dto_DeviceType := deviceType;
       dto_Fingerprint := fingerprint; dto_Port := port;
       dto_Protocol := ProtocolTypeHTTPS; dto_Download := false;
       dto_Announce := true |} in
  let md' := SetDto md multicastDto in
  let '(sent, _) := SendDiscoveryAnnouncement md' net_ok in
  (md', sent, Discover_loop evs start start s h []).

End discovery.

(** ** Vocabulary of the statements and sample data *)

Module sample.
Import model services config http httputil handlers.

(** The three query parameters of [/upload] are present. *)
Definition has_upload_params (r : Request) : Prop :=
  Get (Query r) "sessionId" ≠ "" /\ Get (Query r) "fileId" ≠ "" /\
  Get (Query r) "token" ≠ "".

(** The PIN check of the prepare handlers lets the request through. *)
Definition pin_accepted (cfg : Config) (r : Request) : Prop :=
  PIN cfg = "" \/ Get (Query r) "pin" = PIN cfg.

(** The destination [UploadHandlerV2] computes for a pending file. *)
Definition destination (os : storage.OS) (cfg : Config) (f : ActiveFile) : string :=
  filepath.Join_on (storage.goos os) [DownloadDir cfg; FileName (Dto f)].

(** An identifier supply with pairwise different identifiers. *)
Definition ids (n : nat) : string := "id-" ++ pretty n.

(** The host of a [host:port] peer address without brackets. *)
Fixpoint host_of (addr : string) : string :=
  match addr with
  | EmptyString => ""
  | String c rest => if Ascii.eqb c ":"%char then "" else String c (host_of rest)
  end.

Definition os_ok : storage.OS :=
  storage.mkOS (λ _, false) (λ _, false) (λ _, None) (λ _, false) filepath.unix.

Definition os_disk_full : storage.OS :=
  storage.mkOS (λ _, false) (λ _, false) (λ _, Some "") (λ _, false) filepath.unix.

Definition cfg0 : Config :=
  {| cfg_Alias := "receiver"; cfg_Port := 53317; cfg_HttpsEnabled := true;
     cfg_DeviceModel := Some "GoDevice"; cfg_DeviceType := DeviceTypeDesktop;
     cfg_CertificateHash := "local-fp"; PIN := ""; DownloadDir := "./downloads" |}.

Definition cfg_pin : Config :=
  {| cfg_Alias := "receiver"; cfg_Port := 53317; cfg_HttpsEnabled := true;
     cfg_DeviceModel := Some "GoDevice"; cfg_DeviceType := DeviceTypeDesktop;
     cfg_CertificateHash := "local-fp"; PIN := "1234"; DownloadDir := "./downloads" |}.

Definition file_a : FileDto := mkFileDto "f1" "a.txt" 12 "text/plain" None.

Definition sender0 : DeviceInfo :=
  mkDeviceInfo "sender" "2.1" None DeviceTypeMobile "peer-fp" "10.0.0.2".

Definition session0 : ActiveReceiveSession :=
  {| SessionID := "s1"; Sender := sender0;
     sess_Files := {[ "f1" := {| Dto := file_a; Token := "t1" |} ]} |}.

Definition session_two : ActiveReceiveSession :=
  {| SessionID := "s2"; Sender := sender0;
     sess_Files := {[ "f1" := {| Dto := file_a; Token := "t1" |};
                      "f2" := {| Dto := mkFileDto "f2" "b.bin" 3 "application/octet-stream" None;
                                 Token := "t2" |} ]} |}.

Definition busy : ReceiveState :=
  {| receiveService := {| currentSession := Some session0 |};
     drawn := 2; disk := ∅ |}.

Definition idle : ReceiveState :=
  {| receiveService := NewReceiveService; drawn := 0; disk := ∅ |}.

Definition upload_query (sessionId fileId token : string) : gmap string (list string) :=
  {[ "sessionId" := [sessionId]; "fileId" := [fileId]; "token" := [token] ]}.

Definition upload_req (sessionId fileId token peer : string) : Request :=
  {| Method := "POST"; Query := upload_query sessionId fileId token;
     RemoteAddr := peer; Body := "Hello, file!" |}.

(** A decoder for three sample bodies. *)
Definition decode_sample (body : string) : option PrepareUploadRequestDto :=
  let info := mkInfoDto "sender" "2.1" None DeviceTypeMobile "peer-fp" false in
  if decide (body = "one-file") then
    Some {| Info := info; Files := {[ "f1" := file_a ]} |}
  else if decide (body = "no-files") then
    Some {| Info := info; Files := ∅ |}
  else None.

Definition prepare_req (pin : list string) (body : string) : Request :=
  {| Method := "POST";
     Query := match pin with [] => ∅ | _ => {[ "pin" := pin ]} end;
     RemoteAddr := "10.0.0.2:40000"; Body := body |}.

(** A receive state whose session waits for one file declared under
    [name]. *)
Definition session_with (name : string) : ActiveReceiveSession :=
  {| SessionID := "s1"; Sender := sender0;
     sess_Files := {[ "f1" := {| Dto := mkFileDto "f1" name 12 "text/plain" None;
                                 Token := "t1" |} ]} |}.

Definition busy_with (name : string) : ReceiveState :=
  {| receiveService := {| currentSession := Some (session_with name) |};
     drawn := 2; disk := ∅ |}.

(** The declared name contains a path separator. *)
Fixpoint contains_separator (name : string) : bool :=
  match name with
  | EmptyString => false
  | String c rest => Ascii.eqb c filepath.Separator || contains_separator rest
  end.

(** The declared name has a [..] element. *)
Definition has_dotdot (name : string) : bool :=
  bool_decide (".." ∈ filepath.elements name).

(** An accepted [/upload] for the pending file [f] of [session]. *)
Definition accepted_upload (SplitHostPort : string -> string) (os : storage.OS)
    (cfg : Config) (st : ReceiveState) (r : Request)
    (session : ActiveReceiveSession) (f : ActiveFile) : Prop :=
  GetSessionByID (receiveService st) (Get (Query r) "sessionId") = Some session /\
  sess_Files session !! Get (Query r) "fileId" = Some f /\
  StatusCode (UploadHandlerV2 SplitHostPort os cfg st r).2 = StatusOK.

(** The last sentence of C10 as it is worded: whenever the declared name
    contains a separator or a [..] element, the accepted upload lands
    outside the download directory. *)
Definition separator_or_dotdot_escapes : Prop :=
  forall SplitHostPort os cfg st r session f,
    accepted_upload SplitHostPort os cfg st r session f ->
    contains_separator (FileName (Dto f)) = true \/
    has_dotdot (FileName (Dto f)) = true ->
    filepath.within (DownloadDir cfg) (destination os cfg f) = false.

(** The receive states the three handlers can produce from the idle state,
    the operating system answering each call as it likes. *)
Inductive reachable (supply : nat -> string)
    (decodePrepareUpload : string -> option PrepareUploadRequestDto)
    (SplitHostPort : string -> string) : ReceiveState -> Prop :=
| reach_idle g d :
    reachable supply decodePrepareUpload SplitHostPort
      {| receiveService := NewReceiveService; drawn := g; disk := d |}
| reach_prepare cfg st r :
    reachable supply decodePrepareUpload SplitHostPort st ->
    reachable supply decodePrepareUpload SplitHostPort
      (PrepareUploadHandlerV2 supply decodePrepareUpload SplitHostPort cfg st r).1
| reach_upload os cfg st r :
    reachable supply decodePrepareUpload SplitHostPort st ->
    reachable supply decodePrepareUpload SplitHostPort
      (UploadHandlerV2 SplitHostPort os cfg st r).1
| reach_cancel st r :
    reachable supply decodePrepareUpload SplitHostPort st ->
    reachable supply decodePrepareUpload SplitHostPort (CancelHandler st r).1.

(** A single path element that is neither empty nor [.] nor [..]. *)
Definition plain_element (n : string) : Prop :=
  contains_separator n = false /\ n ≠ "" /\ n ≠ "." /\ n ≠ "..".

(** The elements [Clean] keeps when none of them is [..]. *)
Definition kept_elements (es : list string) : list string :=
  filter (λ e, e ≠ "" /\ e ≠ ".") es.

(** The shape of the elements [Clean] has kept so far (innermost first):
    plain elements on top of [..] elements, the latter only in a relative
    path. *)
Definition clean_stack (rooted : bool) (out : list string) : Prop :=
  exists k plain, out = (plain ++ replicate k "..")%list /\
                  Forall plain_element plain /\
                  (rooted = true -> k = 0).

(** The elements of a directory's cleaned path, outermost first:
    [["downloads"]] for [./downloads], [["srv"; "dl"]] for [/srv/dl],
    none for [.] and for the root. *)
Definition dir_elements (dir : string) : list string :=
  filepath.clean_elements (filepath.IsRooted dir) (filepath.elements dir).

(** The name [rest] behind [k] leading [..] elements:
    [climb 2 "etc/passwd" = "../../etc/passwd"]. *)
Fixpoint climb (k : nat) (rest : string) : string :=
  match k with
  | 0 => rest
  | S k' => ".." ++ "/" ++ climb k' rest
  end.

Definition cfg_srv : Config :=
  {| cfg_Alias := "receiver"; cfg_Port := 53317; cfg_HttpsEnabled := true;
     cfg_DeviceModel := Some "GoDevice"; cfg_DeviceType := DeviceTypeDesktop;
     cfg_CertificateHash := "local-fp"; PIN := ""; DownloadDir := "/srv/dl" |}.

(** The send state after a first prepare-download: the session offers
    the placeholder file. *)
Definition placeholder : FileDto :=
  mkFileDto "dummy-file-id" "dummy.txt" 12 "text/plain" None.

Definition offering_placeholder : SendState :=
  {| sendService :=
       {| send_currentSession :=
            Some {| send_SessionID := "id-1";
                    send_Files := {[ "id-0" := placeholder ]} |} |};
     send_drawn := 2 |}.

Definition download_req (sessionId fileId : string) : Request :=
  {| Method := "GET";
     Query := {[ "sessionId" := [sessionId]; "fileId" := [fileId] ]};
     RemoteAddr := "10.0.0.3:40000"; Body := "" |}.

(** Upserting a Discovery Message into the service registry: the device
    record is built from the message and the source IP, and its pointer
    is handed to [updateDevice]. *)
Definition upsert_message (s : discovery.Service) (h : discovery.Store) (now : Z)
    (d : MulticastDto) (ip : string)
  : option (discovery.Service * discovery.Store * list (discovery.Handler * nat)) :=
  let '(h1, p) := discovery.alloc h (FromMulticastDto d ip now) in
  discovery.updateDevice s h1 now p.

Definition is_done (e : discovery.Event) : bool :=
  match e with discovery.CtxDone _ => true | _ => false end.

(** The time at which an event takes place. *)
Definition at_time (e : discovery.Event) : Z :=
  match e with
  | discovery.CtxDone now | discovery.Tick now | discovery.Sighting now _ => now
  end.

(** C8 as it is worded: what [Discover] returns when the context is done
    at [now] holds every device that is in the registry and fresh then. *)
Definition discover_returns_all_fresh : Prop :=
  forall s md h net_ok start pre now post alias port fingerprint deviceType
         deviceModel res,
    forallb (λ e, negb (is_done e)) pre = true ->
    (discovery.Discover s md h net_ok start (pre ++ discovery.CtxDone now :: post)
       alias port fingerprint deviceType deviceModel).2 = Some res ->
    forall p, p ∈ discovery.GetDevices (discovery.dr_service res)
                    (discovery.dr_store res) now ->
              p ∈ discovery.found res.

(** C6 as it is worded: after two messages with one fingerprint the
    entry carries the IP of the second. *)
Definition repeat_sighting_updates_ip : Prop :=
  forall s h now1 now2 d1 d2 ip1 ip2 s1 h1 started1 s2 h2 started2,
    dto_Fingerprint d2 = dto_Fingerprint d1 ->
    discovery.devices s !! dto_Fingerprint d1 = None ->
    upsert_message s h now1 d1 ip1 = Some (s1, h1, started1) ->
    upsert_message s1 h1 now2 d2 ip2 = Some (s2, h2, started2) ->
    exists p d, discovery.devices s2 !! dto_Fingerprint d1 = Some p /\
                h2 !! p = Some d /\ IP d = ip2 /\ LastSeen d = now2.

Definition peer_dto : MulticastDto :=
  mkMulticastDto "phone" "2.1" (Some "Pixel") DeviceTypeMobile "peer-fp" 53317
    ProtocolTypeHTTPS false true.

Definition self_dto : MulticastDto :=
  mkMulticastDto "receiver" "2.1" (Some "GoDevice") DeviceTypeDesktop "local-fp" 53317
    ProtocolTypeHTTPS false true.

Definition unmarshal_sample (data : string) : option MulticastDto :=
  if decide (data = "self") then Some self_dto
  else if decide (data = "peer") then Some peer_dto
  else None.

Definition md0 : discovery.MulticastDiscovery :=
  {| discovery.md_config := discovery.DefaultMulticastConfig;
     discovery.dto := self_dto;
     discovery.md_devices := ∅;
     discovery.md_handlers := [discovery.ServiceUpdate] |}.

Definition service0 : discovery.Service :=
  discovery.AddDeviceHandler (discovery.NewService discovery.DefaultServiceConfig)
    (discovery.External 0).

(** A registry holding the peer, last seen at time 0. *)
Definition registered : discovery.Service :=
  {| discovery.config := discovery.DefaultServiceConfig;
     discovery.devices := {[ "peer-fp" := 0 ]};
     discovery.handlers := [] |}.

Definition records : discovery.Store :=
  {[ 0 := FromMulticastDto peer_dto "10.0.0.2" 0 ]}.

(** A scan started at time 0 with a 400ms deadline: the ticker's one tick
    at 250ms, then the peer's announcement arrives, then the context is
    done. *)
Definition late_sighting : list discovery.Event :=
  [ discovery.Tick (250 * discovery.Millisecond);
    discovery.Sighting (300 * discovery.Millisecond)
      (FromMulticastDto peer_dto "10.0.0.2" (300 * discovery.Millisecond));
    discovery.CtxDone (400 * discovery.Millisecond) ].

(** A scan started at time 0 with a 200ms deadline, the peer's
    announcement arriving after 100ms. *)
Definition early_deadline : list discovery.Event :=
  [ discovery.Sighting (100 * discovery.Millisecond)
      (FromMulticastDto peer_dto "10.0.0.2" (100 * discovery.Millisecond));
    discovery.CtxDone (200 * discovery.Millisecond) ].



End sample.

(** * The rest of the packages *)

(** ** pkg/model and pkg/config: the register message *)

Module register.
Import model config.

Record RegisterDto := mkRegisterDto {
  reg_Alias : string;
  reg_Version : string;
  reg_DeviceModel : option string;
  reg_DeviceType : DeviceType;
  reg_Fingerprint : string;
  reg_Port : Z;
  reg_Protocol : ProtocolType;
  reg_Download : bool
}.

(** [NewDevice(info, ip, detectedPort, detectedHttps)], with [ip.String()]
    already taken and [time.Now()] passed in. *)
Definition NewDevice (info : RegisterDto) (ip : string) (detectedPort : Z)
    (detectedHttps : bool) (now : Z) : Device :=
  let port := if (reg_Port info <=? 0)%Z then detectedPort else reg_Port info in
  let protocol := if detectedHttps then ProtocolTypeHTTPS else ProtocolTypeHTTP in
  {| IP := ip;
     Version := reg_Version info;
     Port := port;
     Alias := reg_Alias info;
     Protocol := protocol;
     Fingerprint := reg_Fingerprint info;
     DeviceModel := reg_DeviceModel info;
     DeviceType_ := reg_DeviceType info;
     Download := reg_Download info;
     LastSeen := now;
     Available := true |}.

(** [Device.ToInfoDto] *)
Definition Device_ToInfoDto (d : Device) : InfoDto :=
  {| info_Alias := Alias d;
     info_Version := Version d;
     info_DeviceModel := DeviceModel d;
     info_DeviceType := DeviceType_ d;
     info_Fingerprint := Fingerprint d;
     info_Download := Download d |}.

(** [Config.ToRegisterDto] *)
Definition ToRegisterDto (c : Config) : RegisterDto :=
  let protocol := if cfg_HttpsEnabled c then ProtocolTypeHTTPS else ProtocolTypeHTTP in
  {| reg_Alias := cfg_Alias c;
     reg_Version := ProtocolVersion;
     reg_DeviceModel := cfg_DeviceModel c;
     reg_DeviceType := cfg_DeviceType c;
     reg_Fingerprint := cfg_CertificateHash c;
     reg_Port := cfg_Port c;
     reg_Protocol := protocol;
     reg_Download := false |}.

End register.

(** ** pkg/server/handlers: discovery over HTTP *)

Module discovery_handlers.
Import model config http register.

Definition StatusPreconditionFailed : Z := 412.

(** What the two handlers hand to [json.Marshal]. *)
Inductive InfoPayload :=
| InfoError (message : string)
| InfoJson (dto : InfoDto).

Record InfoResponse := mkInfoResponse {
  ir_StatusCode : Z;
  ir_Header : gmap string string;
  ir_Written : InfoPayload
}.

(** [httputil.RespondJSON] and [httputil.RespondError] on a fresh writer *)
Definition respond (statusCode : Z) (data : InfoPayload) : InfoResponse :=
  {| ir_StatusCode := statusCode;
     ir_Header := {[ "Content-Type" := "application/json" ]};
     ir_Written := data |}.

Section with_decoder.
(** [json.NewDecoder(r.Body).Decode(&requestDto)]; [None] on an error *)
Variable decodeRegister : string -> option RegisterDto.

(** [DiscoveryHandler.InfoHandler].  [hasSecurityContext] tells whether
    [config.SecurityContext] is non-nil; [cfg_CertificateHash] is its hash
    when it is. *)
Definition InfoHandler (cfg : Config) (hasSecurityContext : bool) (r : Request)
  : InfoResponse :=
  if negb hasSecurityContext then
    respond StatusInternalServerError
      (InfoError "Internal Server Error: Security context missing")
  else
    let senderFingerprint := Get (Query r) "fingerprint" in
    if decide (senderFingerprint ≠ "" ∧ senderFingerprint = cfg_CertificateHash cfg) then
      respond StatusPreconditionFailed (InfoError "Self-discovered")
    else
      let downloadCapable := false in
      respond StatusOK
        (InfoJson {| info_Alias := cfg_Alias cfg;
                     info_Version := ProtocolVersion;
                     info_DeviceModel := cfg_DeviceModel cfg;
                     info_DeviceType := cfg_DeviceType cfg;
                     info_Fingerprint := cfg_CertificateHash cfg;
                     info_Download := downloadCapable |}).

(** [DiscoveryHandler.RegisterHandler] *)
Definition RegisterHandler (cfg : Config) (hasSecurityContext : bool) (r : Request)
  : InfoResponse :=
  if negb hasSecurityContext then
    respond StatusInternalServerError
      (InfoError "Internal Server Error: Security context missing")
  else if decide (Method r ≠ MethodPost) then
    respond StatusMethodNotAllowed (InfoError "Method Not Allowed")
  else
    match decodeRegister (Body r) with
    | None => respond StatusBadRequest (InfoError "Request body malformed")
    | Some requestDto =>
        if decide (reg_Fingerprint requestDto = cfg_CertificateHash cfg) then
          respond StatusPreconditionFailed (InfoError "Self-discovered")
        else
          let downloadCapable := false in
          respond StatusOK
            (InfoJson {| info_Alias := cfg_Alias cfg;
                         info_Version := ProtocolVersion;
                         info_DeviceModel := cfg_DeviceModel cfg;
                         info_DeviceType := cfg_DeviceType cfg;
                         info_Fingerprint := cfg_CertificateHash cfg;
                         info_Download := downloadCapable |})
    end.
End with_decoder.

End discovery_handlers.

(** ** pkg/discovery: the multicast listener *)

Module multicast.
Import model discovery.

(** [MulticastDiscovery] with its socket: [conn] is the open connection,
    if any, and [closed] the flag [Stop] sets. *)
Record Listener := mkListener {
  md : MulticastDiscovery;
  conn : option nat;
  closed : bool
}.

(** [NewMulticastDiscovery] *)
Definition NewMulticastDiscovery (config : option MulticastConfig) (d : MulticastDto)
  : Listener :=
  let config := match config with Some c => c | None => DefaultMulticastConfig end in
  {| md := {| md_config := config; dto := d; md_devices := ∅; md_handlers := [] |};
     conn := None;
     closed := false |}.

(** [MulticastDiscovery.AddDeviceHandler] *)
Definition md_AddDeviceHandler (m : MulticastDiscovery) (handler : Handler)
  : MulticastDiscovery :=
  {| md_config := md_config m; dto := dto m; md_devices := md_devices m;
     md_handlers := md_handlers m ++ [handler] |}.

(** What the network answers when the listener asks for its socket. *)
Inductive ListenOutcome :=
| ResolveFails
| ListenFails
| Listens (c : nat).

(** [MulticastDiscovery.StartListening]: the listener, the error, and
    whether the listen loop was started. *)
Definition StartListening (l : Listener) (net : ListenOutcome)
  : Listener * option string * bool :=
  match conn l with
  | Some _ => (l, Some "already listening", false)
  | None =>
      match net with
      | ResolveFails => (l, Some "failed to resolve multicast address", false)
      | ListenFails => (l, Some "failed to listen on multicast socket", false)
      | Listens c => ({| md := md l; conn := Some c; closed := closed l |}, None, true)
      end
  end.

(** [MulticastDiscovery.Stop] *)
Definition Stop (l : Listener) : Listener :=
  {| md := md l; conn := None; closed := true |}.

(** [MulticastDiscovery.GetDevices]: every registered device, in the order
    the range over the map visits them. *)
Definition md_GetDevices (m : MulticastDiscovery) : list nat :=
  snd <$> map_to_list (md_devices m).

(** [s[:k]]: [None] is the slice-bounds panic. *)
Definition slice_to (s : string) (k : Z) : option string :=
  if ((k <? 0) || (Z.of_nat (String.length s) <? k))%Z then None
  else Some (String.substring 0 (Z.to_nat k) s).

(** [getShortFingerprint] *)
Definition getShortFingerprint (fingerprint : string) : string :=
  if (8 <? Z.of_nat (String.length fingerprint))%Z then
    match slice_to fingerprint 8 with
    | Some short => short ++ "..."
    | None => fingerprint
    end
  else fingerprint.

(** [strings.Contains] *)
Fixpoint Contains (s substr : string) : bool :=
  String.prefix substr s
  || match s with
     | EmptyString => false
     | String _ s' => Contains s' substr
     end.

(** What one turn of the listen loop meets: the context found done at its
    check, [Stop] called by another goroutine before the turn, or the
    outcome of [ReadFrom]. *)
Inductive Turn :=
| CtxIsDone
| Stopped
| ReadFails (timeout : bool) (message : string)
| ReadPacket (now : Z) (net_ok : bool) (data : string) (addr : Addr).

Record LoopState := mkLoopState {
  ls_listener : Listener;
  ls_store : Store;
  ls_started : list (Handler * nat);
  ls_sent : list Datagram;
  ls_returned : bool
}.

Section with_decoder.
Variable unmarshalMulticastDto : string -> option MulticastDto.

(** [MulticastDiscovery.listenLoop] over the turns given; [ls_returned]
    tells whether the loop has returned or still waits for a packet. *)
Fixpoint listenLoop (turns : list Turn) (l : Listener) (h : Store)
    (started : list (Handler * nat)) (sent : list Datagram) : LoopState :=
  match turns with
  | CtxIsDone :: _ => mkLoopState l h started sent true
  | _ =>
      if closed l || bool_decide (conn l = None) then
        mkLoopState l h started sent true
      else
        match turns with
        | [] => mkLoopState l h started sent false
        | CtxIsDone :: _ => mkLoopState l h started sent true
        | Stopped :: turns' => listenLoop turns' (Stop l) h started sent
        | ReadFails timeout message :: turns' =>
            if timeout then listenLoop turns' l h started sent
            else if Contains message "use of closed network connection" then
              mkLoopState l h started sent true
            else listenLoop turns' l h started sent
        | ReadPacket now net_ok data addr :: turns' =>
            let r := handlePacket unmarshalMulticastDto (md l) h now net_ok data addr in
            listenLoop turns'
              {| md := pr_md r; conn := conn l; closed := closed l |}
              (pr_store r) (started ++ pr_started r) (sent ++ pr_sent r)
        end
  end.
End with_decoder.

End multicast.

(** ** pkg/discovery: starting the service *)

Module lifecycle.
Import model discovery multicast.

(** What [Service.Start] leaves behind: the multicast instance, the
    datagrams sent, the error, and whether the listen loop and the
    announcement loop were started. *)
Record StartResult := mkStartResult {
  sr_listener : Listener;
  sr_sent : list Datagram;
  sr_err : option string;
  sr_listening : bool;
  sr_announcing : bool
}.

(** [Service.Start] *)
Definition Start (s : Service) (l : Listener) (net : ListenOutcome) (net_ok : bool)
    (alias : string) (port : Z) (fingerprint : string)
    (deviceType : DeviceType) (deviceModel : option string) : StartResult :=
  let multicastDto :=
    {| dto_Alias := alias; dto_Version := config.ProtocolVersion;
       dto_DeviceModel := deviceModel; dto_DeviceType := deviceType;
       dto_Fingerprint := fingerprint; dto_Port := port;
       dto_Protocol := ProtocolTypeHTTPS; dto_Download := false;
       dto_Announce := true |} in
  let l1 := {| md := md_AddDeviceHandler (SetDto (md l) multicastDto) ServiceUpdate;
               conn := conn l; closed := closed l |} in
  match StartListening l1 net with
  | (l2, Some _, started) =>
      mkStartResult l2 [] (Some "failed to start multicast discovery") started false
  | (l2, None, started) =>
      let announcing := EnableAnnouncement (config s) in
      let '(sent, _) := SendDiscoveryAnnouncement (md l2) net_ok in
      mkStartResult l2 sent None started announcing
  end.

(** [Service.Stop], on the multicast instance *)
Definition Service_Stop (l : Listener) : Listener := Stop l.

End lifecycle.

(** ** pkg/discovery: probing over HTTP *)

Module http_discovery.
Import model.

(** What a GET gives: [http.NewRequestWithContext] rejects the URL, or
    [client.Do] fails (refused, timed out, context cancelled, TLS failure),
    or there is a response with its status and its body, [None] when
    reading the body fails. *)
Inductive HttpResult :=
| RequestInvalid
| TransportError (message : string)
| HttpResponse (status : Z) (body : option string).

(** The scheme in a URL. *)
Definition scheme_name (scheme : ProtocolType) : string :=
  match scheme with
  | ProtocolTypeHTTP => "http"
  | ProtocolTypeHTTPS => "https"
  end.

(** [fmt.Sprintf("%s://%s:%d/api/localsend/v2/info", scheme, ip, port)] *)
Definition info_url (scheme : ProtocolType) (ip : string) (port : Z) : string :=
  scheme_name scheme ++ "://" ++ ip ++ ":" ++ pretty port ++ "/api/localsend/v2/info".

Section with_network.
(** [hd.client.Do] for a GET of the URL *)
Variable client_Get : string -> HttpResult.
(** [json.Unmarshal(body, &infoDto)]; [None] on an error *)
Variable unmarshalInfoDto : string -> option InfoDto.
(** [time.Now()] when the probe of an address returns *)
Variable clock : string -> Z.

(** [HTTPDiscovery.fetchDeviceInfo], called with the scheme [https] or
    [http] only. *)
Definition fetchDeviceInfo (ip : string) (port : Z) (scheme : ProtocolType)
  : Device + string :=
  match client_Get (info_url scheme ip port) with
  | RequestInvalid => inr "failed to create request"
  | TransportError _ => inr "failed to send request"
  | HttpResponse status body =>
      if decide (status ≠ http.StatusOK) then
        inr ("unexpected status code: " ++ pretty status)
      else
        match body with
        | None => inr "failed to read response body"
        | Some body =>
            match unmarshalInfoDto body with
            | None => inr "failed to parse response body"
            | Some infoDto =>
                inl {| IP := ip;
                       Version := info_Version infoDto;
                       Protocol := scheme;
                       Port := port;
                       Alias := info_Alias infoDto;
                       Fingerprint := info_Fingerprint infoDto;
                       DeviceModel := info_DeviceModel infoDto;
                       DeviceType_ := info_DeviceType infoDto;
                       Download := info_Download infoDto;
                       LastSeen := clock ip;
                       Available := true |}
            end
        end
  end.

(** [HTTPDiscovery.FetchDeviceInfo] *)
Definition FetchDeviceInfo (ip : string) (port : Z) : Device + string :=
  match fetchDeviceInfo ip port ProtocolTypeHTTPS with
  | inl device => inl device
  | inr _ => fetchDeviceInfo ip port ProtocolTypeHTTP
  end.

(** The goroutine [ScanNetwork] starts for one address: what it sends to
    the channel. *)
Definition probe (ip : string) (port : Z) : option Device :=
  match fetchDeviceInfo ip port ProtocolTypeHTTPS with
  | inl device => Some device
  | inr _ =>
      match fetchDeviceInfo ip port ProtocolTypeHTTP with
      | inl device => Some device
      | inr _ => None
      end
  end.

(** The order in which the goroutines started for a list of addresses
    reach the channel. *)
Variable schedule : list string -> list string.

(** [HTTPDiscovery.ScanNetwork].  The goroutines write to a channel with
    room for all of them and the channel is read once all have returned:
    the devices come in the order the probes complete. *)
Definition ScanNetwork (ips : list string) (port : Z) : list Device * option string :=
  (omap (λ ip, probe ip port) (schedule ips), None).

(** [HTTPDiscovery.ScanLocalNetwork]; [GetLocalIPAddresses] is what
    [network.GetLocalIPAddresses] returns. *)
Definition ScanLocalNetwork (GetLocalIPAddresses : list string + string) (port : Z)
  : list Device * option string :=
  match GetLocalIPAddresses with
  | inr _ => ([], Some "could not get local ip addresses to scan")
  | inl localIPs => ScanNetwork (localIPs ++ ["127.0.0.1"]) port
  end.

(** [hd.client.Do] for a POST of a body to the URL *)
Variable client_Post : string -> string -> HttpResult.
(** [json.Marshal(hd.dto)]; [None] on an error *)
Variable marshalRegisterDto : register.RegisterDto -> option string.

(** [fmt.Sprintf("%s://%s:%d/api/localsend/v2/register", scheme, ip, port)] *)
Definition register_url (scheme : ProtocolType) (ip : string) (port : Z) : string :=
  scheme_name scheme ++ "://" ++ ip ++ ":" ++ pretty port ++ "/api/localsend/v2/register".

(** [HTTPDiscovery.RegisterWithDevice], [dto] being [hd.dto]. *)
Definition RegisterWithDevice (dto : register.RegisterDto) (ip : string) (port : Z)
  : Device + string :=
  match marshalRegisterDto dto with
  | None => inr "failed to marshal request body"
  | Some jsonData =>
      let scheme := ProtocolTypeHTTP in
      match client_Post (register_url scheme ip port) jsonData with
      | RequestInvalid => inr "failed to create request"
      | TransportError _ => inr "failed to send request"
      | HttpResponse status body =>
          if decide (status ≠ http.StatusOK) then
            inr ("unexpected status code: " ++ pretty status)
          else
            match body with
            | None => inr "failed to read response body"
            | Some body =>
                match unmarshalInfoDto body with
                | None => inr "failed to parse response body"
                | Some infoDto =>
                    inl {| IP := ip;
                           Version := info_Version infoDto;
                           Protocol := scheme;
                           Port := port;
                           Alias := info_Alias infoDto;
                           Fingerprint := info_Fingerprint infoDto;
                           DeviceModel := info_DeviceModel infoDto;
                           DeviceType_ := info_DeviceType infoDto;
                           Download := info_Download infoDto;
                           LastSeen := clock ip;
                           Available := true |}
                end
            end
      end
  end.
End with_network.

End http_discovery.

(** ** pkg/cli: device output *)

Module cli.
Import model.

Definition tab : string := String "009"%char EmptyString.
Definition newline : string := String "010"%char EmptyString.

(** [truncateString]; [None] is the slice-bounds panic of [s[:maxLen-3]]. *)
Definition truncateString (s : string) (maxLen : Z) : option string :=
  if (Z.of_nat (String.length s) <=? maxLen)%Z then Some s
  else match multicast.slice_to s (maxLen - 3) with
       | Some head => Some (head ++ "...")
       | None => None
       end.

(** The line [writeDevicesQuiet] prints for one device; [None] is the
    panic of [device.Fingerprint[:16]]. *)
Definition quiet_line (device : Device) : option string :=
  match multicast.slice_to (Fingerprint device) 16 with
  | None => None
  | Some short =>
      Some (Alias device ++ tab ++ IP device ++ tab
            ++ http_discovery.scheme_name (Protocol device) ++ tab
            ++ pretty (Port device) ++ tab ++ (short ++ "...") ++ newline)
  end.

(** [OutputWriter.writeDevicesQuiet]: what has reached standard output,
    and whether the call panicked. *)
Fixpoint writeDevicesQuiet (devices : list Device) (stdout : string) : string * bool :=
  match devices with
  | [] => (stdout, false)
  | device :: devices' =>
      match quiet_line device with
      | None => (stdout, true)
      | Some line => writeDevicesQuiet devices' (stdout ++ line)
      end
  end.

End cli.

(** ** pkg/server *)

Module server.
Import model services config http httputil handlers discovery_handlers.

(** The server's two session managers, with the identifiers drawn so
    far and the disk behind the storage sink. *)
Record Server := mkServer {
  srv_receiveService : ReceiveService;
  srv_sendService : SendService;
  srv_drawn : nat;
  srv_disk : storage.FS
}.

(** [NewServer], at a point where [drawn] identifiers have been generated,
    on a disk. *)
Definition NewServer (drawn : nat) (disk : storage.FS) : Server :=
  {| srv_receiveService := NewReceiveService; srv_sendService := NewSendService;
     srv_drawn := drawn; srv_disk := disk |}.

Inductive Route :=
| RouteInfo | RouteRegister
| RoutePrepareUploadV1 | RoutePrepareUploadV2 | RouteUpload | RouteCancel
| RoutePrepareDownload | RouteDownload.

(** The table [configureRoutes] registers, in its order: path, method,
    handler. *)
Definition configureRoutes : list (string * string * Route) :=
  [ ("/api/localsend/v1/info", "GET", RouteInfo);
    ("/api/localsend/v2/info", "GET", RouteInfo);
    ("/api/localsend/v1/register", "POST", RouteRegister);
    ("/api/localsend/v2/register", "POST", RouteRegister);
    ("/api/localsend/v1/prepare-upload", "POST", RoutePrepareUploadV1);
    ("/api/localsend/v2/prepare-upload", "POST", RoutePrepareUploadV2);
    ("/api/localsend/v2/upload", "POST", RouteUpload);
    ("/api/localsend/v2/cancel", "POST", RouteCancel);
    ("/api/localsend/v2/prepare-download", "POST", RoutePrepareDownload);
    ("/api/localsend/v2/download", "GET", RouteDownload) ].

Inductive Matched :=
| Found (route : Route)
| MethodMismatch
| NoMatch.

(** [mux.Router.Match], as gorilla/mux does it since version 1.6.1: the
    first route that matches path and method; a route that matches the
    path only is remembered as a method mismatch ([mismatch]), which is
    reported, and answered 405, when no route matches. *)
Fixpoint Match (table : list (string * string * Route)) (path method : string)
    (mismatch : bool) : Matched :=
  match table with
  | [] => if mismatch then MethodMismatch else NoMatch
  | (p, m, route) :: table' =>
      if decide (p = path) then
        if decide (m = method) then Found route
        else Match table' path method true
      else Match table' path method mismatch
  end.

(** What reaches the client: the answer of a receive or download handler,
    the answer of a discovery handler, or the status the router itself
    answers with. *)
Inductive Served :=
| FromHandler (resp : Response)
| FromDiscovery (resp : InfoResponse)
| FromRouter (status : Z).

Definition status_of (a : Served) : Z :=
  match a with
  | FromHandler resp => StatusCode resp
  | FromDiscovery resp => ir_StatusCode resp
  | FromRouter status => status
  end.

Definition receive_state (srv : Server) : ReceiveState :=
  {| receiveService := srv_receiveService srv; drawn := srv_drawn srv;
     disk := srv_disk srv |}.

Definition send_state (srv : Server) : SendState :=
  {| sendService := srv_sendService srv; send_drawn := srv_drawn srv |}.

Definition after_receive (srv : Server) (res : ReceiveState * Response)
  : Server * Served :=
  ({| srv_receiveService := receiveService res.1;
      srv_sendService := srv_sendService srv;
      srv_drawn := drawn res.1; srv_disk := disk res.1 |},
   FromHandler res.2).

Definition after_send (srv : Server) (res : SendState * Response) : Server * Served :=
  ({| srv_receiveService := srv_receiveService srv;
      srv_sendService := sendService res.1;
      srv_drawn := send_drawn res.1; srv_disk := srv_disk srv |},
   FromHandler res.2).

Section with_environment.
Variable supply : nat -> string.
Variable decodePrepareUpload : string -> option PrepareUploadRequestDto.
Variable SplitHostPort : string -> string.
Variable os : storage.OS.
Variable decodeRegister : string -> option register.RegisterDto.

(** [ReceiveHandler.PrepareUploadHandlerV1] *)
Definition PrepareUploadHandlerV1 (cfg : Config) (st : ReceiveState) (r : Request)
  : ReceiveState * Response :=
  PrepareUploadHandlerV2 supply decodePrepareUpload SplitHostPort cfg st r.

(** The router serving one request for [path]. *)
Definition ServeHTTP (cfg : Config) (hasSecurityContext : bool) (srv : Server)
    (path : string) (r : Request) : Server * Served :=
  match Match configureRoutes path (Method r) false with
  | NoMatch => (srv, FromRouter StatusNotFound)
  | MethodMismatch => (srv, FromRouter StatusMethodNotAllowed)
  | Found RouteInfo => (srv, FromDiscovery (InfoHandler cfg hasSecurityContext r))
  | Found RouteRegister =>
      (srv, FromDiscovery (RegisterHandler decodeRegister cfg hasSecurityContext r))
  | Found RoutePrepareUploadV1 =>
      after_receive srv (PrepareUploadHandlerV1 cfg (receive_state srv) r)
  | Found RoutePrepareUploadV2 =>
      after_receive srv
        (PrepareUploadHandlerV2 supply decodePrepareUpload SplitHostPort cfg
           (receive_state srv) r)
  | Found RouteUpload =>
      after_receive srv (UploadHandlerV2 SplitHostPort os cfg (receive_state srv) r)
  | Found RouteCancel => after_receive srv (CancelHandler (receive_state srv) r)
  | Found RoutePrepareDownload =>
      after_send srv (PrepareDownloadHandler supply cfg (send_state srv) r)
  | Found RouteDownload => (srv, FromHandler (DownloadHandler (send_state srv) r))
  end.
End with_environment.

End server.

(** ** Package send *)

Module send.
Import model http httputil server.

(** A URL as [fmt.Sprintf] assembles it, kept in its parts; the values of
    the query are put in as they are. *)
Record Url := mkUrl {
  url_scheme : ProtocolType;
  url_host : string;
  url_port : Z;
  url_path : string;
  url_query : list (string * string)
}.

Fixpoint last_nonempty (reversed : list string) : option string :=
  match reversed with
  | [] => None
  | e :: rest => if decide (e = "") then last_nonempty rest else Some e
  end.

(** [filepath.Base] on a Unix-like system: the last element of the path,
    trailing separators set aside; [.] for the empty path, the separator
    for a path of separators only. *)
Definition Base (path : string) : string :=
  if decide (path = "") then "."
  else match last_nonempty (reverse (filepath.elements path)) with
       | Some e => e
       | None => "/"
       end.

(** [http.DetectContentType([]byte{})] *)
Definition DetectContentType_empty : string := "text/plain; charset=utf-8".

Section with_environment.
(** What answers behind the device's address, and [client.Post] or
    [client.Do] for a POST of a body: the answer, or [None] for an
    error. *)
Variable Net : Type.
Variable Post : Url -> string -> Net -> Net * option Served.
(** [http.NewRequestWithContext] accepts the URL *)
Variable valid_url : Url -> bool.
(** [uuid.NewString()] *)
Variable NewString : string.
(** [os.Stat(filePath)]: the size, or [None] for an error *)
Variable Stat : string -> option Z.
(** [os.Open(filePath)] and the content read from it *)
Variable Open : string -> option string.
(** [json.Marshal(prepareDto)] *)
Variable marshalPrepare : PrepareUploadRequestDto -> option string.
(** [json.NewDecoder(resp.Body).Decode(&prepareResponse)] *)
Variable decodePrepareResponse : Served -> option PrepareUploadResponseDto.
(** [resp.Status] *)
Variable Status : Z -> string.

(** [uploadFile] *)
Definition uploadFile (net : Net) (device : Device)
    (filePath fileID sessionID token : string) (scheme : ProtocolType)
  : Net * option string :=
  match Open filePath with
  | None => (net, Some "failed to open file")
  | Some file =>
      let url := {| url_scheme := scheme; url_host := IP device;
                    url_port := Port device;
                    url_path := "/api/localsend/v2/upload";
                    url_query := [("sessionId", sessionID); ("fileId", fileID);
                                  ("token", token)] |} in
      if negb (valid_url url) then (net, Some "failed to create upload request")
      else
        match Post url file net with
        | (net', None) => (net', Some "failed to send upload request")
        | (net', Some resp) =>
            if decide (status_of resp ≠ StatusOK) then
              (net', Some ("upload request failed with status: "
                           ++ Status (status_of resp)))
            else (net', None)
        end
  end.

(** [sendToDevice] *)
Definition sendToDevice (net : Net) (device : Device) (filePath : string)
  : Net * option string :=
  let scheme := match Protocol device with
                | ProtocolTypeHTTPS => ProtocolTypeHTTPS
                | ProtocolTypeHTTP => ProtocolTypeHTTP
                end in
  match Stat filePath with
  | None => (net, Some "failed to get file info")
  | Some size =>
      let fileDto := {| ID := NewString; FileName := Base filePath; Size := size;
                        FileType := DetectContentType_empty; SHA256 := None |} in
      let prepareDto :=
        {| Info := {| info_Alias := Alias device;
                      info_Version := Version device;
                      info_DeviceModel := DeviceModel device;
                      info_DeviceType := DeviceType_ device;
                      info_Fingerprint := Fingerprint device;
                      info_Download := Download device |};
           Files := {[ ID fileDto := fileDto ]} |} in
      match marshalPrepare prepareDto with
      | None => (net, Some "failed to marshal prepare dto")
      | Some jsonData =>
          let url := {| url_scheme := scheme; url_host := IP device;
                        url_port := Port device;
                        url_path := "/api/localsend/v2/prepare-upload";
                        url_query := [] |} in
          match Post url jsonData net with
          | (net', None) => (net', Some "failed to send prepare request")
          | (net', Some resp) =>
              if decide (status_of resp ≠ StatusOK) then
                (net', Some ("prepare request failed with status: "
                             ++ Status (status_of resp)))
              else
                match decodePrepareResponse resp with
                | None => (net', Some "failed to decode prepare response")
                | Some prepareResponse =>
                    uploadFile net' device filePath (ID fileDto)
                      (resp_SessionID prepareResponse)
                      (default "" (resp_Files prepareResponse !! ID fileDto))
                      scheme
                end
          end
      end
  end.
End with_environment.

End send.

(** ** Vocabulary of the further statements *)

Module scenario.
Import model services config http httputil handlers.

(** A run of [/upload] requests, one after the other: the final state and
    the status codes answered. *)
Fixpoint run_uploads (SplitHostPort : string -> string) (os : storage.OS)
    (cfg : Config) (st : ReceiveState) (rs : list Request) : ReceiveState * list Z :=
  match rs with
  | [] => (st, [])
  | r :: rs' =>
      let '(st1, resp) := UploadHandlerV2 SplitHostPort os cfg st r in
      let '(st2, codes) := run_uploads SplitHostPort os cfg st1 rs' in
      (st2, StatusCode resp :: codes)
  end.

(** [r] is the upload a well-behaved sender makes for the pending file it
    names: the session's ID, the file's token, from the recorded address. *)
Definition proper_upload (SplitHostPort : string -> string)
    (session : ActiveReceiveSession) (r : Request) : Prop :=
  Method r = MethodPost /\
  Get (Query r) "sessionId" = SessionID session /\
  SplitHostPort (RemoteAddr r) = di_IP (Sender session) /\
  exists f, sess_Files session !! Get (Query r) "fileId" = Some f /\
            Get (Query r) "token" = Token f.

(** The storage sink never fails. *)
Definition sink_never_fails (os : storage.OS) : Prop :=
  forall fs body path, (storage.SaveStreamToFile os fs body path).2 = None.

(** A run of [/prepare-download] requests. *)
Fixpoint run_prepare_downloads (supply : nat -> string) (cfg : Config)
    (st : SendState) (rs : list Request) : SendState * list Z :=
  match rs with
  | [] => (st, [])
  | r :: rs' =>
      let '(st1, resp) := PrepareDownloadHandler supply cfg st r in
      let '(st2, codes) := run_prepare_downloads supply cfg st1 rs' in
      (st2, StatusCode resp :: codes)
  end.

(** The file [PrepareDownloadHandler] offers. *)
Definition dummy_file : FileDto :=
  {| ID := "dummy-file-id"; FileName := "dummy.txt"; Size := 12;
     FileType := "text/plain"; SHA256 := None |}.

Definition cancel_req (sessionId : string) : Request :=
  {| Method := "POST"; Query := {[ "sessionId" := [sessionId] ]};
     RemoteAddr := "10.0.0.2:40002"; Body := "" |}.

(** A session with two files pending, one of them declared under the empty
    file ID. *)
Definition session_blank : ActiveReceiveSession :=
  {| SessionID := "s3"; Sender := sample.sender0;
     sess_Files := {[ "" := {| Dto := sample.file_a; Token := "t0" |};
                      "f1" := {| Dto := sample.file_a; Token := "t1" |} ]} |}.

Definition busy_blank : ReceiveState :=
  {| receiveService := {| currentSession := Some session_blank |};
     drawn := 3; disk := ∅ |}.

Definition busy_two : ReceiveState :=
  {| receiveService := {| currentSession := Some sample.session_two |};
     drawn := 3; disk := ∅ |}.

(** The message a datagram carries. *)
Definition payload (g : discovery.Datagram) : MulticastDto :=
  match g with
  | discovery.ToGroup _ d => d
  | discovery.ToPeer _ _ d => d
  end.

(** Every entry of a registry points to a record in the store, and the
    record carries the entry's key as its fingerprint. *)
Definition registry_wf (registry : gmap string nat) (h : discovery.Store) : Prop :=
  forall id p, registry !! id = Some p ->
    exists d, h !! p = Some d /\ Fingerprint d = id.

(** A turn after which the listen loop goes on: a packet, a timeout, or a
    read error other than the one of a closed connection. *)
Definition keeps_listening (t : multicast.Turn) : bool :=
  match t with
  | multicast.ReadFails timeout message =>
      timeout || negb (multicast.Contains message "use of closed network connection")
  | multicast.ReadPacket _ _ _ _ => true
  | _ => false
  end.

(** The packets among the turns, handled one after the other. *)
Fixpoint handle_packets (unmarshalMulticastDto : string -> option MulticastDto)
    (turns : list multicast.Turn) (m : discovery.MulticastDiscovery)
    (h : discovery.Store) (started : list (discovery.Handler * nat))
    (sent : list discovery.Datagram)
  : discovery.MulticastDiscovery * discovery.Store
    * list (discovery.Handler * nat) * list discovery.Datagram :=
  match turns with
  | [] => (m, h, started, sent)
  | multicast.ReadPacket now net_ok data addr :: turns' =>
      let r := discovery.handlePacket unmarshalMulticastDto m h now net_ok data addr in
      handle_packets unmarshalMulticastDto turns' (discovery.pr_md r)
        (discovery.pr_store r) (started ++ discovery.pr_started r)
        (sent ++ discovery.pr_sent r)
  | _ :: turns' => handle_packets unmarshalMulticastDto turns' m h started sent
  end.

(** A decoder that also knows the response of the local node. *)
Definition unmarshal_wire (data : string) : option MulticastDto :=
  if decide (data = "self-response")
  then Some (discovery.with_Announce sample.self_dto false)
  else sample.unmarshal_sample data.

(** The peer's multicast instance. *)
Definition md_peer : discovery.MulticastDiscovery :=
  {| discovery.md_config := discovery.DefaultMulticastConfig;
     discovery.dto := sample.peer_dto;
     discovery.md_devices := ∅;
     discovery.md_handlers := [] |}.

(** The local node listening on socket 7. *)
Definition listener0 : multicast.Listener :=
  {| multicast.md := sample.md0; multicast.conn := Some 7%nat;
     multicast.closed := false |}.

(** A timeout, a packet that does not decode, the peer's announcement, and
    a reset connection. *)
Definition rough_turns : list multicast.Turn :=
  [ multicast.ReadFails true "i/o timeout";
    multicast.ReadPacket 1000 true "garbage" (discovery.UDPAddr "10.0.0.9" 53317);
    multicast.ReadPacket 2000 true "peer" (discovery.UDPAddr "10.0.0.2" 53317);
    multicast.ReadFails false "read: connection reset by peer" ].

(** The server behind [url] is the node configured by [cfg], with its
    security context in place: a GET of [url], which carries no query, is
    answered by its [InfoHandler], and the JSON it writes decodes to the
    value written. *)
Definition info_served_by (cfg : Config) (client_Get : string -> http_discovery.HttpResult)
    (unmarshalInfoDto : string -> option InfoDto) (url : string) : Prop :=
  exists (r : Request) (body : string),
    Get (Query r) "fingerprint" = "" /\
    client_Get url
    = http_discovery.HttpResponse
        (discovery_handlers.ir_StatusCode (discovery_handlers.InfoHandler cfg true r))
        (Some body) /\
    forall dto,
      discovery_handlers.ir_Written (discovery_handlers.InfoHandler cfg true r)
      = discovery_handlers.InfoJson dto ->
      unmarshalInfoDto body = Some dto.

(** The server behind [url] is the node configured by [cfg]: a POST of
    [jsonData] to [url] is answered by its [RegisterHandler]. *)
Definition register_served_by (cfg : Config)
    (decodeRegister : string -> option register.RegisterDto)
    (client_Post : string -> string -> http_discovery.HttpResult)
    (unmarshalInfoDto : string -> option InfoDto) (url jsonData : string) : Prop :=
  exists (r : Request) (body : string),
    Method r = MethodPost /\ Body r = jsonData /\
    client_Post url jsonData
    = http_discovery.HttpResponse
        (discovery_handlers.ir_StatusCode
           (discovery_handlers.RegisterHandler decodeRegister cfg true r))
        (Some body) /\
    forall dto,
      discovery_handlers.ir_Written
        (discovery_handlers.RegisterHandler decodeRegister cfg true r)
      = discovery_handlers.InfoJson dto ->
      unmarshalInfoDto body = Some dto.

(** The multicast message [Start] and [Discover] build for a node. *)
Definition announcement_of (cfg : Config) : MulticastDto :=
  {| dto_Alias := cfg_Alias cfg; dto_Version := ProtocolVersion;
     dto_DeviceModel := cfg_DeviceModel cfg; dto_DeviceType := cfg_DeviceType cfg;
     dto_Fingerprint := cfg_CertificateHash cfg; dto_Port := cfg_Port cfg;
     dto_Protocol := ProtocolTypeHTTPS; dto_Download := false;
     dto_Announce := true |}.

(** Bodies on the wire, one per value. *)
Definition wire_info (body : string) : option InfoDto :=
  if decide (body = "receiver-info") then Some (ToInfoDto sample.cfg0)
  else if decide (body = "peer-info") then
    Some (mkInfoDto "phone" "2.1" (Some "Pixel") DeviceTypeMobile "peer-fp" false)
  else None.

Definition wire_register (body : string) : option register.RegisterDto :=
  if decide (body = "receiver-register") then Some (register.ToRegisterDto sample.cfg0)
  else if decide (body = "peer-register") then
    Some (register.mkRegisterDto "phone" "2.1" (Some "Pixel") DeviceTypeMobile "peer-fp"
            53317 ProtocolTypeHTTPS false)
  else None.

Definition marshal_register (d : register.RegisterDto) : option string :=
  if decide (register.reg_Fingerprint d = "local-fp") then Some "receiver-register"
  else Some "peer-register".

(** A network of three hosts: the local node on the loopback address,
    serving HTTPS; a peer that only answers HTTP; and a host that answers
    404. *)
Definition net_get (url : string) : http_discovery.HttpResult :=
  if decide (url = "https://127.0.0.1:53317/api/localsend/v2/info") then
    http_discovery.HttpResponse 200 (Some "receiver-info")
  else if decide (url = "http://10.0.0.2:53317/api/localsend/v2/info") then
    http_discovery.HttpResponse 200 (Some "peer-info")
  else if decide (url = "https://10.0.0.2:53317/api/localsend/v2/info") then
    http_discovery.TransportError "tls: first record does not look like a TLS handshake"
  else if decide (url = "http://10.0.0.3:53317/api/localsend/v2/info") then
    http_discovery.HttpResponse 404 (Some "not found")
  else http_discovery.TransportError "connection refused".

(** The local node's [/register] endpoint on plain HTTP. *)
Definition net_post (url body : string) : http_discovery.HttpResult :=
  if decide (url = "http://127.0.0.1:53317/api/localsend/v2/register") then
    let r := {| Method := "POST"; Query := ∅; RemoteAddr := "127.0.0.1:40000";
                Body := body |} in
    let resp := discovery_handlers.RegisterHandler wire_register sample.cfg0 true r in
    http_discovery.HttpResponse (discovery_handlers.ir_StatusCode resp)
      (Some match discovery_handlers.ir_Written resp with
            | discovery_handlers.InfoJson _ => "receiver-info"
            | discovery_handlers.InfoError _ => "error"
            end)
  else http_discovery.TransportError "connection refused".

Definition clock0 (ip : string) : Z := 5000.

(** The device [FetchDeviceInfo] finds at an address, if any. *)
Definition found_at (client_Get : string -> http_discovery.HttpResult)
    (unmarshalInfoDto : string -> option InfoDto) (clock : string -> Z)
    (port : Z) (ip : string) : option Device :=
  match http_discovery.FetchDeviceInfo client_Get unmarshalInfoDto clock ip port with
  | inl device => Some device
  | inr _ => None
  end.

(** The peer as the probe of its address reports it. *)
Definition peer_probed : Device :=
  {| IP := "10.0.0.2"; Version := "2.1"; Port := 53317; Alias := "phone";
     Protocol := ProtocolTypeHTTP; Fingerprint := "peer-fp";
     DeviceModel := Some "Pixel"; DeviceType_ := DeviceTypeMobile;
     Download := false; LastSeen := 5000; Available := true |}.

Definition peer_register : register.RegisterDto :=
  register.mkRegisterDto "phone" "2.1" (Some "Pixel") DeviceTypeMobile "peer-fp"
    53317 ProtocolTypeHTTPS false.

Definition get_req : Request :=
  {| Method := "GET"; Query := ∅; RemoteAddr := "127.0.0.1:40000"; Body := "" |}.

Definition post_req (body : string) : Request :=
  {| Method := "POST"; Query := ∅; RemoteAddr := "127.0.0.1:40000"; Body := body |}.

(** A session whose two files carry the same name. *)
Definition session_twins : ActiveReceiveSession :=
  {| SessionID := "s4"; Sender := sample.sender0;
     sess_Files :=
       {[ "f1" := {| Dto := sample.file_a; Token := "t1" |};
          "f2" := {| Dto := mkFileDto "f2" "a.txt" 11 "text/plain" None;
                     Token := "t2" |} ]} |}.

Definition busy_twins : ReceiveState :=
  {| receiveService := {| currentSession := Some session_twins |};
     drawn := 3; disk := ∅ |}.

Definition second_upload : Request :=
  {| Method := "POST"; Query := sample.upload_query "s4" "f2" "t2";
     RemoteAddr := "10.0.0.2:40001"; Body := "Second body" |}.

(** A disk that already holds a file at the destination of [file_a]. *)
Definition busy_on_used_disk : ReceiveState :=
  {| receiveService := {| currentSession := Some sample.session0 |};
     drawn := 2; disk := {[ "downloads/a.txt" := "an earlier upload" ]} |}.

(** The uploads of a sender that follows the answer to its prepare-upload
    request [r0]: one request per file ID of the token map, each carrying
    the session ID and the token the answer gave for it, from the host the
    prepare request came from. *)
Definition follows_response (SplitHostPort : string -> string) (r0 : Request)
    (sessionId : string) (tokens : gmap string string) (rs : list Request) : Prop :=
  NoDup ((λ r, Get (Query r) "fileId") <$> rs) /\
  (forall k, k ∈ ((λ r, Get (Query r) "fileId") <$> rs) <-> is_Some (tokens !! k)) /\
  Forall (λ r, Method r = MethodPost /\
               Get (Query r) "sessionId" = sessionId /\
               SplitHostPort (RemoteAddr r) = SplitHostPort (RemoteAddr r0) /\
               tokens !! Get (Query r) "fileId" = Some (Get (Query r) "token")) rs.

(** The request the server sees for a POST of [body] to [url] from the
    peer address [peer]. *)
Definition request_of (peer : string) (url : send.Url) (body : string) : Request :=
  {| Method := "POST";
     Query := list_to_map ((λ kv : string * string, (kv.1, [kv.2])) <$> send.url_query url);
     RemoteAddr := peer; Body := body |}.

(** A network on which the device's address reaches the server
    configured by [cfg]: every POST is served by its router, the
    connection for [url] coming from the peer address [peer url]. *)
Definition deliver (supply : nat -> string)
    (decodePrepareUpload : string -> option PrepareUploadRequestDto)
    (SplitHostPort : string -> string) (os : storage.OS)
    (decodeRegister : string -> option register.RegisterDto)
    (cfg : Config) (peer : send.Url -> string)
    (url : send.Url) (body : string) (srv : server.Server)
  : server.Server * option server.Served :=
  let res := server.ServeHTTP supply decodePrepareUpload SplitHostPort os decodeRegister
               cfg true srv (send.url_path url) (request_of (peer url) url body) in
  (res.1, Some res.2).

(** The prepare-upload message [sendToDevice] builds for a file. *)
Definition prepare_message (NewString : string) (device : Device) (filePath : string)
    (fileSize : Z) : PrepareUploadRequestDto :=
  {| Info := {| info_Alias := Alias device;
                info_Version := Version device;
                info_DeviceModel := DeviceModel device;
                info_DeviceType := DeviceType_ device;
                info_Fingerprint := Fingerprint device;
                info_Download := Download device |};
     Files := {[ NewString := {| ID := NewString; FileName := send.Base filePath;
                                 Size := fileSize;
                                 FileType := send.DetectContentType_empty;
                                 SHA256 := None |} ]} |}.

(** The sender's side of the samples: one readable file, and a decoder of
    the prepare-upload answer. *)
Definition stat_sample (filePath : string) : option Z :=
  if decide (filePath = "/home/user/docs/report.txt") then Some 12%Z else None.

Definition open_sample (filePath : string) : option string :=
  if decide (filePath = "/home/user/docs/report.txt") then Some "Hello, file!" else None.

Definition decode_answer (a : server.Served) : option PrepareUploadResponseDto :=
  match a with
  | server.FromHandler resp =>
      match Written resp with
      | PayloadJson (JPrepareUploadResponse dto) => Some dto
      | _ => None
      end
  | _ => None
  end.

Definition status_line (status : Z) : string :=
  if decide (status = 401%Z) then "401 Unauthorized" else pretty status.

(** The receiver as the scan reported it. *)
Definition receiver_probed : Device :=
  {| IP := "10.0.0.1"; Version := "2.1"; Port := 53317; Alias := "receiver";
     Protocol := ProtocolTypeHTTPS; Fingerprint := "local-fp";
     DeviceModel := Some "GoDevice"; DeviceType_ := DeviceTypeDesktop;
     Download := false; LastSeen := 5000; Available := true |}.

Definition wire_prepare (body : string) : option PrepareUploadRequestDto :=
  if decide (body = "prepare-report") then
    Some (prepare_message "file-1" receiver_probed "/home/user/docs/report.txt" 12)
  else None.

(** The server after a sequence of requests, each for a path. *)
Fixpoint serve_all (supply : nat -> string)
    (decodePrepareUpload : string -> option PrepareUploadRequestDto)
    (SplitHostPort : string -> string) (os : storage.OS)
    (decodeRegister : string -> option register.RegisterDto)
    (cfg : Config) (hasSecurityContext : bool) (srv : server.Server)
    (requests : list (string * Request)) : server.Server :=
  match requests with
  | [] => srv
  | (path, r) :: rest =>
      serve_all supply decodePrepareUpload SplitHostPort os decodeRegister cfg
        hasSecurityContext
        (server.ServeHTTP supply decodePrepareUpload SplitHostPort os decodeRegister
           cfg hasSecurityContext srv path r).1
        rest
  end.

(** A server that offers the placeholder file and is receiving one
    file. *)
Definition busy_server : server.Server :=
  {| server.srv_receiveService := {| currentSession := Some sample.session0 |};
     server.srv_sendService :=
       {| send_currentSession :=
            Some {| send_SessionID := "id-1";
                    send_Files := {[ "id-0" := sample.placeholder ]} |} |};
     server.srv_drawn := 4; server.srv_disk := ∅ |}.

End scenario.

(** * Properties *)

Import model services config http httputil handlers sample.

(** ** Session manager *)

Section session_manager.
Variable supply : nat -> string.

Lemma GetSessionByID_Some (s : ReceiveService) (sessionID : string)
    (sess : ActiveReceiveSession) :
  GetSessionByID s sessionID = Some sess <->
  currentSession s = Some sess /\ SessionID sess = sessionID.
Proof.
  unfold GetSessionByID. destruct (currentSession s) as [cur|].
  - case_decide; split.
    + intros [= ->]. done.
    + intros [[= ->] _]. done.
    + done.
    + intros [[= ->] ?]. done.
  - split; [done | intros [? _]; done].
Qed.

Lemma GetSessionByID_idle (sessionID : string) :
  GetSessionByID {| currentSession := None |} sessionID = None.
Proof. reflexivity. Qed.

(** The token loop gives the entry visited [i]-th the [i]-th identifier
    drawn, keeps its metadata, and leaves other keys alone. *)
Lemma range_files_spec (l : list (string * FileDto)) :
  forall (g : nat) (acc : gmap string ActiveFile),
    NoDup l.*1 ->
    (range_files supply l g acc).2 = g + List.length l /\
    (forall i k d, l !! i = Some (k, d) ->
       (range_files supply l g acc).1 !! k
       = Some {| Dto := d; Token := supply (g + i) |}) /\
    (forall k, k ∉ l.*1 -> (range_files supply l g acc).1 !! k = acc !! k).
Proof.
  induction l as [|[k0 d0] l IH]; intros g acc Hnd; simpl.
  - split; [lia|]. split; [intros i k d Hi; by destruct i | done].
  - apply NoDup_cons in Hnd as [Hk0 Hnd].
    destruct (IH (S g) (<[k0:={| Dto := d0; Token := supply g |}]> acc) Hnd)
      as (Hg & Hin & Hout).
    split; [rewrite Hg; lia|]. split.
    + intros [|i] k d Hi; simpl in Hi.
      * injection Hi as <- <-. rewrite (Hout k0 Hk0), lookup_insert_eq.
        by rewrite Nat.add_0_r.
      * rewrite (Hin i k d Hi). do 3 f_equal. lia.
    + intros k Hk. apply not_elem_of_cons in Hk as [Hne Hk].
      rewrite (Hout k Hk). by rewrite lookup_insert_ne.
Qed.

(** C2. On a manager of either role that holds a session, [CreateSession]
    fails with "session already active" and changes nothing (neither the
    session nor its files, nor the identifier supply); on an idle manager
    the first of any two [CreateSession] calls succeeds and installs its
    session, and the second fails and leaves that session in place.  The
    manager's state is a single optional session, so it never holds two. *)
Theorem createSession_exclusive :
  (forall (sess : ActiveReceiveSession) g sender files,
     CreateSession supply {| currentSession := Some sess |} g sender files
     = ({| currentSession := Some sess |}, g, inr "session already active")) /\
  (forall g sender1 files1 sender2 files2,
     exists sess1 g1,
       CreateSession supply NewReceiveService g sender1 files1
       = ({| currentSession := Some sess1 |}, g1, inl sess1) /\
       CreateSession supply {| currentSession := Some sess1 |} g1 sender2 files2
       = ({| currentSession := Some sess1 |}, g1, inr "session already active")) /\
  (forall (sess : ActiveSendSession) g files,
     Send_CreateSession supply {| send_currentSession := Some sess |} g files
     = ({| send_currentSession := Some sess |}, g, inr "session already active")) /\
  (forall g files1 files2,
     exists sess1 g1,
       Send_CreateSession supply NewSendService g files1
       = ({| send_currentSession := Some sess1 |}, g1, inl sess1) /\
       send_Files sess1 = files1 /\
       Send_CreateSession supply {| send_currentSession := Some sess1 |} g1 files2
       = ({| send_currentSession := Some sess1 |}, g1, inr "session already active")).
Proof.
  repeat split.
  - intros g sender1 files1 sender2 files2.
    unfold CreateSession at 1. simpl.
    destruct (range_files supply (map_to_list files1) (S g) ∅) as [m g2] eqn:E.
    by eexists _, _.
  - intros g files1 files2. by eexists _, _.
Qed.

(** [RemoveFileFromSession] keeps the invariant that a session the manager
    holds has at least one file. *)
Lemma removeFile_never_empty (s : ReceiveService) (sessionID fileID : string)
    (sess' : ActiveReceiveSession) :
  (forall sess, currentSession s = Some sess -> sess_Files sess ≠ ∅) ->
  currentSession (RemoveFileFromSession s sessionID fileID) = Some sess' ->
  sess_Files sess' ≠ ∅.
Proof.
  intros Hinv. unfold RemoveFileFromSession.
  destruct (currentSession s) as [sess|] eqn:E; [|by rewrite E].
  case_decide; [|rewrite E; intros [= <-]; by apply Hinv].
  case_decide as Hsz; [done|]. simpl. intros [= <-]. simpl.
  intros He. apply Hsz. rewrite He. apply map_size_empty.
Qed.

(** A request with a different session ID, or to an idle manager, changes
    nothing. *)
Lemma removeFile_mismatch (s : ReceiveService) (sessionID fileID : string) :
  GetSessionByID s sessionID = None ->
  RemoveFileFromSession s sessionID fileID = s.
Proof.
  unfold GetSessionByID, RemoveFileFromSession.
  destruct (currentSession s); [|done]. by case_decide.
Qed.

End session_manager.

(** ** Receive handlers *)

Section receive_handlers.
Variable supply : nat -> string.
Variable decodePrepareUpload : string -> option PrepareUploadRequestDto.
Variable SplitHostPort : string -> string.
Variable os : storage.OS.

Local Abbreviation Upload := (UploadHandlerV2 SplitHostPort os).
Local Abbreviation PrepareUpload :=
  (PrepareUploadHandlerV2 supply decodePrepareUpload SplitHostPort).

Lemma CreateSession_idle (s : ReceiveService) (g : nat) (sender : DeviceInfo)
    (files : gmap string FileDto) :
  currentSession s = None ->
  exists sess,
    CreateSession supply s g sender files
    = ({| currentSession := Some sess |}, g + 1 + size files, inl sess) /\
    SessionID sess = supply g /\ Sender sess = sender /\
    (forall i k d, map_to_list files !! i = Some (k, d) ->
       sess_Files sess !! k = Some {| Dto := d; Token := supply (S g + i) |}) /\
    (forall k, files !! k = None -> sess_Files sess !! k = None).
Proof.
  intros Hidle. unfold CreateSession. rewrite Hidle. simpl.
  pose proof (range_files_spec supply (map_to_list files) (S g) ∅
                (NoDup_fst_map_to_list files)) as (Hg & Hin & Hout).
  destruct (range_files supply (map_to_list files) (S g) ∅) as [m g2] eqn:E.
  simpl in *. eexists; split; [|split; [|split; [|split]]]; simpl.
  - rewrite Hg, length_map_to_list. do 2 f_equal. lia.
  - done.
  - done.
  - exact Hin.
  - intros k Hk. rewrite Hout; [done|].
    intros Hel. apply list_elem_of_fmap in Hel as ([k' d] & -> & Hel).
    apply elem_of_map_to_list in Hel. simpl in Hk. congruence.
Qed.

(** Only the 200 path of [UploadHandlerV2] touches the receive service. *)
Lemma upload_service_effect (cfg : Config) (st : ReceiveState) (r : Request) :
  (StatusCode (Upload cfg st r).2 ≠ StatusOK ->
     receiveService (Upload cfg st r).1 = receiveService st) /\
  (StatusCode (Upload cfg st r).2 = StatusOK ->
     receiveService (Upload cfg st r).1
     = RemoveFileFromSession (receiveService st)
         (Get (Query r) "sessionId") (Get (Query r) "fileId")).
Proof.
  unfold UploadHandlerV2.
  repeat (case_decide || case_match); simpl; split; try done.
Qed.

(** C1. An [/upload] request that is not answered 200 leaves the receive
    service exactly as it was: no file entry is removed and the session
    is not closed.  For a POST request: a missing [sessionId], [fileId]
    or [token] is answered 400; with all three present, a session ID
    that is not the active session's is answered 403; with the session
    matched, a peer IP other than the one recorded by prepare-upload is
    answered 403; with the IP matched, a file ID that is not pending or a
    token other than that file's is answered 403; and when the storage
    sink fails on a fully matched request the answer is 500 and the
    session still holds the file's entry. *)
Theorem upload_rejection_keeps_session (cfg : Config) (st : ReceiveState) (r : Request) :
  (StatusCode (Upload cfg st r).2 ≠ StatusOK ->
     receiveService (Upload cfg st r).1 = receiveService st) /\
  (Method r = MethodPost ->
     (¬ has_upload_params r ->
        StatusCode (Upload cfg st r).2 = StatusBadRequest /\ (Upload cfg st r).1 = st) /\
     (has_upload_params r ->
        GetSessionByID (receiveService st) (Get (Query r) "sessionId") = None ->
        StatusCode (Upload cfg st r).2 = StatusForbidden /\ (Upload cfg st r).1 = st) /\
     (forall session,
        has_upload_params r ->
        GetSessionByID (receiveService st) (Get (Query r) "sessionId") = Some session ->
        (SplitHostPort (RemoteAddr r) ≠ di_IP (Sender session) ->
           StatusCode (Upload cfg st r).2 = StatusForbidden /\ (Upload cfg st r).1 = st) /\
        (SplitHostPort (RemoteAddr r) = di_IP (Sender session) ->
           (forall f, sess_Files session !! Get (Query r) "fileId" = Some f ->
                      Token f ≠ Get (Query r) "token") ->
           StatusCode (Upload cfg st r).2 = StatusForbidden /\ (Upload cfg st r).1 = st) /\
        (forall f e,
           SplitHostPort (RemoteAddr r) = di_IP (Sender session) ->
           sess_Files session !! Get (Query r) "fileId" = Some f ->
           Token f = Get (Query r) "token" ->
           (storage.SaveStreamToFile os (disk st) (Body r) (destination os cfg f)).2
           = Some e ->
           StatusCode (Upload cfg st r).2 = StatusInternalServerError /\
           receiveService (Upload cfg st r).1 = receiveService st /\
           currentSession (receiveService st) = Some session /\
           sess_Files session !! Get (Query r) "fileId" = Some f))).
Proof.
  unfold has_upload_params, destination. split.
  - apply upload_service_effect.
  - intros HPost. unfold UploadHandlerV2.
    rewrite decide_False by (intros H; by apply H).
    split; [|split].
    + intros Hmiss. rewrite decide_True; [done|].
      destruct (decide (Get (Query r) "sessionId" = "")); [tauto|].
      destruct (decide (Get (Query r) "fileId" = "")); [tauto|].
      destruct (decide (Get (Query r) "token" = "")); [tauto|].
      exfalso. apply Hmiss. done.
    + intros (H1 & H2 & H3) Hnone.
      rewrite decide_False by tauto. by rewrite Hnone.
    + intros session (H1 & H2 & H3) Hsome.
      rewrite decide_False by tauto. rewrite Hsome.
      split; [|split].
      * intros Hip. by rewrite decide_True.
      * intros Hip Htok. rewrite decide_False by (intros H; by apply H).
        destruct (sess_Files session !! Get (Query r) "fileId") as [f|]; [|done].
        rewrite decide_True; [done|]. by apply Htok.
      * intros f e Hip Hf Htok Hsink.
        rewrite decide_False by (intros H; by apply H).
        rewrite Hf. rewrite decide_False by (intros H; by apply H).
        destruct (storage.SaveStreamToFile os (disk st) (Body r) _) as [d' [e'|]];
          simpl in *; [|done].
        repeat split; try done.
        by apply GetSessionByID_Some in Hsome as [? _].
Qed.

End receive_handlers.

Lemma upload_rejection_keeps_session_witness :
  (* correct session and peer, wrong token *)
  (let r := upload_req "s1" "f1" "guess" "10.0.0.2:40000" in
   StatusCode (UploadHandlerV2 host_of os_ok cfg0 busy r).2 = StatusForbidden /\
   (UploadHandlerV2 host_of os_ok cfg0 busy r).1 = busy) /\
  (* correct token, other peer *)
  (let r := upload_req "s1" "f1" "t1" "10.0.0.9:40000" in
   StatusCode (UploadHandlerV2 host_of os_ok cfg0 busy r).2 = StatusForbidden /\
   (UploadHandlerV2 host_of os_ok cfg0 busy r).1 = busy) /\
  (* everything matches, the sink fails *)
  (let r := upload_req "s1" "f1" "t1" "10.0.0.2:40000" in
   StatusCode (UploadHandlerV2 host_of os_disk_full cfg0 busy r).2
   = StatusInternalServerError /\
   receiveService (UploadHandlerV2 host_of os_disk_full cfg0 busy r).1
   = receiveService busy).
Proof.
  assert (forall a b c p, has_upload_params (upload_req a b c p) <->
                          a ≠ "" /\ b ≠ "" /\ c ≠ "") as Hp by done.
  split; [|split]; intros r.
  - destruct (upload_rejection_keeps_session host_of os_ok cfg0 busy r)
      as [_ H]. destruct (H eq_refl) as (_ & _ & H3).
    refine (proj1 (proj2 (H3 session0 _ eq_refl)) eq_refl _).
    + apply Hp. done.
    + intros f [= <-]. done.
  - destruct (upload_rejection_keeps_session host_of os_ok cfg0 busy r)
      as [_ H]. destruct (H eq_refl) as (_ & _ & H3).
    refine (proj1 (H3 session0 _ eq_refl) _).
    + apply Hp. done.
    + done.
  - destruct (upload_rejection_keeps_session host_of os_disk_full cfg0 busy r)
      as [_ H]. destruct (H eq_refl) as (_ & _ & H3).
    destruct (proj2 (proj2 (H3 session0 ltac:(by apply Hp) eq_refl))
                {| Dto := file_a; Token := "t1" |}
                "failed to copy stream to file downloads/a.txt"
                eq_refl eq_refl eq_refl eq_refl) as (H5 & H6 & _).
    split; assumption.
Defined.

Section prepare_upload.
Variable supply : nat -> string.
Variable decodePrepareUpload : string -> option PrepareUploadRequestDto.
Variable SplitHostPort : string -> string.

Local Abbreviation PrepareUpload :=
  (PrepareUploadHandlerV2 supply decodePrepareUpload SplitHostPort).

(** C3. For a POST request, prepare-upload answers 401 when a PIN is
    configured and the [pin] query parameter differs from it; otherwise
    409 when a session is active; otherwise 400 when the body does not
    decode or names no file; in these cases nothing changes.  Otherwise
    it installs a receive session and answers 200 with that session's ID
    and a token map over exactly the requested file IDs, each token being
    one identifier drawn from the supply during this call, no identifier
    being used for two files or for the session ID; the session records
    each file's metadata with its token and the peer's IP. *)
Theorem prepare_upload_outcomes (cfg : Config) (st : ReceiveState) (r : Request) :
  Method r = MethodPost ->
  (PIN cfg ≠ "" -> Get (Query r) "pin" ≠ PIN cfg ->
     StatusCode (PrepareUpload cfg st r).2 = StatusUnauthorized /\
     (PrepareUpload cfg st r).1 = st) /\
  (pin_accepted cfg r -> is_Some (currentSession (receiveService st)) ->
     StatusCode (PrepareUpload cfg st r).2 = StatusConflict /\
     (PrepareUpload cfg st r).1 = st) /\
  (pin_accepted cfg r -> currentSession (receiveService st) = None ->
     (decodePrepareUpload (Body r) = None \/
      exists requestDto, decodePrepareUpload (Body r) = Some requestDto /\
                         Files requestDto = ∅) ->
     StatusCode (PrepareUpload cfg st r).2 = StatusBadRequest /\
     (PrepareUpload cfg st r).1 = st) /\
  (forall requestDto,
     pin_accepted cfg r -> currentSession (receiveService st) = None ->
     decodePrepareUpload (Body r) = Some requestDto ->
     Files requestDto ≠ ∅ ->
     exists session tokens,
       StatusCode (PrepareUpload cfg st r).2 = StatusOK /\
       Written (PrepareUpload cfg st r).2
       = PayloadJson
           (JPrepareUploadResponse
              {| resp_SessionID := SessionID session; resp_Files := tokens |}) /\
       Header (PrepareUpload cfg st r).2 !! "Content-Type" = Some "application/json" /\
       currentSession (receiveService (PrepareUpload cfg st r).1) = Some session /\
       disk (PrepareUpload cfg st r).1 = disk st /\
       drawn (PrepareUpload cfg st r).1 = drawn st + 1 + size (Files requestDto) /\
       SessionID session = supply (drawn st) /\
       di_IP (Sender session) = SplitHostPort (RemoteAddr r) /\
       dom tokens = dom (Files requestDto) /\
       dom (sess_Files session) = dom (Files requestDto) /\
       exists order : list (string * FileDto),
         order ≡ₚ map_to_list (Files requestDto) /\
         forall i fileId meta, order !! i = Some (fileId, meta) ->
           tokens !! fileId = Some (supply (drawn st + 1 + i)) /\
           sess_Files session !! fileId
           = Some {| Dto := meta; Token := supply (drawn st + 1 + i) |}).
Proof.
  intros HPost. unfold pin_accepted, PrepareUploadHandlerV2.
  rewrite decide_False by (intros H; by apply H).
  split; [|split; [|split]].
  - intros Hpin Hne. by rewrite decide_True.
  - intros Hok Hbusy. rewrite decide_False by (intros [? ?]; destruct Hok; done).
    by rewrite decide_True.
  - intros Hok Hidle Hbad.
    rewrite decide_False by (intros [? ?]; destruct Hok; done).
    rewrite decide_False by (unfold GetSession; rewrite Hidle; by intros [? ?]).
    destruct Hbad as [-> | (dto & -> & He)]; [done|].
    rewrite decide_True; [done|]. rewrite He. apply map_size_empty.
  - intros dto Hok Hidle Hdec Hne.
    rewrite decide_False by (intros [? ?]; destruct Hok; done).
    rewrite decide_False by (unfold GetSession; rewrite Hidle; by intros [? ?]).
    rewrite Hdec.
    rewrite decide_False by (intros Hz; by apply map_size_empty_inv in Hz).
    match goal with
    | |- context [CreateSession supply _ _ ?sender _] =>
        destruct (CreateSession_idle supply (receiveService st) (drawn st)
                    sender (Files dto) Hidle)
          as (sess & -> & Hid & Hsender & Hin & Hout)
    end.
    simpl. exists sess, (Token <$> sess_Files sess).
    assert (forall k, is_Some (sess_Files sess !! k) <-> is_Some (Files dto !! k))
      as Hdom.
    { intros k. destruct (Files dto !! k) as [d|] eqn:Hk.
      - apply elem_of_map_to_list, list_elem_of_lookup in Hk as [i Hi].
        rewrite (Hin i k d Hi). split; eauto.
      - rewrite (Hout k Hk). done. }
    repeat split; try done.
    + by rewrite Hsender.
    + apply set_eq. intros k. rewrite !elem_of_dom, lookup_fmap, fmap_is_Some.
      apply Hdom.
    + apply set_eq. intros k. rewrite !elem_of_dom. apply Hdom.
    + exists (map_to_list (Files dto)). split; [done|].
      intros i k d Hi.
      replace (drawn st + 1 + i) with (S (drawn st) + i) by lia.
      rewrite lookup_fmap, (Hin i k d Hi). done.
Qed.

(** With pairwise different identifiers in the supply, the tokens of one
    session are pairwise different and none equals the session ID. *)
Lemma CreateSession_tokens_distinct (s : ReceiveService) (g : nat)
    (sender : DeviceInfo) (files : gmap string FileDto) (sess : ActiveReceiveSession) :
  (forall i j, supply i = supply j -> i = j) ->
  currentSession s = None ->
  (CreateSession supply s g sender files).2 = inl sess ->
  forall k1 k2 f1 f2,
    sess_Files sess !! k1 = Some f1 -> sess_Files sess !! k2 = Some f2 ->
    Token f1 ≠ SessionID sess /\ (Token f1 = Token f2 -> k1 = k2).
Proof.
  intros Hinj Hidle Hcs k1 k2 f1 f2 H1 H2.
  destruct (CreateSession_idle supply s g sender files Hidle)
    as (sess' & Heq & Hid & _ & Hin & Hout).
  rewrite Heq in Hcs. simpl in Hcs. injection Hcs as ->.
  assert (forall k f, sess_Files sess !! k = Some f ->
            exists i d, map_to_list files !! i = Some (k, d) /\
                        Token f = supply (S g + i)) as Hidx.
  { intros k f Hk. destruct (files !! k) as [d|] eqn:Hfk.
    - apply elem_of_map_to_list, list_elem_of_lookup in Hfk as [i Hi].
      exists i, d. split; [done|]. rewrite (Hin i k d Hi) in Hk.
      by injection Hk as <-.
    - rewrite (Hout k Hfk) in Hk. done. }
  destruct (Hidx k1 f1 H1) as (i1 & d1 & Hi1 & Ht1).
  destruct (Hidx k2 f2 H2) as (i2 & d2 & Hi2 & Ht2).
  split.
  - rewrite Ht1, Hid. intros Heq'. apply Hinj in Heq'. lia.
  - rewrite Ht1, Ht2. intros Heq'. apply Hinj in Heq'.
    assert (i1 = i2) as -> by lia. congruence.
Qed.

End prepare_upload.

Lemma prepare_upload_outcomes_witness :
  (* PIN 1234 configured, request without the pin parameter *)
  StatusCode (PrepareUploadHandlerV2 ids decode_sample host_of cfg_pin idle
                (prepare_req [] "one-file")).2 = StatusUnauthorized /\
  (* retried with the PIN *)
  StatusCode (PrepareUploadHandlerV2 ids decode_sample host_of cfg_pin idle
                (prepare_req ["1234"] "one-file")).2 = StatusOK /\
  Written (PrepareUploadHandlerV2 ids decode_sample host_of cfg_pin idle
             (prepare_req ["1234"] "one-file")).2
  = PayloadJson
      (JPrepareUploadResponse
         {| resp_SessionID := "id-0"; resp_Files := {[ "f1" := "id-1" ]} |}).
Proof.
  split.
  - refine (proj1 (proj1 (prepare_upload_outcomes ids decode_sample host_of cfg_pin
                            idle (prepare_req [] "one-file") eq_refl) _ _)); done.
  - destruct (proj2 (proj2 (proj2
                (prepare_upload_outcomes ids decode_sample host_of cfg_pin
                   idle (prepare_req ["1234"] "one-file") eq_refl)))
                {| Info := mkInfoDto "sender" "2.1" None DeviceTypeMobile "peer-fp" false;
                   Files := {[ "f1" := file_a ]} |}
                (or_intror eq_refl) eq_refl eq_refl)
      as (session & tokens & Hcode & Hbody & _ & _ & _ & _ & Hid & _ & Hdom & _ & Htok).
    + apply insert_non_empty.
    + split; [exact Hcode|]. rewrite Hbody, Hid. do 3 f_equal.
      destruct Htok as (order & Hperm & Htok). simpl in Hperm.
      rewrite map_to_list_singleton in Hperm. apply Permutation_singleton_r in Hperm.
      subst order. destruct (Htok 0 "f1" file_a eq_refl) as [Ht _].
      apply map_eq. intros k. destruct (decide (k = "f1")) as [->|Hk].
      * rewrite Ht. by rewrite lookup_singleton_eq.
      * rewrite lookup_singleton_ne by done. apply not_elem_of_dom.
        rewrite Hdom. simpl. rewrite dom_singleton_L. by apply not_elem_of_singleton.
Defined.

(** ** Download handler *)

(** The number parser and the writer on the declarations the download
    handler can make: a declared length is enforced, a write that exceeds
    it sends nothing, and a declaration that is negative or no number is
    dropped. *)
Example Fprint_examples :
  strconv.ParseInt "12" = Some 12%Z /\
  strconv.ParseInt "-5" = Some (-5)%Z /\
  strconv.ParseInt "+7" = Some 7%Z /\
  strconv.ParseInt "" = None /\
  strconv.ParseInt "-" = None /\
  strconv.ParseInt "12a" = None /\
  strconv.ParseInt "1_000" = None /\
  strconv.ParseInt "9223372036854775807" = Some 9223372036854775807%Z /\
  strconv.ParseInt "9223372036854775808" = None /\
  strconv.ParseInt "-9223372036854775808" = Some (-9223372036854775808)%Z /\
  Fprint {[ "Content-Length" := "12" ]} "Hello, World"
  = {| StatusCode := StatusOK; Header := {[ "Content-Length" := "12" ]};
       Written := PayloadText "Hello, World" |} /\
  Fprint {[ "Content-Length" := "20" ]} "Hello, World"
  = {| StatusCode := StatusOK; Header := {[ "Content-Length" := "20" ]};
       Written := PayloadText "Hello, World" |} /\
  Fprint {[ "Content-Length" := "5" ]} "Hello, World"
  = {| StatusCode := StatusOK; Header := {[ "Content-Length" := "5" ]};
       Written := PayloadText "" |} /\
  Fprint {[ "Content-Length" := "-5" ]} "Hello, World"
  = {| StatusCode := StatusOK; Header := ∅; Written := PayloadText "Hello, World" |} /\
  Fprint ∅ "Hello, World"
  = {| StatusCode := StatusOK; Header := ∅; Written := PayloadText "Hello, World" |}.
Proof. repeat split; vm_compute; reflexivity. Qed.


Section download.
Variable supply : nat -> string.


End download.


(** ** Destination of an upload *)

(** The path functions on the inputs their documentation lists and on the
    paths used below. *)
Example Clean_examples :
  filepath.Clean "./downloads" = "downloads" /\
  filepath.Clean "a//b/./c/.." = "a/b" /\
  filepath.Clean "/../a" = "/a" /\
  filepath.Clean "../../a/../b" = "../../b" /\
  filepath.Clean "" = "." /\
  filepath.Clean "/" = "/" /\
  filepath.Clean "a/.." = "." /\
  filepath.Join ["./downloads"; "../x"] = "x" /\
  filepath.Join ["./downloads"; "/etc/passwd"] = "downloads/etc/passwd" /\
  filepath.Join [""; "/etc/passwd"] = "/etc/passwd" /\
  filepath.Join ["a"; ""] = "a" /\
  filepath.Dir "downloads/sub/a.txt" = "downloads/sub" /\
  filepath.Dir "a.txt" = "." /\
  filepath.Dir "/a.txt" = "/" /\
  filepath.within "downloads" "downloads/sub/a.txt" = true /\
  filepath.within "./downloads" "x" = false /\
  filepath.within "." "../x" = false /\
  filepath.within "." "x" = true /\
  filepath.within ".." "../x" = true /\
  filepath.within ".." "../../x" = false.
Proof. repeat split; vm_compute; reflexivity. Qed.

Lemma append_cons (a : ascii) (s t : string) : String a s ++ t = String a (s ++ t).
Proof. reflexivity. Qed.

Lemma append_snoc (cur : string) (c : ascii) (n : string) :
  (cur ++ String c "") ++ n = cur ++ String c n.
Proof.
  induction cur as [|a cur IH]; [done|]. rewrite !append_cons. by f_equal.
Qed.

Lemma append_empty_r (cur : string) : cur ++ "" = cur.
Proof. induction cur as [|a cur IH]; [done|]. rewrite append_cons. by f_equal. Qed.

(** The elements of [a/b] are those of [a] followed by those of [b]. *)
Lemma elements_from_join (a b : string) :
  forall cur, filepath.elements_from cur (a ++ "/" ++ b)
              = (filepath.elements_from cur a ++ filepath.elements b)%list.
Proof.
  induction a as [|c a IH]; intros cur.
  - reflexivity.
  - rewrite append_cons. simpl. destruct (Ascii.eqb c filepath.Separator).
    + by rewrite IH.
    + apply IH.
Qed.

Lemma elements_join (a b : string) :
  filepath.elements (a ++ "/" ++ b)
  = (filepath.elements a ++ filepath.elements b)%list.
Proof. apply elements_from_join. Qed.

Lemma elements_from_plain (n : string) :
  forall cur, contains_separator n = false ->
              filepath.elements_from cur n = [cur ++ n].
Proof.
  induction n as [|c n IH]; intros cur Hn; simpl in *.
  - by rewrite append_empty_r.
  - apply orb_false_iff in Hn as [Hc Hn]. rewrite Hc.
    rewrite (IH _ Hn). by rewrite append_snoc.
Qed.

Lemma elements_plain (n : string) :
  contains_separator n = false -> filepath.elements n = [n].
Proof. intros Hn. apply (elements_from_plain n "" Hn). Qed.

Lemma plain_not_rooted (n : string) :
  contains_separator n = false -> filepath.IsRooted n = false.
Proof. destruct n as [|c n]; simpl; [done|]. by intros [? _]%orb_false_iff. Qed.

Lemma clean_step_plain (rooted : bool) (out : list string) (n : string) :
  plain_element n -> filepath.clean_step rooted out n = n :: out.
Proof.
  intros (_ & H1 & H2 & H3). unfold filepath.clean_step.
  by rewrite !decide_False.
Qed.

(** ** Names without [..] stay below the download directory *)

Lemma contains_separator_app (a b : string) :
  contains_separator (a ++ b) = contains_separator a || contains_separator b.
Proof.
  induction a as [|c a IH]; [done|]. rewrite append_cons. simpl.
  by rewrite IH, orb_assoc.
Qed.

Lemma elements_from_sepfree (p : string) :
  forall cur, contains_separator cur = false ->
              Forall (λ e, contains_separator e = false) (filepath.elements_from cur p).
Proof.
  induction p as [|c p IH]; intros cur Hcur; simpl.
  - by constructor.
  - destruct (Ascii.eqb c filepath.Separator) eqn:Hc.
    + constructor; [done|]. by apply IH.
    + apply IH. rewrite contains_separator_app, Hcur. simpl. by rewrite Hc.
Qed.

Lemma elements_sepfree (p : string) :
  Forall (λ e, contains_separator e = false) (filepath.elements p).
Proof. by apply elements_from_sepfree. Qed.

(** Without [..] among them, the elements are pushed one by one, empty and
    [.] elements apart. *)
Lemma clean_fold_no_dotdot (rooted : bool) (es : list string) :
  ".." ∉ es ->
  forall out, fold_left (filepath.clean_step rooted) es out
              = (reverse (kept_elements es) ++ out)%list.
Proof.
  induction es as [|e es IH]; intros Hdd out; [done|].
  apply not_elem_of_cons in Hdd as [Hne Hdd]. simpl. rewrite (IH Hdd).
  unfold kept_elements, filepath.clean_step.
  destruct (decide (e = "")) as [->|H1].
  { by rewrite filter_cons_False by (by intros [? _]). }
  destruct (decide (e = ".")) as [->|H2].
  { by rewrite filter_cons_False by (by intros [_ ?]). }
  rewrite decide_False by done.
  rewrite filter_cons_True by done. rewrite reverse_cons. by rewrite <- app_assoc.
Qed.

Lemma kept_elements_plain (es : list string) :
  Forall (λ e, contains_separator e = false) es -> ".." ∉ es ->
  Forall plain_element (kept_elements es).
Proof.
  intros Hsep Hdd. apply Forall_forall. intros e He.
  apply list_elem_of_filter in He as [[H1 H2] He].
  rewrite Forall_forall in Hsep. unfold plain_element.
  repeat split; try done; [by apply Hsep | intros ->; done].
Qed.

Lemma kept_elements_id (es : list string) :
  Forall plain_element es -> kept_elements es = es.
Proof.
  induction 1 as [|e es (_ & H1 & H2 & _) _ IH]; [done|].
  unfold kept_elements in *. rewrite filter_cons_True by done. by f_equal.
Qed.

Lemma plain_no_dotdot (es : list string) :
  Forall plain_element es -> ".." ∉ es.
Proof.
  rewrite Forall_forall. intros H Hin. by destruct (H _ Hin) as (_ & _ & _ & ?).
Qed.

(** [Clean] keeps its stack in shape. *)
Lemma clean_step_stack (rooted : bool) (out : list string) (e : string) :
  contains_separator e = false ->
  clean_stack rooted out -> clean_stack rooted (filepath.clean_step rooted out e).
Proof.
  intros Hsep (k & plain & -> & Hplain & Hk). unfold filepath.clean_step.
  destruct (decide (e = "")); [by exists k, plain|].
  destruct (decide (e = ".")); [by exists k, plain|].
  destruct (decide (e = "..")) as [->|Hdd].
  - destruct plain as [|top plain].
    + destruct k as [|k]; simpl.
      * destruct rooted; [by exists 0, [] | exists 1, []; naive_solver].
      * exists (S (S k)), [].
        split; [done|]. split; [done|]. intros Hr. by specialize (Hk Hr).
    + apply Forall_cons in Hplain as [(_ & _ & _ & Htop) Hplain]. simpl.
      rewrite decide_False by done. by exists k, plain.
  - exists k, (e :: plain). split; [done|]. split; [|done].
    constructor; [|done]. by repeat split.
Qed.

Lemma clean_fold_stack (rooted : bool) (es : list string) :
  Forall (λ e, contains_separator e = false) es ->
  forall out, clean_stack rooted out ->
              clean_stack rooted (fold_left (filepath.clean_step rooted) es out).
Proof.
  induction 1 as [|e es He _ IH]; intros out Hout; [done|].
  simpl. apply IH. by apply clean_step_stack.
Qed.

(** Cleaning what is clean changes nothing. *)
Lemma clean_fold_fixed (rooted : bool) (out : list string) :
  clean_stack rooted out ->
  fold_left (filepath.clean_step rooted) (reverse out) [] = out.
Proof.
  intros (k & plain & -> & Hplain & Hk).
  rewrite reverse_app, fold_left_app, reverse_replicate.
  assert (fold_left (filepath.clean_step rooted) (replicate k "..") []
          = replicate k "..") as ->.
  { destruct rooted; [by rewrite Hk|]. clear Hk.
    assert (forall j, fold_left (filepath.clean_step false) (replicate k "..")
                        (replicate j "..") = replicate (k + j) "..") as Hj.
    { induction k as [|k IH]; intros j; [done|].
      assert (filepath.clean_step false (replicate j "..") ".."
              = replicate (S j) "..") as Hstep
        by (destruct j; reflexivity).
      cbn [replicate fold_left]. rewrite Hstep, (IH (S j)).
      by rewrite Nat.add_succ_r. }
    specialize (Hj 0). rewrite Nat.add_0_r in Hj. exact Hj. }
  rewrite clean_fold_no_dotdot.
  - rewrite kept_elements_id, reverse_involutive; [done|].
    by apply Forall_reverse.
  - rewrite elem_of_reverse. by apply plain_no_dotdot.
Qed.

Lemma join_elements_cons (e e' : string) (es : list string) :
  filepath.join_elements (e :: e' :: es) = e ++ "/" ++ filepath.join_elements (e' :: es).
Proof. reflexivity. Qed.

(** Splitting what was joined gives the elements back. *)
Lemma elements_join_elements (es : list string) :
  Forall (λ e, contains_separator e = false) es -> es ≠ [] ->
  filepath.elements (filepath.join_elements es) = es.
Proof.
  induction 1 as [|e es He Hes IH]; intros Hne; [done|].
  destruct es as [|e' es].
  - by apply elements_plain.
  - rewrite join_elements_cons, elements_join, (elements_plain e He).
    by rewrite IH.
Qed.

Lemma IsRooted_app (a b : string) :
  a ≠ "" -> filepath.IsRooted (a ++ b) = filepath.IsRooted a.
Proof. by destruct a. Qed.

Lemma join_elements_head (e : string) (es : list string) :
  contains_separator e = false -> e ≠ "" ->
  filepath.join_elements (e :: es) ≠ "" /\
  filepath.IsRooted (filepath.join_elements (e :: es)) = false.
Proof.
  intros Hsep He. destruct es as [|e' es].
  - split; [done|]. by apply plain_not_rooted.
  - rewrite join_elements_cons. split.
    + destruct e; [done|]. by rewrite append_cons.
    + rewrite IsRooted_app by done. by apply plain_not_rooted.
Qed.

Lemma clean_stack_elements (rooted : bool) (out : list string) :
  clean_stack rooted out ->
  Forall (λ e, contains_separator e = false /\ e ≠ "") out.
Proof.
  intros (k & plain & -> & Hplain & _). apply Forall_app. split.
  - eapply Forall_impl; [exact Hplain|]. by intros e (? & ? & _).
  - by apply Forall_replicate.
Qed.

(** What [Clean] prints splits and cleans back to the elements it kept,
    and is rooted exactly when the path was. *)
Lemma Clean_printed (rooted : bool) (out : list string) :
  clean_stack rooted out ->
  let printed := filepath.join_elements (reverse out) in
  let q := if rooted then "/" ++ printed
           else if decide (printed = "") then "." else printed in
  filepath.IsRooted q = rooted /\
  fold_left (filepath.clean_step rooted) (filepath.elements q) [] = out.
Proof.
  intros Hout printed q. subst q printed.
  pose proof (clean_stack_elements rooted out Hout) as Hel.
  apply Forall_reverse in Hel.
  pose proof (clean_fold_fixed rooted out Hout) as Hfix.
  destruct (reverse out) as [|e es] eqn:Hrev.
  - apply (f_equal reverse) in Hrev. rewrite reverse_involutive in Hrev.
    subst out. destruct rooted; by vm_compute.
  - apply Forall_cons in Hel as [[Hsep He] Hes].
    assert (Forall (λ e, contains_separator e = false) (e :: es)) as Hsf.
    { constructor; [done|]. eapply Forall_impl; [exact Hes|]. by intros ? [? _]. }
    destruct (join_elements_head e es Hsep He) as [Hne Hnr].
    destruct rooted.
    + split; [done|].
      change ("/" ++ filepath.join_elements (e :: es))
        with ("" ++ "/" ++ filepath.join_elements (e :: es)).
      rewrite elements_join, elements_join_elements by done.
      exact Hfix.
    + rewrite decide_False by done. split; [done|].
      rewrite elements_join_elements by done. exact Hfix.
Qed.

Lemma below_app (ds ps : list string) :
  (forall e, head ps = Some e -> e ≠ "..") ->
  filepath.below ds (ds ++ ps) = true.
Proof.
  intros Hps. induction ds as [|d ds IH]; simpl.
  - destruct ps as [|e ps]; [done|].
    apply negb_true_iff, bool_decide_eq_false. by apply Hps.
  - rewrite IH. by rewrite bool_decide_true.
Qed.

(** A declared name without a [..] element is written to the download
    directory or below it, whatever separators it contains. *)
Lemma no_dotdot_stays_inside (dir name : string) :
  dir ≠ "" -> has_dotdot name = false ->
  filepath.within dir (filepath.Join [dir; name]) = true.
Proof.
  intros Hdir Hdd. apply bool_decide_eq_false in Hdd.
  unfold filepath.Join. rewrite decide_False by done.
  change (filepath.join_elements [dir; name]) with (dir ++ "/" ++ name).
  unfold filepath.Clean, filepath.clean_elements.
  rewrite (IsRooted_app dir _ Hdir), elements_join, fold_left_app.
  set (rooted := filepath.IsRooted dir).
  set (sd := fold_left (filepath.clean_step rooted) (filepath.elements dir) []).
  assert (clean_stack rooted sd) as Hsd.
  { apply clean_fold_stack; [apply elements_sepfree|]. by exists 0, []. }
  rewrite (clean_fold_no_dotdot rooted _ Hdd).
  set (kept := kept_elements (filepath.elements name)).
  assert (Forall plain_element kept) as Hkept
    by (apply kept_elements_plain; [apply elements_sepfree | done]).
  assert (clean_stack rooted (reverse kept ++ sd)) as Hout.
  { destruct Hsd as (k & plain & -> & Hplain & Hk).
    exists k, (reverse kept ++ plain)%list. split; [by rewrite app_assoc|].
    split; [|done]. apply Forall_app. split; [by apply Forall_reverse | done]. }
  destruct (Clean_printed rooted _ Hout) as [Hr Hfold]. simpl in Hr, Hfold.
  unfold filepath.within. fold rooted. rewrite Hr.
  unfold filepath.clean_elements. rewrite Hfold.
  rewrite reverse_app, reverse_involutive. fold sd.
  rewrite below_app.
  - by destruct rooted.
  - intros e He. destruct kept as [|e' kept']; [done|]. injection He as <-.
    apply Forall_cons in Hkept as [(_ & _ & _ & ?) _]. done.
Qed.

(** ** Names that climb out of the download directory *)

Lemma elements_climb (k : nat) (rest : string) :
  filepath.elements (climb k rest)
  = (replicate k ".." ++ filepath.elements rest)%list.
Proof.
  induction k as [|k IH]; [done|].
  cbn [climb replicate]. by rewrite elements_join, IH.
Qed.

(** [k] elements [..] in a row remove the [k] innermost names; once the
    names are used up they stop at the root, or pile up in a relative
    path. *)
Lemma clean_fold_dotdots (rooted : bool) (k : nat) :
  forall plain k0,
    Forall plain_element plain -> (rooted = true -> k0 = 0) ->
    fold_left (filepath.clean_step rooted) (replicate k "..")
      (plain ++ replicate k0 "..")%list
    = if decide (k <= List.length plain) then (drop k plain ++ replicate k0 "..")%list
      else if rooted then [] else replicate (k0 + (k - List.length plain)) "..".
Proof.
  induction k as [|k IH]; intros plain k0 Hplain Hk.
  - rewrite decide_True by lia. by rewrite drop_0.
  - cbn [replicate fold_left].
    destruct plain as [|p plain].
    + assert (filepath.clean_step rooted ([] ++ replicate k0 "..")%list ".."
              = ([] ++ replicate (if rooted then 0 else S k0) "..")%list) as ->.
      { destruct rooted; [by rewrite Hk|]. by destruct k0. }
      rewrite (IH [] _ (Forall_nil_2 _)) by (by destruct rooted).
      rewrite (decide_False (P := S k <= _)) by (simpl; lia).
      destruct (decide (k <= List.length (@nil string))) as [Hle|Hgt].
      * simpl in Hle. assert (k = 0) as -> by lia.
        destruct rooted; [done|]. simpl. by rewrite Nat.add_1_r.
      * destruct rooted; [done|]. f_equal. simpl. lia.
    + apply Forall_cons in Hplain as [(_ & _ & _ & Hp) Hplain].
      assert (filepath.clean_step rooted ((p :: plain) ++ replicate k0 "..")%list ".."
              = (plain ++ replicate k0 "..")%list) as ->.
      { unfold filepath.clean_step. simpl. by rewrite decide_False. }
      rewrite (IH plain k0 Hplain Hk). simpl.
      destruct (decide (k <= List.length plain)).
      * by rewrite decide_True by lia.
      * by rewrite decide_False by lia.
Qed.

Lemma below_common_prefix (xs ds ps : list string) :
  filepath.below (xs ++ ds) (xs ++ ps) = filepath.below ds ps.
Proof.
  induction xs as [|x xs IH]; [done|]. simpl. by rewrite bool_decide_true.
Qed.

Lemma below_head_differs (d : string) (ds ps : list string) :
  (forall e, head ps = Some e -> e ≠ d) -> filepath.below (d :: ds) ps = false.
Proof.
  intros Hps. destruct ps as [|e ps]; [done|]. simpl.
  rewrite bool_decide_false; [done|]. intros ->. by apply (Hps e).
Qed.

(** A declared name that climbs with leading [..] elements and then goes
    on with names of which the first is none of the download directory's
    own is written outside the download directory, unless that is the
    root. *)
Lemma climb_leaves_dir (dir rest : string) (k : nat) :
  dir ≠ "" ->
  (filepath.IsRooted dir = true -> dir_elements dir ≠ []) ->
  has_dotdot rest = false ->
  (forall e, head (kept_elements (filepath.elements rest)) = Some e ->
             e ∉ dir_elements dir) ->
  filepath.within dir (filepath.Join [dir; climb (S k) rest]) = false.
Proof.
  intros Hdir Hroot Hdd Hhead. apply bool_decide_eq_false in Hdd.
  unfold filepath.Join. rewrite decide_False by done.
  change (filepath.join_elements [dir; climb (S k) rest])
    with (dir ++ "/" ++ climb (S k) rest).
  unfold filepath.Clean, filepath.clean_elements.
  rewrite (IsRooted_app dir _ Hdir), elements_join, elements_climb.
  rewrite !fold_left_app.
  unfold dir_elements, filepath.clean_elements in Hroot, Hhead.
  unfold filepath.within, filepath.clean_elements.
  set (rooted := filepath.IsRooted dir) in *.
  assert (clean_stack rooted
            (fold_left (filepath.clean_step rooted) (filepath.elements dir) []))
    as (k0 & plain & Hsd & Hplain & Hk).
  { apply clean_fold_stack; [apply elements_sepfree|]. by exists 0, []. }
  rewrite Hsd in *.
  rewrite (clean_fold_dotdots rooted (S k) plain k0 Hplain Hk).
  rewrite (clean_fold_no_dotdot rooted _ Hdd).
  set (kept := kept_elements (filepath.elements rest)) in *.
  assert (Forall plain_element kept) as Hkept
    by (apply kept_elements_plain; [apply elements_sepfree | done]).
  set (stack := if decide (S k <= List.length plain)
                then (drop (S k) plain ++ replicate k0 "..")%list
                else if rooted then [] else replicate (k0 + (S k - List.length plain)) "..").
  assert (clean_stack rooted (reverse kept ++ stack)) as Hout.
  { subst stack. destruct (decide (S k <= List.length plain)).
    - exists k0, (reverse kept ++ drop (S k) plain)%list.
      split; [by rewrite app_assoc|]. split; [|done].
      apply Forall_app. split; [by apply Forall_reverse | by apply Forall_drop].
    - destruct rooted.
      + exists 0, (reverse kept).
        split; [by rewrite !app_nil_r|]. split; [by apply Forall_reverse | done].
      + exists (k0 + (S k - List.length plain)), (reverse kept).
        split; [done|]. split; [by apply Forall_reverse | done]. }
  destruct (Clean_printed rooted _ Hout) as [Hr Hfold]. simpl in Hr, Hfold.
  rewrite Hr, Hfold. rewrite (reverse_app (reverse kept)), reverse_involutive.
  assert (Bool.eqb rooted rooted = true) as -> by (by destruct rooted).
  rewrite andb_true_l, (reverse_app plain), reverse_replicate.
  assert (forall q, q ∈ plain -> forall e, head kept = Some e -> e ≠ q) as Hq.
  { intros q Hin e He ->. apply (Hhead q He).
    rewrite elem_of_reverse. apply elem_of_app. by left. }
  subst stack. destruct (decide (S k <= List.length plain)) as [Hle|Hgt].
  - rewrite reverse_app, reverse_replicate.
    rewrite <- (take_drop (S k) plain) at 1.
    rewrite reverse_app, <- !app_assoc, !below_common_prefix.
    destruct (reverse (take (S k) plain)) as [|q qs] eqn:Hrev.
    { apply (f_equal List.length) in Hrev.
      rewrite length_reverse, length_take in Hrev.
      cbn [List.length] in Hrev. lia. }
    apply below_head_differs, Hq.
    rewrite <- (take_drop (S k) plain). apply elem_of_app. left.
    rewrite <- elem_of_reverse, Hrev. by left.
  - destruct rooted.
    + rewrite (Hk eq_refl) in *. simpl. specialize (Hroot eq_refl).
      rewrite app_nil_r in Hroot.
      destruct (reverse plain) as [|q qs] eqn:Hrev; [done|].
      apply below_head_differs, Hq.
      rewrite <- elem_of_reverse, Hrev. by left.
    + rewrite reverse_replicate, replicate_add, <- !app_assoc, below_common_prefix.
      destruct (S k - List.length plain) as [|j] eqn:Hj; [lia|].
      destruct (reverse plain) as [|q qs] eqn:Hrev; [done|].
      apply below_head_differs. intros e [= <-] <-.
      assert (".." ∈ plain) as Hin
        by (rewrite <- elem_of_reverse, Hrev; by left).
      by apply (plain_no_dotdot plain Hplain).
Qed.

(** The declared name [sub/a.txt] contains a separator, its upload is
    accepted, and the file lands in [downloads/sub], inside the download
    directory: the last sentence of C10 as worded fails. *)
Lemma separator_stays_inside :
  let r := upload_req "s1" "f1" "t1" "10.0.0.2:40000" in
  let f := {| Dto := mkFileDto "f1" "sub/a.txt" 12 "text/plain" None; Token := "t1" |} in
  accepted_upload host_of os_ok cfg0 (busy_with "sub/a.txt") r (session_with "sub/a.txt") f /\
  contains_separator (FileName (Dto f)) = true /\
  disk (UploadHandlerV2 host_of os_ok cfg0 (busy_with "sub/a.txt") r).1
  = {[ "downloads/sub/a.txt" := "Hello, file!" ]} /\
  filepath.within (DownloadDir cfg0) "downloads/sub/a.txt" = true /\
  ~ separator_or_dotdot_escapes.
Proof.
  intros r f.
  assert (accepted_upload host_of os_ok cfg0 (busy_with "sub/a.txt") r
            (session_with "sub/a.txt") f) as Hacc by done.
  split; [exact Hacc|]. split; [reflexivity|]. split; [reflexivity|].
  split; [reflexivity|].
  intros Hclaim.
  specialize (Hclaim host_of os_ok cfg0 (busy_with "sub/a.txt") r
                (session_with "sub/a.txt") f Hacc (or_introl eq_refl)).
  discriminate Hclaim.
Qed.

Section upload_destination.
Variable supply : nat -> string.
Variable SplitHostPort : string -> string.
Variable os : storage.OS.

(** C10, amended.  An accepted [/upload] writes the request body to the
    path [filepath.Join(DownloadDir, FileName)], [filepath.Join] being the
    one of the system the server is built for and [FileName] the name the
    session recorded for the file, which is the name declared to
    [CreateSession] at prepare-upload time, unchanged; no other file is
    touched.  The join only cleans the path lexically: on a Unix-like
    system a declared name that climbs with one or more leading [..]
    elements and goes on without further [..] elements, by a name that is
    none of the download directory's own if by any, is written outside the
    download directory, whatever directory that is, the root apart. *)
Theorem upload_destination_unsanitized :
  (forall cfg st r session f,
     accepted_upload SplitHostPort os cfg st r session f ->
     disk (UploadHandlerV2 SplitHostPort os cfg st r).1
     = <[filepath.Join_on (storage.goos os) [DownloadDir cfg; FileName (Dto f)]
         := Body r]> (disk st)) /\
  (forall s g sender files session fileId meta,
     (CreateSession supply s g sender files).2 = inl session ->
     files !! fileId = Some meta ->
     exists token, sess_Files session !! fileId = Some {| Dto := meta; Token := token |}) /\
  (forall k rest cfg st r session f,
     storage.goos os = filepath.unix ->
     DownloadDir cfg ≠ "" ->
     (filepath.IsRooted (DownloadDir cfg) = true -> dir_elements (DownloadDir cfg) ≠ []) ->
     has_dotdot rest = false ->
     (forall e, head (kept_elements (filepath.elements rest)) = Some e ->
                e ∉ dir_elements (DownloadDir cfg)) ->
     FileName (Dto f) = climb (S k) rest ->
     accepted_upload SplitHostPort os cfg st r session f ->
     disk (UploadHandlerV2 SplitHostPort os cfg st r).1
     = <[filepath.Join [DownloadDir cfg; FileName (Dto f)] := Body r]> (disk st) /\
     filepath.within (DownloadDir cfg)
       (filepath.Join [DownloadDir cfg; FileName (Dto f)]) = false).
Proof.
  assert (forall cfg st r session f,
     accepted_upload SplitHostPort os cfg st r session f ->
     disk (UploadHandlerV2 SplitHostPort os cfg st r).1
     = <[filepath.Join_on (storage.goos os) [DownloadDir cfg; FileName (Dto f)]
         := Body r]> (disk st))
    as Hdest.
  { intros cfg st r session f (Hsess & Hf & Hok). revert Hok.
    unfold UploadHandlerV2.
    repeat case_decide; try discriminate.
    rewrite Hsess. repeat case_decide; try discriminate.
    rewrite Hf. repeat case_decide; try discriminate.
    unfold storage.SaveStreamToFile, storage.EnsureDirExists.
    repeat case_match; simpl; try discriminate; simplify_eq; done. }
  split; [exact Hdest|]. split.
  - intros s g sender files session fileId meta Hcs Hfile.
    pose proof Hcs as Hcs'. unfold CreateSession in Hcs'.
    destruct (currentSession s) eqn:Hidle; [discriminate|].
    destruct (CreateSession_idle supply s g sender files Hidle)
      as (sess & Heq & _ & _ & Hin & _).
    unfold CreateSession in Heq. rewrite Hidle in Heq.
    rewrite Heq in Hcs'. simpl in Hcs'. injection Hcs' as <-.
    apply elem_of_map_to_list, list_elem_of_lookup in Hfile as [i Hi].
    eexists. apply (Hin i fileId meta Hi).
  - intros k rest cfg st r session f Hunix Hdir Hroot Hdd Hhead Hname Hacc.
    rewrite (Hdest cfg st r session f Hacc), Hunix.
    split; [done|]. rewrite Hname. by apply climb_leaves_dir.
Qed.

End upload_destination.

Lemma upload_destination_unsanitized_witness :
  let r := upload_req "s1" "f1" "t1" "10.0.0.2:40000" in
  (disk (UploadHandlerV2 host_of os_ok cfg0 (busy_with "../x.txt") r).1
   = {[ "x.txt" := "Hello, file!" ]} /\
   filepath.within "./downloads" "x.txt" = false) /\
  (disk (UploadHandlerV2 host_of os_ok cfg_srv (busy_with "../../etc/passwd") r).1
   = {[ "/etc/passwd" := "Hello, file!" ]} /\
   filepath.within "/srv/dl" "/etc/passwd" = false).
Proof.
  intros r.
  assert (forall rest e, head (kept_elements (filepath.elements rest)) = Some e ->
                         forall es : list string,
                           bool_decide (default "" (head (kept_elements (filepath.elements rest))) ∈ es)
                           = false -> e ∉ es) as Hhead.
  { intros rest e -> es Hes. by apply bool_decide_eq_false in Hes. }
  split.
  - refine (proj2 (proj2 (upload_destination_unsanitized ids host_of os_ok))
              0 "x.txt" cfg0 (busy_with "../x.txt") r (session_with "../x.txt")
              {| Dto := mkFileDto "f1" "../x.txt" 12 "text/plain" None; Token := "t1" |}
              eq_refl _ _ eq_refl _ eq_refl _); [done | done | | done].
    intros e He. by apply (Hhead "x.txt" e He).
  - refine (proj2 (proj2 (upload_destination_unsanitized ids host_of os_ok))
              1 "etc/passwd" cfg_srv (busy_with "../../etc/passwd") r
              (session_with "../../etc/passwd")
              {| Dto := mkFileDto "f1" "../../etc/passwd" 12 "text/plain" None;
                 Token := "t1" |}
              eq_refl _ _ eq_refl _ eq_refl _); [done | done | | done].
    intros e He. by apply (Hhead "etc/passwd" e He).
Defined.

(** ** Discovery registry *)

Section registry.
Import discovery.

Lemma alloc_spec (h : Store) (d : Device) :
  (alloc h d).1 !! (alloc h d).2 = Some d /\
  h !! (alloc h d).2 = None /\
  forall q, q ≠ (alloc h d).2 -> (alloc h d).1 !! q = h !! q.
Proof.
  unfold alloc; simpl. split; [apply lookup_insert_eq|]. split.
  - apply not_elem_of_dom, is_fresh.
  - intros q Hq. by apply lookup_insert_ne.
Qed.

(** The first message with a fingerprint enters the registry and starts
    every handler on the new record. *)
Lemma upsert_message_new (s : Service) (h : Store) (now : Z)
    (d : MulticastDto) (ip : string) :
  devices s !! dto_Fingerprint d = None ->
  let p := (alloc h (FromMulticastDto d ip now)).2 in
  upsert_message s h now d ip
  = Some ({| config := config s;
             devices := <[dto_Fingerprint d := p]> (devices s);
             handlers := handlers s |},
          <[p := FromMulticastDto d ip now]> h,
          (λ handler, (handler, p)) <$> handlers s).
Proof.
  intros Hnew p. unfold upsert_message, updateDevice.
  destruct (alloc_spec h (FromMulticastDto d ip now)) as (Hp & _ & _).
  destruct (alloc h (FromMulticastDto d ip now)) as [h1 p'] eqn:E.
  simpl in *. subst p. rewrite Hp. simpl. rewrite Hnew.
  unfold alloc in E. by injection E as <- <-.
Qed.

(** A message whose fingerprint is registered refreshes the registered
    record in place: the registry and the handlers are left alone. *)
Lemma upsert_message_known (s : Service) (h : Store) (now : Z)
    (d : MulticastDto) (ip : string) (p : nat) (old : Device) :
  devices s !! dto_Fingerprint d = Some p ->
  h !! p = Some old ->
  exists h', upsert_message s h now d ip = Some (s, h', []) /\
             h' !! p = Some (UpdateLastSeen now old) /\
             forall q, q ≠ p -> h !! q = None \/ h' !! q = h !! q.
Proof.
  intros Hknown Hold. unfold upsert_message, updateDevice.
  destruct (alloc_spec h (FromMulticastDto d ip now)) as (Hp & Hfresh & Hrest).
  destruct (alloc h (FromMulticastDto d ip now)) as [h1 p'] eqn:E.
  simpl in *. rewrite Hp. simpl. rewrite Hknown.
  assert (p ≠ p') as Hne by congruence.
  eexists; split; [done|]. split.
  - rewrite lookup_alter_eq, (Hrest p Hne), Hold. done.
  - intros q Hq. rewrite lookup_alter_ne by done.
    destruct (decide (q = p')) as [->|Hq']; [by left | right; by apply Hrest].
Qed.

(** C5. A packet that decodes to a message carrying the local fingerprint
    is dropped: [handlePacket] returns without an error, the multicast
    instance (its registry included) and the store of device records are
    unchanged, no handler is started and no datagram is sent. *)
Theorem self_announcement_discarded
    (unmarshalMulticastDto : string -> option MulticastDto)
    (md : MulticastDiscovery) (h : Store) (now : Z) (net_ok : bool)
    (data : string) (addr : Addr) (d : MulticastDto) :
  unmarshalMulticastDto data = Some d ->
  dto_Fingerprint d = dto_Fingerprint (dto md) ->
  handlePacket unmarshalMulticastDto md h now net_ok data addr
  = {| pr_md := md; pr_store := h; pr_started := []; pr_sent := []; pr_err := None |}.
Proof.
  intros Hdec Hself. unfold handlePacket. rewrite Hdec. by rewrite decide_True.
Qed.

Lemma self_announcement_discarded_witness :
  handlePacket unmarshal_sample md0 ∅ 1000 true "self" (UDPAddr "10.0.0.1" 53317)
  = {| pr_md := md0; pr_store := ∅; pr_started := []; pr_sent := []; pr_err := None |}.
Proof.
  exact (self_announcement_discarded unmarshal_sample md0 ∅ 1000 true "self"
           (UDPAddr "10.0.0.1" 53317) self_dto eq_refl eq_refl).
Defined.

(** A packet from a peer, by contrast, registers the peer, starts the
    handlers and is answered. *)
Example peer_announcement_handled :
  let r := handlePacket unmarshal_sample md0 ∅ 1000 true "peer"
             (UDPAddr "10.0.0.2" 53317) in
  md_devices (pr_md r) = {[ "peer-fp" := 0 ]} /\
  pr_store r !! 0 = Some (FromMulticastDto peer_dto "10.0.0.2" 1000) /\
  pr_started r = [(ServiceUpdate, 0)] /\
  pr_sent r = [ToPeer "10.0.0.2" 53317 (with_Announce self_dto false)].
Proof. vm_compute. repeat split. Qed.

(** Two messages with the fingerprint [peer-fp] from two addresses: the
    entry keeps the address of the first, so C6 as worded, with the IP
    following the repeat sighting, fails. *)
Lemma repeat_sighting_keeps_first_ip :
  (exists s1 h1 s2 h2 started1,
     upsert_message service0 ∅ 1000 peer_dto "10.0.0.2" = Some (s1, h1, started1) /\
     upsert_message s1 h1 2000 peer_dto "10.0.0.7" = Some (s2, h2, []) /\
     devices s2 = {[ "peer-fp" := 0 ]} /\
     (IP <$> h2 !! 0) = Some "10.0.0.2" /\
     (LastSeen <$> h2 !! 0) = Some 2000%Z) /\
  ~ repeat_sighting_updates_ip.
Proof.
  split.
  - do 5 eexists. split; [vm_compute; reflexivity|].
    split; [vm_compute; reflexivity|]. repeat split.
  - intros Hclaim.
    destruct (upsert_message service0 ∅ 1000 peer_dto "10.0.0.2")
      as [[[s1 h1] st1]|] eqn:E1; [|vm_compute in E1; discriminate].
    destruct (upsert_message s1 h1 2000 peer_dto "10.0.0.7")
      as [[[s2 h2] st2]|] eqn:E2;
      [|vm_compute in E1; injection E1 as <- <- <-; vm_compute in E2; discriminate].
    destruct (Hclaim service0 ∅ 1000%Z 2000%Z peer_dto peer_dto "10.0.0.2" "10.0.0.7"
                s1 h1 st1 s2 h2 st2 eq_refl eq_refl E1 E2)
      as (p & d & Hp & Hd & Hip & _).
    vm_compute in E1. injection E1 as <- <- <-.
    vm_compute in E2. injection E2 as <- <- <-.
    vm_compute in Hp. injection Hp as <-.
    vm_compute in Hd. injection Hd as <-.
    discriminate Hip.
Qed.

End registry.

Section registry_reads.
Import discovery.

(** C6, amended.  Two Discovery Messages with the same fingerprint, from
    any two source IPs, leave one registry entry for that fingerprint,
    added by the first; the second changes nothing in the registry and
    refreshes the first message's record in place: last-seen becomes the
    time of the repeat sighting and the record is marked available, while
    the IP and every other field stay those of the first sighting.  The
    handlers are started for the first message only. *)
Theorem repeat_sighting_refreshes_in_place (s : Service) (h : Store)
    (now1 now2 : Z) (d1 d2 : MulticastDto) (ip1 ip2 : string) :
  dto_Fingerprint d2 = dto_Fingerprint d1 ->
  devices s !! dto_Fingerprint d1 = None ->
  exists p s1 h1 h2,
    upsert_message s h now1 d1 ip1
    = Some (s1, h1, (λ handler, (handler, p)) <$> handlers s) /\
    upsert_message s1 h1 now2 d2 ip2 = Some (s1, h2, []) /\
    devices s1 = <[dto_Fingerprint d1 := p]> (devices s) /\
    size (devices s1) = S (size (devices s)) /\
    h1 !! p = Some (FromMulticastDto d1 ip1 now1) /\
    h2 !! p = Some {| IP := ip1;
                      Version := dto_Version d1;
                      Port := dto_Port d1;
                      Alias := dto_Alias d1;
                      Protocol := dto_Protocol d1;
                      Fingerprint := dto_Fingerprint d1;
                      DeviceModel := dto_DeviceModel d1;
                      DeviceType_ := dto_DeviceType d1;
                      Download := dto_Download d1;
                      LastSeen := now2;
                      Available := true |}.
Proof.
  intros Hfp Hnew.
  pose proof (upsert_message_new s h now1 d1 ip1 Hnew) as H1. simpl in H1.
  set (p := (alloc h (FromMulticastDto d1 ip1 now1)).2) in *.
  set (s1 := {| config := config s;
                devices := <[dto_Fingerprint d1 := p]> (devices s);
                handlers := handlers s |}) in *.
  set (h1 := <[p := FromMulticastDto d1 ip1 now1]> h) in *.
  assert (devices s1 !! dto_Fingerprint d2 = Some p) as Hknown
    by (rewrite Hfp; apply lookup_insert_eq).
  assert (h1 !! p = Some (FromMulticastDto d1 ip1 now1)) as Hp
    by apply lookup_insert_eq.
  destruct (upsert_message_known s1 h1 now2 d2 ip2 p _ Hknown Hp)
    as (h2 & H2 & Hrec & _).
  exists p, s1, h1, h2. repeat split; try done.
  simpl. by apply map_size_insert_None.
Qed.

Lemma repeat_sighting_refreshes_in_place_witness :
  exists p s1 h1 h2,
    upsert_message service0 ∅ 1000 peer_dto "10.0.0.2"
    = Some (s1, h1, [(External 0, p)]) /\
    upsert_message s1 h1 2000 peer_dto "10.0.0.7" = Some (s1, h2, []) /\
    size (devices s1) = 1 /\
    (IP <$> h2 !! p) = Some "10.0.0.2" /\
    (LastSeen <$> h2 !! p) = Some 2000%Z.
Proof.
  destruct (repeat_sighting_refreshes_in_place service0 ∅ 1000 2000
              peer_dto peer_dto "10.0.0.2" "10.0.0.7" eq_refl eq_refl)
    as (p & s1 & h1 & h2 & H1 & H2 & _ & Hsize & _ & Hrec).
  exists p, s1, h1, h2. repeat split; try assumption.
  - by rewrite Hrec.
  - by rewrite Hrec.
Defined.

Lemma elem_of_GetDevices (s : Service) (h : Store) (now : Z) (p : nat) :
  p ∈ GetDevices s h now <->
  fresh_at s h now p = true /\ exists id, devices s !! id = Some p.
Proof.
  unfold GetDevices. rewrite list_elem_of_filter, list_elem_of_fmap.
  split.
  - intros [Hf ([id q] & -> & Hin)]. split; [done|].
    exists id. by apply elem_of_map_to_list.
  - intros [Hf [id Hid]]. split; [done|].
    exists (id, p). split; [done|]. by apply elem_of_map_to_list.
Qed.

(** C7. The default device timeout is two minutes.  A registered device
    whose last-seen time lies more than the timeout before [now] is
    absent from both reads at [now], [GetDevice] by its fingerprint and
    [GetDevices]; the reads change nothing, so the record stays
    registered.  A later
    message with the same fingerprint refreshes that record, and from its
    arrival until the timeout has passed again both reads return the
    device, with every field but last-seen and availability as first
    registered. *)
Theorem stale_device_hidden_until_refreshed (s : Service) (h : Store)
    (id : string) (p : nat) (d : Device) (now : Z) :
  devices s !! id = Some p ->
  h !! p = Some d ->
  DeviceTimeout DefaultServiceConfig = (2 * Minute)%Z /\
  ((DeviceTimeout (config s) < now - LastSeen d)%Z ->
     GetDevice s h now id = None /\ p ∉ GetDevices s h now) /\
  (forall now' msg ip,
     dto_Fingerprint msg = id ->
     exists h',
       upsert_message s h now' msg ip = Some (s, h', []) /\
       h' !! p = Some {| IP := IP d; Version := Version d; Port := Port d;
                         Alias := Alias d; Protocol := Protocol d;
                         Fingerprint := Fingerprint d;
                         DeviceModel := DeviceModel d;
                         DeviceType_ := DeviceType_ d;
                         Download := Download d;
                         LastSeen := now'; Available := true |} /\
       forall read_at,
         (read_at - now' <= DeviceTimeout (config s))%Z ->
         GetDevice s h' read_at id = Some p /\ p ∈ GetDevices s h' read_at).
Proof.
  intros Hreg Hrec. split; [reflexivity|]. split.
  - intros Hstale.
    assert (fresh_at s h now p = false) as Hf.
    { unfold fresh_at, IsStale. rewrite Hrec.
      apply negb_false_iff, Z.ltb_lt. lia. }
    split.
    + unfold GetDevice. by rewrite Hreg, Hf.
    + rewrite elem_of_GetDevices. intros [Hf' _]. congruence.
  - intros now' msg ip Hid. subst id.
    destruct (upsert_message_known s h now' msg ip p d Hreg Hrec)
      as (h' & Hup & Hrec' & _).
    exists h'. split; [done|]. split; [done|].
    intros read_at Hread.
    assert (fresh_at s h' read_at p = true) as Hf.
    { unfold fresh_at, IsStale. rewrite Hrec'. simpl.
      apply negb_true_iff, Z.ltb_ge. lia. }
    split.
    + unfold GetDevice. by rewrite Hreg, Hf.
    + apply elem_of_GetDevices. eauto.
Qed.

(** The multicast registry and the service registry point to one record:
    a repeat packet, which the multicast instance handles without starting
    any handler, still refreshes what the service reads. *)
Lemma multicast_refresh_reaches_service
    (unmarshalMulticastDto : string -> option MulticastDto)
    (md : MulticastDiscovery) (s : Service) (h : Store) (now : Z) (net_ok : bool)
    (data ip : string) (port : Z) (msg : MulticastDto) (p : nat) (d : Device) :
  unmarshalMulticastDto data = Some msg ->
  dto_Fingerprint msg ≠ dto_Fingerprint (dto md) ->
  md_devices md !! dto_Fingerprint msg = Some p ->
  devices s !! dto_Fingerprint msg = Some p ->
  h !! p = Some d ->
  (0 <= DeviceTimeout (config s))%Z ->
  let r := handlePacket unmarshalMulticastDto md h now net_ok data (UDPAddr ip port) in
  pr_md r = md /\ pr_started r = [] /\
  pr_store r !! p = Some (UpdateLastSeen now d) /\
  GetDevice s (pr_store r) now (dto_Fingerprint msg) = Some p.
Proof.
  intros Hdec Hpeer Hmd Hs Hp Hto. unfold handlePacket. rewrite Hdec.
  rewrite decide_False by done.
  destruct (alloc_spec h (FromMulticastDto msg ip now)) as (Hnew & Hfresh & Hrest).
  destruct (alloc h (FromMulticastDto msg ip now)) as [h1 q] eqn:E. simpl in *.
  unfold md_updateDevice. rewrite Hnew. simpl. rewrite Hmd.
  assert (p ≠ q) as Hne by congruence.
  assert (alter (UpdateLastSeen now) p h1 !! p = Some (UpdateLastSeen now d)) as Hrec
    by (by rewrite lookup_alter_eq, (Hrest p Hne), Hp).
  assert (GetDevice s (alter (UpdateLastSeen now) p h1) now (dto_Fingerprint msg)
          = Some p) as Hget.
  { unfold GetDevice, fresh_at, IsStale. rewrite Hs, Hrec. simpl.
    rewrite Z.sub_diag. by rewrite (proj2 (Z.ltb_ge _ _) Hto). }
  by destruct (dto_Announce msg).
Qed.

(** Two packets from the peer, the service's handler run in between. *)
Example shared_record :
  let r1 := handlePacket unmarshal_sample md0 ∅ 1000 true "peer"
              (UDPAddr "10.0.0.2" 53317) in
  exists s1 h1,
    run_handler service0 (pr_store r1) 1000 (ServiceUpdate, 0)
    = Some (s1, h1, [(External 0, 0)]) /\
    devices s1 = {[ "peer-fp" := 0 ]} /\
    let r2 := handlePacket unmarshal_sample (pr_md r1) h1 5000 true "peer"
                (UDPAddr "10.0.0.7" 53317) in
    pr_started r2 = [] /\
    (LastSeen <$> pr_store r2 !! 0) = Some 5000%Z /\
    (IP <$> pr_store r2 !! 0) = Some "10.0.0.2" /\
    GetDevice s1 (pr_store r2) 5000 "peer-fp" = Some 0.
Proof. do 2 eexists. split; [vm_compute; reflexivity|]. vm_compute. repeat split. Qed.

End registry_reads.

Lemma stale_device_hidden_until_refreshed_witness :
  let minute := discovery.Minute in
  discovery.GetDevice registered records (3 * minute) "peer-fp" = None /\
  (0 ∉ discovery.GetDevices registered records (3 * minute)) /\
  exists h',
    upsert_message registered records (3 * minute) peer_dto "10.0.0.7"
    = Some (registered, h', []) /\
    (IP <$> h' !! 0) = Some "10.0.0.2" /\
    discovery.GetDevice registered h' (4 * minute) "peer-fp" = Some 0 /\
    0 ∈ discovery.GetDevices registered h' (4 * minute).
Proof.
  intros minute.
  destruct (stale_device_hidden_until_refreshed registered records "peer-fp" 0
              (FromMulticastDto peer_dto "10.0.0.2" 0) (3 * minute) eq_refl eq_refl)
    as (_ & Hhidden & Hrefresh).
  assert (discovery.DeviceTimeout (discovery.config registered) < 3 * minute - 0)%Z
    as Hlate
    by (vm_compute; reflexivity).
  destruct (Hhidden Hlate) as [H1 H2].
  destruct (Hrefresh (3 * minute)%Z peer_dto "10.0.0.7" eq_refl)
    as (h' & Hup & Hrec & Hreads).
  assert (4 * minute - 3 * minute
          <= discovery.DeviceTimeout (discovery.config registered))%Z as Hsoon
    by (vm_compute; discriminate).
  destruct (Hreads (4 * minute)%Z Hsoon) as [H3 H4].
  split; [exact H1|]. split; [exact H2|].
  exists h'. split; [exact Hup|]. split; [by rewrite Hrec|]. split; assumption.
Defined.

(** ** One-shot discovery *)

Section discover.
Import discovery.

(** A sighting always goes through: [updateDevice] finds the record it is
    handed. *)
Lemma updateDevice_alloc (s : Service) (h : Store) (now : Z) (d : Device) :
  is_Some (updateDevice s (alloc h d).1 now (alloc h d).2).
Proof.
  unfold updateDevice. destruct (alloc_spec h d) as (-> & _).
  destruct (devices s !! Fingerprint d); eauto.
Qed.

(** What [Discover] returns is what its loop returns from an empty
    [lastDevices]. *)
Lemma Discover_result (s : Service) (md : MulticastDiscovery) (h : Store)
    (net_ok : bool) (start : Z) (evs : list Event) (alias : string) (port : Z)
    (fingerprint : string) (deviceType : DeviceType) (deviceModel : option string) :
  (Discover s md h net_ok start evs alias port fingerprint deviceType deviceModel).2
  = Discover_loop evs start start s h [].
Proof. unfold Discover. by destruct (SendDiscoveryAnnouncement _ net_ok). Qed.

(** The ticker sends its first tick one period after [Discover] created
    it: no tick is pending before. *)
Lemma no_tick_in_first_period (start now : Z) :
  (now < start + poll_interval)%Z ->
  ¬ (ticks_sent start start < ticks_sent start now)%Z.
Proof.
  unfold ticks_sent. intros Hearly.
  replace (start - start)%Z with 0%Z by lia.
  assert ((now - start) / poll_interval <= 0)%Z; [|rewrite Z.div_0_l by done; lia].
  assert (0 < poll_interval)%Z as Hpos by done.
  destruct (Z_lt_le_dec (now - start) 0) as [Hneg|Hnn].
  - pose proof (Z.div_lt_upper_bound (now - start) poll_interval 0 Hpos). lia.
  - rewrite Z.div_small by lia. lia.
Qed.

(** A scan whose context is done within the first period of the ticker
    returns no device, whatever was sighted meanwhile. *)
Lemma scan_shorter_than_period (evs : list Event) (start : Z) :
  Forall (λ e, (at_time e < start + poll_interval)%Z) evs ->
  forall s h res,
    Discover_loop evs start start s h [] = Some res -> found res = [].
Proof.
  induction 1 as [|e evs He _ IH]; intros s h res Hrun; [done|].
  destruct e as [t|t|t d]; cbn [Discover_loop at_time] in *.
  - by injection Hrun as <-.
  - rewrite decide_False in Hrun by (by apply no_tick_in_first_period). done.
  - destruct (alloc h d) as [h1 p].
    destruct (updateDevice s h1 t p) as [[[s' h2] started]|]; [|done].
    by apply (IH s' h2).
Qed.

(** C8.  Two scans started at time 0 on a started service (its
    [updateDevice] is the handler of the multicast listener) that knows no
    device.  With a deadline of 400ms, the ticker's one tick is taken at
    250ms and the peer's announcement arrives at 300ms; with a deadline of
    200ms the announcement arrives at 100ms and no tick is sent in time.
    Either scan returns a nil error and no device, although at its
    deadline the registry holds the peer and [GetDevices] reports it as
    fresh: on [ctx.Done] the loop returns the list of the last tick and
    does not read the registry again.  So [Discover] does not return every
    fresh device seen by the deadline. *)
Theorem discover_misses_late_sighting :
  (exists res,
     (Discover service0 md0 ∅ true 0 late_sighting "receiver" 53317 "local-fp"
        DeviceTypeDesktop None).2 = Some res /\
     err res = None /\ found res = [] /\
     GetDevices (dr_service res) (dr_store res) (400 * Millisecond) = [0] /\
     dr_store res !! 0
     = Some (FromMulticastDto peer_dto "10.0.0.2" (300 * Millisecond))) /\
  (exists res,
     (Discover service0 md0 ∅ true 0 early_deadline "receiver" 53317 "local-fp"
        DeviceTypeDesktop None).2 = Some res /\
     err res = None /\ found res = [] /\
     GetDevices (dr_service res) (dr_store res) (200 * Millisecond) = [0] /\
     dr_store res !! 0
     = Some (FromMulticastDto peer_dto "10.0.0.2" (100 * Millisecond))) /\
  ~ discover_returns_all_fresh.
Proof.
  split; [|split].
  - eexists. split; [vm_compute; reflexivity|]. repeat split.
  - eexists. split; [vm_compute; reflexivity|]. repeat split.
  - intros Hclaim.
    pose proof (Hclaim service0 md0 ∅ true 0%Z
                  [Tick (250 * Millisecond);
                   Sighting (300 * Millisecond)
                     (FromMulticastDto peer_dto "10.0.0.2" (300 * Millisecond))]
                  (400 * Millisecond)%Z [] "receiver" 53317%Z "local-fp"
                  DeviceTypeDesktop None _ eq_refl eq_refl 0) as H.
    vm_compute in H. specialize (H ltac:(left)).
    inversion H.
Qed.

End discover.

(** ** Scenarios and invariants of the receive role *)

Section receive_role.
Variable supply : nat -> string.
Variable decodePrepareUpload : string -> option PrepareUploadRequestDto.
Variable SplitHostPort : string -> string.

(** Every session the handlers leave in the service has a file pending. *)
Lemma receive_session_never_empty (st : ReceiveState) :
  reachable supply decodePrepareUpload SplitHostPort st ->
  forall session, currentSession (receiveService st) = Some session ->
                  sess_Files session ≠ ∅.
Proof.
  induction 1 as [g d | cfg st r Hst IH | os cfg st r Hst IH | st r Hst IH];
    intros session.
  - discriminate.
  - unfold PrepareUploadHandlerV2.
    repeat case_decide; try apply IH.
    destruct (decodePrepareUpload (Body r)) as [dto|]; [|apply IH].
    case_decide as Hsz; [apply IH|].
    assert (currentSession (receiveService st) = None) as Hidle.
    { destruct (currentSession (receiveService st)) eqn:E; [|done].
      exfalso. unfold GetSession in *. rewrite E in *. naive_solver. }
    match goal with
    | |- context [CreateSession supply _ _ ?sender _] =>
        destruct (CreateSession_idle supply (receiveService st) (drawn st)
                    sender (Files dto) Hidle) as (sess & -> & _ & _ & Hin & _)
    end.
    simpl. intros [= <-] Hempty.
    destruct (map_to_list (Files dto)) as [|[k m] l] eqn:El.
    + apply map_to_list_empty_iff in El. apply Hsz. rewrite El. apply map_size_empty.
    + specialize (Hin 0 k m eq_refl). rewrite Hempty in Hin. done.
  - destruct (decide (StatusCode (UploadHandlerV2 SplitHostPort os cfg st r).2
                      = StatusOK)) as [Hok|Hno].
    + rewrite (proj2 (upload_service_effect SplitHostPort os cfg st r) Hok).
      intros Hs. by apply removeFile_never_empty in Hs.
    + rewrite (proj1 (upload_service_effect SplitHostPort os cfg st r) Hno).
      apply IH.
  - unfold CancelHandler. repeat (case_decide || case_match); simpl; try apply IH.
    discriminate.
Qed.

End receive_role.

(** C4. [RemoveFileFromSession] with the ID of the active session deletes
    the entry of [fileID] and no other; when no entry is left the manager
    becomes idle, so that [GetSessionByID] with that ID finds nothing;
    and the manager never comes out of the call holding a session without
    files.  Hence no state that the prepare-upload, upload and cancel
    handlers reach from the idle state holds a session without files. *)
Theorem removeFile_autoclose (sess : ActiveReceiveSession) (fileID : string) :
  let s' := RemoveFileFromSession {| currentSession := Some sess |}
              (SessionID sess) fileID in
  (delete fileID (sess_Files sess) ≠ ∅ ->
     exists sess', currentSession s' = Some sess' /\
       SessionID sess' = SessionID sess /\ Sender sess' = Sender sess /\
       sess_Files sess' !! fileID = None /\
       forall k, k ≠ fileID -> sess_Files sess' !! k = sess_Files sess !! k) /\
  (delete fileID (sess_Files sess) = ∅ ->
     currentSession s' = None /\ GetSessionByID s' (SessionID sess) = None) /\
  (forall sess', currentSession s' = Some sess' -> sess_Files sess' ≠ ∅) /\
  (forall supply decodePrepareUpload SplitHostPort st session,
     reachable supply decodePrepareUpload SplitHostPort st ->
     currentSession (receiveService st) = Some session ->
     sess_Files session ≠ ∅).
Proof.
  intros s'. subst s'. unfold RemoveFileFromSession; simpl.
  rewrite decide_True by done.
  assert (forall supply decodePrepareUpload SplitHostPort st session,
            reachable supply decodePrepareUpload SplitHostPort st ->
            currentSession (receiveService st) = Some session ->
            sess_Files session ≠ ∅) as Hreach
    by (intros ????? Hr Hc; by apply (receive_session_never_empty _ _ _ _ Hr)).
  destruct (decide (size (delete fileID (sess_Files sess)) = 0)) as [Hz|Hnz].
  - apply map_size_empty_inv in Hz. repeat split; done.
  - assert (delete fileID (sess_Files sess) ≠ ∅) as Hne
      by (intros He; apply Hnz; rewrite He; apply map_size_empty).
    split; [|split; [|split]].
    + intros _. eexists; split; [done|]; simpl.
      repeat split; [apply lookup_delete_eq|].
      intros k Hk. by apply lookup_delete_ne.
    + done.
    + intros sess' [= <-]. done.
    + exact Hreach.
Qed.

Lemma removeFile_autoclose_witness :
  (* the last file of a session *)
  (delete "f1" (sess_Files session0) = ∅ /\
   currentSession (RemoveFileFromSession {| currentSession := Some session0 |} "s1" "f1")
   = None /\
   GetSessionByID (RemoveFileFromSession {| currentSession := Some session0 |} "s1" "f1")
     "s1" = None) /\
  (* one of two files *)
  (delete "f1" (sess_Files session_two) ≠ ∅ /\
   exists sess',
     currentSession (RemoveFileFromSession {| currentSession := Some session_two |}
                       "s2" "f1") = Some sess' /\
     sess_Files sess' !! "f1" = None /\
     sess_Files sess' !! "f2" = sess_Files session_two !! "f2").
Proof.
  split.
  - assert (delete "f1" (sess_Files session0) = ∅) as He by apply delete_singleton_eq.
    split; [exact He|].
    exact (proj1 (proj2 (removeFile_autoclose session0 "f1")) He).
  - assert (delete "f1" (sess_Files session_two) ≠ ∅) as Hne.
    { intros He. apply (f_equal (λ m, m !! "f2")) in He. discriminate He. }
    split; [exact Hne|].
    destruct (proj1 (removeFile_autoclose session_two "f1") Hne)
      as (sess' & Hcur & _ & _ & Hgone & Hrest).
    exists sess'. split; [exact Hcur|]. split; [exact Hgone|].
    apply Hrest. discriminate.
Defined.

(** The transfer of one 12-byte file, end to end: prepare-upload hands out
    a session and one token, the upload stores the twelve bytes and closes
    the session, and the same upload sent again is refused. *)
Example one_file_transfer :
  let prepared := PrepareUploadHandlerV2 ids decode_sample host_of cfg0 idle
                    (prepare_req [] "one-file") in
  let r := upload_req "id-0" "f1" "id-1" "10.0.0.2:40001" in
  let uploaded := UploadHandlerV2 host_of os_ok cfg0 prepared.1 r in
  let repeated := UploadHandlerV2 host_of os_ok cfg0 uploaded.1 r in
  StatusCode prepared.2 = StatusOK /\
  Written prepared.2
  = PayloadJson
      (JPrepareUploadResponse
         {| resp_SessionID := "id-0"; resp_Files := {[ "f1" := "id-1" ]} |}) /\
  StatusCode uploaded.2 = StatusOK /\
  disk uploaded.1 = {[ "downloads/a.txt" := "Hello, file!" ]} /\
  String.length (Body r) = 12 /\
  currentSession (receiveService uploaded.1) = None /\
  StatusCode repeated.2 = StatusForbidden /\
  repeated.1 = uploaded.1.
Proof. vm_compute. repeat split. Qed.

(** The download pair as the server runs it: prepare-download offers the
    one placeholder file, and its download announces twelve bytes of plain
    text and sends the fixed text. *)
Example placeholder_download :
  let idle_sender := {| sendService := NewSendService; send_drawn := 0 |} in
  let prepared := PrepareDownloadHandler ids cfg0 idle_sender
                    {| Method := "POST"; Query := ∅; RemoteAddr := "10.0.0.3:40000";
                       Body := "" |} in
  let fetched := DownloadHandler prepared.1 (download_req "id-1" "id-0") in
  prepared.2
  = RespondJSON ∅ StatusOK
      (JReceiveRequestResponse (ToInfoDto cfg0) "id-1"
         {[ "id-0" := mkFileDto "dummy-file-id" "dummy.txt" 12 "text/plain" None ]}) /\
  StatusCode fetched = StatusOK /\
  Header fetched !! "Content-Length" = Some "12" /\
  Header fetched !! "Content-Type" = Some "text/plain" /\
  Header fetched !! "Content-Disposition"
  = Some ("attachment; filename=" ++ dquote ++ "dummy.txt" ++ dquote) /\
  Written fetched = PayloadText "Hello, World" /\
  String.length "Hello, World" = 12.
Proof. vm_compute. repeat split. Qed.

(** * Further properties *)

Import scenario.

(** ** Cancelling and replaying *)

Section receive_protocol.
Variable SplitHostPort : string -> string.
Variable os : storage.OS.

Local Abbreviation Upload := (UploadHandlerV2 SplitHostPort os).

(** What an accepted upload does: the body is stored under the destination
    and the file leaves the session. *)
Lemma upload_accepted (cfg : Config) (st : ReceiveState) (r : Request)
    (session : ActiveReceiveSession) (f : ActiveFile) :
  Method r = MethodPost ->
  has_upload_params r ->
  GetSessionByID (receiveService st) (Get (Query r) "sessionId") = Some session ->
  SplitHostPort (RemoteAddr r) = di_IP (Sender session) ->
  sess_Files session !! Get (Query r) "fileId" = Some f ->
  Token f = Get (Query r) "token" ->
  (storage.SaveStreamToFile os (disk st) (Body r) (destination os cfg f)).2 = None ->
  Upload cfg st r
  = ({| receiveService :=
          RemoveFileFromSession (receiveService st)
            (Get (Query r) "sessionId") (Get (Query r) "fileId");
        drawn := drawn st;
        disk := (storage.SaveStreamToFile os (disk st) (Body r) (destination os cfg f)).1 |},
     RespondJSON ∅ StatusOK JNull).
Proof.
  intros HPost (H1 & H2 & H3) Hsess Hip Hf Htok Hsink.
  unfold UploadHandlerV2, destination in *.
  rewrite decide_False by (intros H; by apply H).
  rewrite decide_False by tauto. rewrite Hsess.
  rewrite decide_False by (intros H; by apply H). rewrite Hf.
  rewrite decide_False by (intros H; by apply H).
  destruct (storage.SaveStreamToFile os (disk st) (Body r) _) as [d' [e|]];
    simpl in *; [discriminate|done].
Qed.

(** An upload answered 200 had its parameters present and a session that
    matched. *)
Lemma upload_ok_inv (cfg : Config) (st : ReceiveState) (r : Request) :
  StatusCode (Upload cfg st r).2 = StatusOK ->
  Method r = MethodPost /\ has_upload_params r /\
  exists session f,
    GetSessionByID (receiveService st) (Get (Query r) "sessionId") = Some session /\
    sess_Files session !! Get (Query r) "fileId" = Some f /\
    Token f = Get (Query r) "token" /\
    SplitHostPort (RemoteAddr r) = di_IP (Sender session).
Proof.
  unfold UploadHandlerV2, has_upload_params.
  case_decide as Hm; [discriminate|].
  case_decide as Hp; [discriminate|].
  destruct (GetSessionByID _ _) as [session|] eqn:Hs; [|discriminate].
  case_decide as Hip; [discriminate|].
  destruct (sess_Files session !! _) as [f|] eqn:Hf; [|discriminate].
  case_decide as Ht; [discriminate|].
  intros _. split; [by destruct (decide (Method r = MethodPost))|].
  split.
  - repeat split; intros He; apply Hp; rewrite He; tauto.
  - exists session, f. split; [done|]. split; [done|]. split.
    + by destruct (decide (Token f = Get (Query r) "token")).
    + by destruct (decide (SplitHostPort (RemoteAddr r) = di_IP (Sender session))).
Qed.

(** With no session, or another one, an upload that carries its parameters
    is answered 403. *)
Lemma upload_unknown_session (cfg : Config) (st : ReceiveState) (r : Request) :
  Method r = MethodPost -> has_upload_params r ->
  GetSessionByID (receiveService st) (Get (Query r) "sessionId") = None ->
  Upload cfg st r = (st, RespondError ∅ StatusForbidden "Invalid session ID").
Proof.
  intros HPost (H1 & H2 & H3) Hnone. unfold UploadHandlerV2.
  rewrite decide_False by (intros H; by apply H).
  rewrite decide_False by tauto. by rewrite Hnone.
Qed.

(** X1. [CancelHandler], for a POST request: without a [sessionId] the
    answer is 400 and with one that is not the active session's 404, both
    leaving everything as it was; with the active session's ID the answer
    is 200 and the service is idle, the disk untouched.  From then on
    every upload that carries its three parameters is answered 403,
    whatever session, file, token or address it names. *)
Theorem cancel_outcomes (st : ReceiveState) (r : Request) :
  Method r = MethodPost ->
  (Get (Query r) "sessionId" = "" ->
     StatusCode (CancelHandler st r).2 = StatusBadRequest /\ (CancelHandler st r).1 = st) /\
  (Get (Query r) "sessionId" ≠ "" ->
     GetSessionByID (receiveService st) (Get (Query r) "sessionId") = None ->
     StatusCode (CancelHandler st r).2 = StatusNotFound /\ (CancelHandler st r).1 = st) /\
  (forall session,
     Get (Query r) "sessionId" ≠ "" ->
     GetSessionByID (receiveService st) (Get (Query r) "sessionId") = Some session ->
     StatusCode (CancelHandler st r).2 = StatusOK /\
     (CancelHandler st r).1
     = {| receiveService := NewReceiveService; drawn := drawn st; disk := disk st |} /\
     forall cfg r',
       Method r' = MethodPost -> has_upload_params r' ->
       StatusCode (Upload cfg (CancelHandler st r).1 r').2 = StatusForbidden /\
       (Upload cfg (CancelHandler st r).1 r').1 = (CancelHandler st r).1).
Proof.
  intros HPost. unfold CancelHandler.
  rewrite decide_False by (intros H; by apply H).
  split; [|split].
  - intros ->. by rewrite decide_True.
  - intros Hne ->. by rewrite decide_False.
  - intros session Hne ->. rewrite decide_False by done. simpl.
    split; [done|]. split; [done|].
    intros cfg r' HPost' Hparams.
    by rewrite upload_unknown_session.
Qed.

End receive_protocol.

Lemma cancel_outcomes_witness :
  StatusCode (CancelHandler busy (cancel_req "other")).2 = StatusNotFound /\
  (CancelHandler busy (cancel_req "other")).1 = busy /\
  StatusCode (CancelHandler busy (cancel_req "s1")).2 = StatusOK /\
  StatusCode (UploadHandlerV2 host_of os_ok cfg0 (CancelHandler busy (cancel_req "s1")).1
                (upload_req "s1" "f1" "t1" "10.0.0.2:40000")).2 = StatusForbidden.
Proof.
  destruct (cancel_outcomes host_of os_ok busy (cancel_req "other") eq_refl)
    as (_ & H404 & _).
  destruct (H404 ltac:(done) eq_refl) as [Ha Hb].
  destruct (cancel_outcomes host_of os_ok busy (cancel_req "s1") eq_refl)
    as (_ & _ & H200).
  destruct (H200 session0 ltac:(done) eq_refl) as (Hc & _ & Hd).
  split; [exact Ha|]. split; [exact Hb|]. split; [exact Hc|].
  apply (Hd cfg0 (upload_req "s1" "f1" "t1" "10.0.0.2:40000") eq_refl).
  repeat split; done.
Defined.

Section token_use.
Variable SplitHostPort : string -> string.

Lemma GetSessionByID_after_remove (s : ReceiveService) (sessionID fileID : string) :
  GetSessionByID (RemoveFileFromSession s sessionID fileID) sessionID = None \/
  exists sess', GetSessionByID (RemoveFileFromSession s sessionID fileID) sessionID
                = Some sess' /\ sess_Files sess' !! fileID = None.
Proof.
  unfold RemoveFileFromSession, GetSessionByID.
  destruct (currentSession s) as [sess|] eqn:E; [|left; by rewrite E].
  case_decide as Hid; [|left; rewrite E; by rewrite decide_False].
  case_decide; [by left|]. right. simpl. rewrite decide_True by done.
  eexists; split; [done|]. apply lookup_delete_eq.
Qed.

(** X2. A token is good for one upload.  Once an upload has been answered
    200, every later POST upload naming the same session and file is
    answered 403 and changes nothing, whatever token, address or body it
    carries and whether or not the session is still open. *)
Theorem upload_token_single_use (os os' : storage.OS) (cfg cfg' : Config)
    (st : ReceiveState) (r r' : Request) :
  StatusCode (UploadHandlerV2 SplitHostPort os cfg st r).2 = StatusOK ->
  Method r' = MethodPost ->
  has_upload_params r' ->
  Get (Query r') "sessionId" = Get (Query r) "sessionId" ->
  Get (Query r') "fileId" = Get (Query r) "fileId" ->
  let st1 := (UploadHandlerV2 SplitHostPort os cfg st r).1 in
  StatusCode (UploadHandlerV2 SplitHostPort os' cfg' st1 r').2 = StatusForbidden /\
  (UploadHandlerV2 SplitHostPort os' cfg' st1 r').1 = st1.
Proof.
  intros Hok HPost Hparams Hsid Hfid st1. subst st1.
  pose proof (proj2 (upload_service_effect SplitHostPort os cfg st r) Hok) as Hsvc.
  destruct (GetSessionByID_after_remove (receiveService st)
              (Get (Query r) "sessionId") (Get (Query r) "fileId"))
    as [Hnone | (sess' & Hsome & Hgone)];
    rewrite <- Hsvc, <- ?Hsid, <- ?Hfid in *.
  - by rewrite upload_unknown_session.
  - destruct Hparams as (H1 & H2 & H3). unfold UploadHandlerV2 at 1 3.
    rewrite decide_False by (intros H; by apply H).
    rewrite decide_False by tauto. rewrite Hsome.
    case_decide; [done|]. by rewrite Hgone.
Qed.

End token_use.

Lemma upload_token_single_use_witness :
  let r := upload_req "s2" "f1" "t1" "10.0.0.2:40000" in
  let st1 := (UploadHandlerV2 host_of os_ok cfg0 busy_two r).1 in
  StatusCode (UploadHandlerV2 host_of os_ok cfg0 busy_two r).2 = StatusOK /\
  is_Some (currentSession (receiveService st1)) /\
  StatusCode (UploadHandlerV2 host_of os_ok cfg0 st1 r).2 = StatusForbidden /\
  (UploadHandlerV2 host_of os_ok cfg0 st1 r).1 = st1.
Proof.
  intros r st1.
  assert (StatusCode (UploadHandlerV2 host_of os_ok cfg0 busy_two r).2 = StatusOK)
    as Hok by reflexivity.
  split; [exact Hok|]. split; [by eexists|].
  apply (upload_token_single_use host_of os_ok os_ok cfg0 cfg0 busy_two r r Hok);
    try reflexivity.
  repeat split; done.
Defined.

(** ** Transfers of several files *)

Section transfers.
Variable SplitHostPort : string -> string.
Variable os : storage.OS.

Lemma RemoveFileFromSession_active (s : ReceiveService) (session : ActiveReceiveSession)
    (fileID : string) :
  currentSession s = Some session ->
  RemoveFileFromSession s (SessionID session) fileID
  = if decide (delete fileID (sess_Files session) = ∅)
    then {| currentSession := None |}
    else {| currentSession :=
              Some {| SessionID := SessionID session; Sender := Sender session;
                      sess_Files := delete fileID (sess_Files session) |} |}.
Proof.
  intros Hcur. unfold RemoveFileFromSession. rewrite Hcur.
  rewrite decide_True by done.
  destruct (decide (delete fileID (sess_Files session) = ∅)) as [He|Hne].
  - rewrite decide_True; [done|]. rewrite He. apply map_size_empty.
  - rewrite decide_False; [done|]. intros Hz. by apply map_size_empty_inv in Hz.
Qed.

Lemma run_uploads_cons (cfg : Config) (st : ReceiveState) (r : Request)
    (rs : list Request) :
  run_uploads SplitHostPort os cfg st (r :: rs)
  = ((run_uploads SplitHostPort os cfg (UploadHandlerV2 SplitHostPort os cfg st r).1 rs).1,
     StatusCode (UploadHandlerV2 SplitHostPort os cfg st r).2
     :: (run_uploads SplitHostPort os cfg (UploadHandlerV2 SplitHostPort os cfg st r).1 rs).2).
Proof.
  simpl. destruct (UploadHandlerV2 SplitHostPort os cfg st r) as [st1 resp]. simpl.
  by destruct (run_uploads SplitHostPort os cfg st1 rs).
Qed.

Lemma run_uploads_complete (cfg : Config) (rs : list Request) :
  forall (st : ReceiveState) (session : ActiveReceiveSession),
    sink_never_fails os ->
    currentSession (receiveService st) = Some session ->
    SessionID session ≠ "" ->
    (forall k f, sess_Files session !! k = Some f -> k ≠ "" /\ Token f ≠ "") ->
    rs ≠ [] ->
    NoDup ((λ r, Get (Query r) "fileId") <$> rs) ->
    (forall k, k ∈ ((λ r, Get (Query r) "fileId") <$> rs)
               <-> is_Some (sess_Files session !! k)) ->
    Forall (proper_upload SplitHostPort session) rs ->
    (run_uploads SplitHostPort os cfg st rs).2 = replicate (List.length rs) StatusOK /\
    currentSession (receiveService (run_uploads SplitHostPort os cfg st rs).1) = None.
Proof.
  induction rs as [|r rs IH]; intros st session Hsink Hcur Hsid Hkeys Hne Hnd Hcover Hall;
    [done|].
  apply Forall_cons in Hall as [(HPost & Hrs & Hip & f & Hf & Htok) Hall].
  rewrite fmap_cons in Hnd, Hcover. apply NoDup_cons in Hnd as [Hfresh Hnd].
  destruct (Hkeys _ _ Hf) as [Hfid Htokne].
  assert (GetSessionByID (receiveService st) (Get (Query r) "sessionId") = Some session)
    as Hget by (by apply GetSessionByID_Some).
  assert (has_upload_params r) as Hparams
    by (repeat split; [by rewrite Hrs | done | by rewrite Htok]).
  rewrite run_uploads_cons.
  rewrite (upload_accepted SplitHostPort os cfg st r session f HPost Hparams Hget
             Hip Hf (eq_sym Htok) (Hsink _ _ _)).
  cbn [fst snd StatusCode RespondJSON]. rewrite Hrs.
  rewrite (RemoveFileFromSession_active _ session _ Hcur).
  destruct rs as [|r2 rs].
  - (* the last file *)
    rewrite decide_True; [done|].
    apply map_eq. intros k. rewrite lookup_empty.
    destruct (decide (k = Get (Query r) "fileId")) as [->|Hk];
      [apply lookup_delete_eq|].
    rewrite lookup_delete_ne by done.
    destruct (sess_Files session !! k) eqn:E; [|done].
    exfalso. assert (k ∈ [Get (Query r) "fileId"]) as Hin
      by (apply Hcover; by rewrite E).
    by apply list_elem_of_singleton in Hin.
  - (* more files to come *)
    set (fid := Get (Query r) "fileId") in *.
    set (session' := {| SessionID := SessionID session; Sender := Sender session;
                        sess_Files := delete fid (sess_Files session) |}).
    assert (forall k, k ∈ ((λ r, Get (Query r) "fileId") <$> r2 :: rs)
                      <-> is_Some (sess_Files session' !! k)) as Hcover'.
    { intros k. simpl. split.
      - intros Hin. assert (k ≠ fid) as Hk by (intros ->; done).
        rewrite lookup_delete_ne by done. apply Hcover. by right.
      - intros Hsome. destruct (decide (k = fid)) as [->|Hk].
        + rewrite lookup_delete_eq in Hsome. by destruct Hsome.
        + rewrite lookup_delete_ne in Hsome by done.
          apply Hcover in Hsome. apply elem_of_cons in Hsome as [?|?]; done. }
    assert (delete fid (sess_Files session) ≠ ∅) as Hmore.
    { intros He. destruct (proj1 (Hcover' (Get (Query r2) "fileId")) ltac:(left))
        as [x Hx]. simpl in Hx. rewrite He in Hx. done. }
    rewrite decide_False by done.
    destruct (IH {| receiveService := {| currentSession := Some session' |};
                    drawn := drawn st;
                    disk := (storage.SaveStreamToFile os (disk st) (Body r)
                               (destination os cfg f)).1 |}
                session' Hsink eq_refl Hsid) as [Hcodes Hidle]; try done.
    + intros k f' Hk. simpl in Hk.
      destruct (decide (k = fid)) as [->|Hne'];
        [by rewrite lookup_delete_eq in Hk|].
      rewrite lookup_delete_ne in Hk by done. by apply Hkeys in Hk.
    + apply Forall_forall. intros r' Hr'.
      rewrite Forall_forall in Hall.
      destruct (Hall r' Hr') as (HPost' & Hrs' & Hip' & f' & Hf' & Htok').
      repeat split; try done. exists f'. split; [|done]. simpl.
      rewrite lookup_delete_ne; [done|].
      intros He. apply Hfresh. rewrite He.
      apply list_elem_of_fmap. by exists r'.
    + split; [|exact Hidle]. rewrite Hcodes. done.
Qed.

(** X3. A sender that uploads every announced file once, in any order,
    each with the session's ID and the file's token from the address that
    prepared the session, is answered 200 every time and leaves the
    receiver idle, provided the sink does not fail and no file was declared
    under the empty ID. *)
Theorem uploads_complete_session (cfg : Config) (rs : list Request) :
  forall (st : ReceiveState) (session : ActiveReceiveSession),
    sink_never_fails os ->
    currentSession (receiveService st) = Some session ->
    SessionID session ≠ "" ->
    (forall k f, sess_Files session !! k = Some f -> k ≠ "" /\ Token f ≠ "") ->
    rs ≠ [] ->
    NoDup ((λ r, Get (Query r) "fileId") <$> rs) ->
    (forall k, k ∈ ((λ r, Get (Query r) "fileId") <$> rs)
               <-> is_Some (sess_Files session !! k)) ->
    Forall (proper_upload SplitHostPort session) rs ->
    (run_uploads SplitHostPort os cfg st rs).2 = replicate (List.length rs) StatusOK /\
    currentSession (receiveService (run_uploads SplitHostPort os cfg st rs).1) = None.
Proof. apply run_uploads_complete. Qed.

(** X4. A file declared under the empty file ID can never be uploaded:
    whatever upload requests arrive, the session stays open with that file
    pending, its token unchanged. *)
Theorem empty_file_id_never_uploaded (cfg : Config) (rs : list Request) :
  forall (st : ReceiveState) (session : ActiveReceiveSession) (f : ActiveFile),
    currentSession (receiveService st) = Some session ->
    sess_Files session !! "" = Some f ->
    exists session',
      currentSession (receiveService (run_uploads SplitHostPort os cfg st rs).1)
      = Some session' /\
      SessionID session' = SessionID session /\
      sess_Files session' !! "" = Some f.
Proof.
  induction rs as [|r rs IH]; intros st session f Hcur Hblank.
  - by exists session.
  - rewrite run_uploads_cons. cbn [fst].
    destruct (decide (StatusCode (UploadHandlerV2 SplitHostPort os cfg st r).2
                      = StatusOK)) as [Hok|Hno].
    + destruct (upload_ok_inv SplitHostPort os cfg st r Hok)
        as (_ & (_ & Hfid & _) & sess & f' & Hget & _).
      apply GetSessionByID_Some in Hget as [Hcur' Hid].
      rewrite Hcur in Hcur'. injection Hcur' as <-.
      pose proof (proj2 (upload_service_effect SplitHostPort os cfg st r) Hok) as Hsvc.
      rewrite <- Hid, (RemoveFileFromSession_active _ session _ Hcur) in Hsvc.
      assert (delete (Get (Query r) "fileId") (sess_Files session) !! "" = Some f)
        as Hkeep by (by rewrite lookup_delete_ne).
      rewrite decide_False in Hsvc by (intros He; by rewrite He in Hkeep).
      destruct (IH (UploadHandlerV2 SplitHostPort os cfg st r).1 _ f
                  ltac:(by rewrite Hsvc) Hkeep) as (session' & H1 & H2 & H3).
      by exists session'.
    + pose proof (proj1 (upload_service_effect SplitHostPort os cfg st r) Hno) as Hsvc.
      apply (IH _ session f); [by rewrite Hsvc | done].
Qed.

End transfers.

Lemma os_ok_never_fails : sink_never_fails os_ok.
Proof. intros fs body path. reflexivity. Qed.

Lemma uploads_complete_session_witness :
  let rs := [upload_req "s2" "f2" "t2" "10.0.0.2:40000";
             upload_req "s2" "f1" "t1" "10.0.0.2:40001"] in
  (run_uploads host_of os_ok cfg0 busy_two rs).2 = [StatusOK; StatusOK] /\
  currentSession (receiveService (run_uploads host_of os_ok cfg0 busy_two rs).1) = None.
Proof.
  intros rs.
  apply (uploads_complete_session host_of os_ok cfg0 rs busy_two session_two).
  - exact os_ok_never_fails.
  - reflexivity.
  - done.
  - intros k f Hk. simpl in Hk.
    apply lookup_insert_Some in Hk as [[<- <-]|[_ Hk]]; [done|].
    apply lookup_singleton_Some in Hk as [<- <-]. done.
  - done.
  - apply NoDup_cons. split; [|apply NoDup_singleton].
    intros Hk. by apply list_elem_of_singleton in Hk.
  - intros k. simpl. split.
    + intros Hk. apply elem_of_cons in Hk as [->|Hk]; [by eexists|].
      apply list_elem_of_singleton in Hk as ->. by eexists.
    + intros [f Hk]. apply lookup_insert_Some in Hk as [[<- _]|[_ Hk]];
        [set_solver|].
      apply lookup_singleton_Some in Hk as [<- _]. set_solver.
  - repeat constructor; by eexists.
Defined.

Lemma empty_file_id_never_uploaded_witness :
  let rs := [upload_req "s3" "" "t0" "10.0.0.2:40000";
             upload_req "s3" "f1" "t1" "10.0.0.2:40001";
             upload_req "s3" "" "t0" "10.0.0.2:40002"] in
  exists session',
    currentSession (receiveService (run_uploads host_of os_ok cfg0 busy_blank rs).1)
    = Some session' /\
    SessionID session' = "s3" /\
    sess_Files session' !! "" = Some {| Dto := file_a; Token := "t0" |}.
Proof.
  intros rs.
  apply (empty_file_id_never_uploaded host_of os_ok cfg0 rs busy_blank session_blank
           {| Dto := file_a; Token := "t0" |}); reflexivity.
Defined.

(** ** The send role *)

Section send_role.
Variable supply : nat -> string.

Lemma run_prepare_downloads_cons (cfg : Config) (st : SendState) (r : Request)
    (rs : list Request) :
  run_prepare_downloads supply cfg st (r :: rs)
  = ((run_prepare_downloads supply cfg (PrepareDownloadHandler supply cfg st r).1 rs).1,
     StatusCode (PrepareDownloadHandler supply cfg st r).2
     :: (run_prepare_downloads supply cfg (PrepareDownloadHandler supply cfg st r).1 rs).2).
Proof.
  simpl. destruct (PrepareDownloadHandler supply cfg st r) as [st1 resp]. simpl.
  by destruct (run_prepare_downloads supply cfg st1 rs).
Qed.

Lemma prepare_download_busy (cfg : Config) (st : SendState) (r : Request)
    (session : ActiveSendSession) :
  send_currentSession (sendService st) = Some session ->
  sendService (PrepareDownloadHandler supply cfg st r).1 = sendService st /\
  (StatusCode (PrepareDownloadHandler supply cfg st r).2 = StatusUnauthorized \/
   StatusCode (PrepareDownloadHandler supply cfg st r).2 = StatusConflict).
Proof.
  intros Hcur. unfold PrepareDownloadHandler, Send_CreateSession, uuid.NewString.
  case_decide; [by split; [|left]|]. rewrite Hcur. by split; [|right].
Qed.

Lemma prepare_download_ok (cfg : Config) (st : SendState) (r : Request) :
  StatusCode (PrepareDownloadHandler supply cfg st r).2 = StatusOK ->
  send_currentSession (sendService st) = None /\
  (PrepareDownloadHandler supply cfg st r).2
  = RespondJSON ∅ StatusOK
      (JReceiveRequestResponse (ToInfoDto cfg) (supply (S (send_drawn st)))
         {[ supply (send_drawn st) := dummy_file ]}) /\
  send_currentSession (sendService (PrepareDownloadHandler supply cfg st r).1)
  = Some {| send_SessionID := supply (S (send_drawn st));
            send_Files := {[ supply (send_drawn st) := dummy_file ]} |}.
Proof.
  unfold PrepareDownloadHandler, Send_CreateSession, uuid.NewString.
  case_decide; [done|].
  destruct (send_currentSession (sendService st)) eqn:E; [done|]. done.
Qed.

Lemma run_prepare_downloads_busy (cfg : Config) (rs : list Request) :
  forall (st : SendState) (session : ActiveSendSession),
    send_currentSession (sendService st) = Some session ->
    sendService (run_prepare_downloads supply cfg st rs).1 = sendService st /\
    Forall (λ c, c = StatusUnauthorized \/ c = StatusConflict)
      (run_prepare_downloads supply cfg st rs).2.
Proof.
  induction rs as [|r rs IH]; intros st session Hcur; [by split|].
  rewrite run_prepare_downloads_cons. cbn [fst snd].
  destruct (prepare_download_busy cfg st r session Hcur) as [Hsvc Hcode].
  destruct (IH (PrepareDownloadHandler supply cfg st r).1 session
              ltac:(by rewrite Hsvc)) as [Hsvc' Hcodes].
  split; [by rewrite Hsvc'|]. by apply Forall_cons.
Qed.

(** X5. No handler releases a send session: once one is active, every
    later prepare-download request is answered 401 or 409, whatever PIN it
    carries, and the session stays the one it was. *)
Theorem send_session_never_released (cfg : Config) (rs : list Request)
    (st : SendState) (session : ActiveSendSession) :
  send_currentSession (sendService st) = Some session ->
  send_currentSession (sendService (run_prepare_downloads supply cfg st rs).1)
  = Some session /\
  Forall (λ c, c = StatusUnauthorized \/ c = StatusConflict)
    (run_prepare_downloads supply cfg st rs).2.
Proof.
  intros Hcur. destruct (run_prepare_downloads_busy cfg rs st session Hcur) as [-> H].
  by split.
Qed.

(** X6. When prepare-download answers 200, the body names a session and
    one file, both under identifiers drawn from the supply; if those are
    not empty, a download request naming them is answered 200 with the
    placeholder's headers and text, and still is after any number of
    further prepare-download requests. *)
Theorem prepared_download_stays_available (cfg : Config) (st : SendState)
    (r : Request) (rs : list Request) (d : Request) :
  (forall n, supply n ≠ "") ->
  StatusCode (PrepareDownloadHandler supply cfg st r).2 = StatusOK ->
  exists sessionId fileId,
    Written (PrepareDownloadHandler supply cfg st r).2
    = PayloadJson (JReceiveRequestResponse (ToInfoDto cfg) sessionId
                     {[ fileId := dummy_file ]}) /\
    (Get (Query d) "sessionId" = sessionId ->
     Get (Query d) "fileId" = fileId ->
     DownloadHandler
       (run_prepare_downloads supply cfg (PrepareDownloadHandler supply cfg st r).1 rs).1 d
     = {| StatusCode := StatusOK;
          Header := {[ "Content-Disposition" :=
                         "attachment; filename=" ++ dquote ++ "dummy.txt" ++ dquote;
                       "Content-Type" := "text/plain";
                       "Content-Length" := "12" ]};
          Written := PayloadText "Hello, World" |}).
Proof.
  intros Hids Hok.
  destruct (prepare_download_ok cfg st r Hok) as (_ & Hresp & Hcur).
  exists (supply (S (send_drawn st))), (supply (send_drawn st)).
  split; [by rewrite Hresp|].
  intros Hsid Hfid.
  destruct (run_prepare_downloads_busy cfg rs _ _ Hcur) as [Hsvc _].
  unfold DownloadHandler, Send_GetSessionByID.
  rewrite Hsvc, Hcur, Hsid, Hfid. cbn [send_SessionID send_Files].
  rewrite decide_False by (intros [?|?]; by eapply Hids).
  rewrite decide_True by done. cbn [send_Files].
  rewrite lookup_singleton_eq. reflexivity.
Qed.

End send_role.

Lemma send_session_never_released_witness :
  let rs := [download_req "id-1" "id-0"; download_req "x" "y"] in
  send_currentSession (sendService (run_prepare_downloads ids cfg_pin offering_placeholder rs).1)
  = send_currentSession (sendService offering_placeholder) /\
  Forall (λ c, c = StatusUnauthorized \/ c = StatusConflict)
    (run_prepare_downloads ids cfg_pin offering_placeholder rs).2.
Proof.
  intros rs.
  apply (send_session_never_released ids cfg_pin rs offering_placeholder _ eq_refl).
Defined.

Lemma ids_nonempty (n : nat) : ids n ≠ "".
Proof. unfold ids. done. Qed.

Lemma prepared_download_stays_available_witness :
  let idle_sender := {| sendService := NewSendService; send_drawn := 0 |} in
  let r := {| Method := "POST"; Query := ∅; RemoteAddr := "10.0.0.3:40000"; Body := "" |} in
  exists sessionId fileId,
    Written (PrepareDownloadHandler ids cfg0 idle_sender r).2
    = PayloadJson (JReceiveRequestResponse (ToInfoDto cfg0) sessionId
                     {[ fileId := dummy_file ]}) /\
    (Get (Query (download_req "id-1" "id-0")) "sessionId" = sessionId ->
     Get (Query (download_req "id-1" "id-0")) "fileId" = fileId ->
     DownloadHandler
       (run_prepare_downloads ids cfg0 (PrepareDownloadHandler ids cfg0 idle_sender r).1
          [r; r]).1 (download_req "id-1" "id-0")
     = {| StatusCode := StatusOK;
          Header := {[ "Content-Disposition" :=
                         "attachment; filename=" ++ dquote ++ "dummy.txt" ++ dquote;
                       "Content-Type" := "text/plain";
                       "Content-Length" := "12" ]};
          Written := PayloadText "Hello, World" |}).
Proof.
  intros idle_sender r.
  apply (prepared_download_stays_available ids cfg0 idle_sender r [r; r]
           (download_req "id-1" "id-0") ids_nonempty eq_refl).
Defined.

(** ** The multicast listener *)

Section listener.
Import discovery multicast.
Variable unmarshalMulticastDto : string -> option MulticastDto.

Local Abbreviation handle := (handlePacket unmarshalMulticastDto).

(** What [updateDevice] does with a record just allocated. *)
Lemma md_updateDevice_alloc (m : MulticastDiscovery) (h : Store) (now : Z) (d : Device) :
  md_updateDevice m (alloc h d).1 now (alloc h d).2
  = Some match md_devices m !! Fingerprint d with
         | Some existingDevice =>
             (m, alter (UpdateLastSeen now) existingDevice (alloc h d).1, [])
         | None =>
             ({| md_config := md_config m; dto := dto m;
                 md_devices := <[Fingerprint d := (alloc h d).2]> (md_devices m);
                 md_handlers := md_handlers m |},
              (alloc h d).1,
              (λ handler, (handler, (alloc h d).2)) <$> md_handlers m)
         end.
Proof.
  unfold md_updateDevice. destruct (alloc_spec h d) as (-> & _).
  by destruct (md_devices m !! Fingerprint d).
Qed.

(** A packet of a peer, from a UDP address. *)
Lemma handlePacket_peer (m : MulticastDiscovery) (h : Store) (now : Z) (net_ok : bool)
    (data : string) (msg : MulticastDto) (ip : string) (port : Z) :
  unmarshalMulticastDto data = Some msg ->
  dto_Fingerprint msg ≠ dto_Fingerprint (dto m) ->
  let d := FromMulticastDto msg ip now in
  let u := match md_devices m !! Fingerprint d with
           | Some existingDevice =>
               (m, alter (UpdateLastSeen now) existingDevice (alloc h d).1, [])
           | None =>
               ({| md_config := md_config m; dto := dto m;
                   md_devices := <[Fingerprint d := (alloc h d).2]> (md_devices m);
                   md_handlers := md_handlers m |},
                (alloc h d).1,
                (λ handler, (handler, (alloc h d).2)) <$> md_handlers m)
           end in
  handle m h now net_ok data (UDPAddr ip port)
  = {| pr_md := u.1.1; pr_store := u.1.2; pr_started := u.2;
       pr_sent := if dto_Announce msg && net_ok
                  then [ToPeer ip port (with_Announce (dto m) false)] else [];
       pr_err := None |}.
Proof.
  intros Hdec Hpeer d u. unfold handlePacket. rewrite Hdec, decide_False by done.
  pose proof (md_updateDevice_alloc m h now d) as Hu. fold u in Hu.
  fold d. destruct (alloc h d) as [h1 p] eqn:E. cbn [fst snd] in Hu. rewrite Hu.
  destruct u as [[m' h2] started] eqn:Eu. cbn [fst snd].
  assert (dto m' = dto m) as Hdto.
  { subst u. destruct (md_devices m !! Fingerprint d); by injection Eu as <- _ _. }
  unfold SendDiscoveryResponse. rewrite Hdto.
  by destruct (dto_Announce msg), net_ok.
Qed.

(** The three ways a packet is treated. *)
Lemma handlePacket_cases (m : MulticastDiscovery) (h : Store) (now : Z) (net_ok : bool)
    (data : string) (addr : Addr) :
  (unmarshalMulticastDto data = None /\
   handle m h now net_ok data addr
   = mkPacketResult m h [] [] (Some "failed to unmarshal packet")) \/
  (exists msg, unmarshalMulticastDto data = Some msg /\
     dto_Fingerprint msg = dto_Fingerprint (dto m) /\
     handle m h now net_ok data addr = mkPacketResult m h [] [] None) \/
  (exists msg network, unmarshalMulticastDto data = Some msg /\
     dto_Fingerprint msg ≠ dto_Fingerprint (dto m) /\
     addr = OtherAddr network /\
     handle m h now net_ok data addr
     = mkPacketResult m h [] [] (Some "unexpected address type")) \/
  (exists msg ip port, unmarshalMulticastDto data = Some msg /\
     dto_Fingerprint msg ≠ dto_Fingerprint (dto m) /\
     addr = UDPAddr ip port).
Proof.
  destruct (unmarshalMulticastDto data) as [msg|] eqn:Hdec.
  - destruct (decide (dto_Fingerprint msg = dto_Fingerprint (dto m))) as [Hself|Hpeer].
    + right; left. exists msg. repeat split; try done.
      unfold handlePacket. by rewrite Hdec, decide_True.
    + destruct addr as [ip port|network].
      * right; right; right. by exists msg, ip, port.
      * right; right; left. exists msg, network. repeat split; try done.
        unfold handlePacket. by rewrite Hdec, decide_False.
  - left. split; [done|]. unfold handlePacket. by rewrite Hdec.
Qed.

(** X7. Whatever a node sends while handling a packet is a response, with
    the announce flag off, and a node that handles such a response sends
    nothing: two nodes never answer each other's answers. *)
Theorem discovery_response_never_answered
    (mA mB : MulticastDiscovery) (hA hB : Store) (nowA nowB : Z) (netA netB : bool)
    (dataA dataB : string) (addrA addrB : Addr) (g : Datagram) :
  g ∈ pr_sent (handle mA hA nowA netA dataA addrA) ->
  unmarshalMulticastDto dataB = Some (payload g) ->
  dto_Announce (payload g) = false /\
  pr_sent (handle mB hB nowB netB dataB addrB) = [].
Proof.
  intros Hg HdecB.
  assert (dto_Announce (payload g) = false) as Hflag.
  { destruct (handlePacket_cases mA hA nowA netA dataA addrA)
      as [[_ E]|[(msg & _ & _ & E)|[(msg & network & _ & _ & _ & E)
          |(msg & ip & port & Hdec & Hpeer & ->)]]];
      try (rewrite E in Hg; by apply elem_of_nil in Hg).
    rewrite (handlePacket_peer mA hA nowA netA dataA msg ip port Hdec Hpeer) in Hg.
    cbn [pr_sent] in Hg. destruct (dto_Announce msg && netA);
      [|by apply elem_of_nil in Hg].
    by apply list_elem_of_singleton in Hg as ->. }
  split; [done|].
  destruct (handlePacket_cases mB hB nowB netB dataB addrB)
    as [[_ E]|[(msg & _ & _ & E)|[(msg & network & _ & _ & _ & E)
        |(msg & ip & port & Hdec & Hpeer & ->)]]];
    try (by rewrite E).
  rewrite (handlePacket_peer mB hB nowB netB dataB msg ip port Hdec Hpeer).
  cbn [pr_sent]. rewrite HdecB in Hdec. injection Hdec as <-. by rewrite Hflag.
Qed.

(** X8. [handlePacket] fails only on an undecodable packet or, for a
    peer's message, on an address that is not a UDP address; a failed call
    changes neither the registry nor the store, starts no handler and
    sends nothing. *)
Theorem handlePacket_error_changes_nothing (m : MulticastDiscovery) (h : Store)
    (now : Z) (net_ok : bool) (data : string) (addr : Addr) :
  pr_err (handle m h now net_ok data addr) ≠ None ->
  handle m h now net_ok data addr
  = mkPacketResult m h [] [] (pr_err (handle m h now net_ok data addr)) /\
  (unmarshalMulticastDto data = None \/
   exists msg network, unmarshalMulticastDto data = Some msg /\
     dto_Fingerprint msg ≠ dto_Fingerprint (dto m) /\ addr = OtherAddr network).
Proof.
  intros Herr.
  destruct (handlePacket_cases m h now net_ok data addr)
    as [[Hdec E]|[(msg & _ & _ & E)|[(msg & network & Hdec & Hpeer & Haddr & E)
        |(msg & ip & port & Hdec & Hpeer & ->)]]].
  - rewrite E. split; [done|by left].
  - by rewrite E in Herr.
  - rewrite E. split; [done|]. right. by exists msg, network.
  - by rewrite (handlePacket_peer m h now net_ok data msg ip port Hdec Hpeer) in Herr.
Qed.

Lemma registry_wf_alloc (registry : gmap string nat) (h : Store) (d : Device) :
  registry_wf registry h -> registry_wf registry (alloc h d).1.
Proof.
  intros Hwf id p Hp. destruct (Hwf id p Hp) as (d' & Hd' & Hfp).
  destruct (alloc_spec h d) as (_ & Hfresh & Hrest).
  exists d'. split; [|done]. rewrite Hrest; [done|]. congruence.
Qed.

Lemma registry_wf_alter (registry : gmap string nat) (h : Store) (now : Z) (q : nat) :
  registry_wf registry h -> registry_wf registry (alter (UpdateLastSeen now) q h).
Proof.
  intros Hwf id p Hp. destruct (Hwf id p Hp) as (d' & Hd' & Hfp).
  destruct (decide (p = q)) as [->|Hne].
  - exists (UpdateLastSeen now d'). by rewrite lookup_alter_eq, Hd'.
  - exists d'. by rewrite lookup_alter_ne.
Qed.

Lemma registry_wf_insert (registry : gmap string nat) (h : Store) (p : nat) (d : Device) :
  registry_wf registry h -> h !! p = Some d ->
  registry_wf (<[Fingerprint d := p]> registry) h.
Proof.
  intros Hwf Hd id q Hq. apply lookup_insert_Some in Hq as [[<- <-]|[_ Hq]].
  - by exists d.
  - by apply Hwf.
Qed.

Lemma handlePacket_registry_wf (m : MulticastDiscovery) (h : Store) (now : Z)
    (net_ok : bool) (data : string) (addr : Addr) :
  registry_wf (md_devices m) h ->
  registry_wf (md_devices (pr_md (handle m h now net_ok data addr)))
    (pr_store (handle m h now net_ok data addr)).
Proof.
  intros Hwf.
  destruct (handlePacket_cases m h now net_ok data addr)
    as [[Hdec E]|[(msg & _ & _ & E)|[(msg & network & Hdec & Hpeer & Haddr & E)
        |(msg & ip & port & Hdec & Hpeer & ->)]]]; try (by rewrite E).
  rewrite (handlePacket_peer m h now net_ok data msg ip port Hdec Hpeer).
  cbn [pr_md pr_store]. set (d := FromMulticastDto msg ip now).
  destruct (md_devices m !! Fingerprint d) as [e|]; cbn [fst snd md_devices].
  - by apply registry_wf_alter, registry_wf_alloc.
  - apply registry_wf_insert; [by apply registry_wf_alloc|].
    by destruct (alloc_spec h d) as (? & _).
Qed.

Lemma registry_wf_NoDup (registry : gmap string nat) (h : Store) :
  registry_wf registry h -> NoDup (snd <$> map_to_list registry).
Proof.
  intros Hwf. apply NoDup_fmap_2_strong; [|apply NoDup_map_to_list].
  intros [id p] [id' p'] Hin Hin' Heq. simpl in Heq. subst p'.
  apply elem_of_map_to_list in Hin, Hin'.
  destruct (Hwf _ _ Hin) as (d & Hd & <-).
  destruct (Hwf _ _ Hin') as (d' & Hd' & <-). congruence.
Qed.

(** The loop's work, while nothing ends it, is the handling of its
    packets. *)
Lemma listenLoop_prefix (pre rest : list Turn) :
  forallb keeps_listening pre = true ->
  forall (l : Listener) (h : Store) started sent,
    closed l = false -> is_Some (conn l) ->
    let u := handle_packets unmarshalMulticastDto pre (md l) h started sent in
    listenLoop unmarshalMulticastDto (pre ++ rest) l h started sent
    = listenLoop unmarshalMulticastDto rest
        {| md := u.1.1.1; conn := conn l; closed := false |} u.1.1.2 u.1.2 u.2.
Proof.
  induction pre as [|t pre IH]; intros Hpre l h started sent Hopen Hconn.
  - simpl. destruct l as [m c' cl]. simpl in *. by subst.
  - simpl in Hpre. apply andb_true_iff in Hpre as [Ht Hpre].
    assert (closed l || bool_decide (conn l = None) = false) as Hcond.
    { rewrite Hopen. destruct Hconn as [c Hc]. rewrite Hc. done. }
    destruct t as [| |timeout message|now net_ok data addr]; try done.
    + cbn [app listenLoop handle_packets]. rewrite Hcond.
      simpl in Ht.
      destruct timeout; [by apply IH|].
      simpl in Ht. apply negb_true_iff in Ht. rewrite Ht. by apply IH.
    + cbn [app listenLoop handle_packets]. rewrite Hcond.
      specialize (IH Hpre {| md := pr_md (handle (md l) h now net_ok data addr);
                             conn := conn l; closed := closed l |}
                    (pr_store (handle (md l) h now net_ok data addr))
                    (started ++ pr_started (handle (md l) h now net_ok data addr))%list
                    (sent ++ pr_sent (handle (md l) h now net_ok data addr))%list
                    Hopen Hconn).
      cbn [md conn closed] in IH. exact IH.
Qed.

Lemma listenLoop_closed (turns : list Turn) (l : Listener) (h : Store)
    (started : list (Handler * nat)) (sent : list Datagram) :
  closed l = true ->
  listenLoop unmarshalMulticastDto turns l h started sent
  = mkLoopState l h started sent true.
Proof. intros Hcl. destruct turns as [|[] ?]; simpl; by rewrite ?Hcl. Qed.

(** X9. The listen loop keeps the multicast registry consistent with the
    store of device records: every entry points to a record carrying the
    entry's key as fingerprint, so [GetDevices] never returns a pointer
    twice. *)
Theorem listen_registry_consistent (turns : list Turn) :
  forall (l : Listener) (h : Store) (started : list (Handler * nat))
    (sent : list Datagram),
    registry_wf (md_devices (md l)) h ->
    let r := listenLoop unmarshalMulticastDto turns l h started sent in
    registry_wf (md_devices (md (ls_listener r))) (ls_store r) /\
    NoDup (md_GetDevices (md (ls_listener r))).
Proof.
  assert (forall l h started sent,
            registry_wf (md_devices (md l)) h ->
            registry_wf
              (md_devices (md (ls_listener
                 (listenLoop unmarshalMulticastDto turns l h started sent))))
              (ls_store (listenLoop unmarshalMulticastDto turns l h started sent)))
    as Hinv.
  { induction turns as [|t turns IH]; intros l h started sent Hwf.
    - simpl. by destruct (closed l || bool_decide (conn l = None)).
    - destruct t as [| |timeout message|now net_ok data addr]; cbn [listenLoop].
      + done.
      + destruct (closed l || bool_decide (conn l = None)); [done|]. by apply IH.
      + destruct (closed l || bool_decide (conn l = None)); [done|].
        destruct timeout; [by apply IH|].
        destruct (Contains message _); [done|by apply IH].
      + destruct (closed l || bool_decide (conn l = None)); [done|].
        apply IH. cbn [md]. by apply handlePacket_registry_wf. }
  intros l h started sent Hwf r. split; [by apply Hinv|].
  eapply registry_wf_NoDup. by apply Hinv.
Qed.

(** X10. A listener that is already listening refuses to start again and
    is left as it was.  [Stop] closes the socket and is idempotent.  A
    stopped listener can open a socket again, but its listen loop returns
    at once, whatever arrives: nothing resets the closed flag. *)
Theorem stopped_listener_never_listens_again (l : Listener) (net : ListenOutcome) :
  (is_Some (conn l) -> StartListening l net = (l, Some "already listening", false)) /\
  Stop (Stop l) = Stop l /\
  (forall c, StartListening (Stop l) (Listens c)
             = ({| md := md l; conn := Some c; closed := true |}, None, true)) /\
  (forall turns h started sent,
     let l' := (StartListening (Stop l) net).1.1 in
     listenLoop unmarshalMulticastDto turns l' h started sent
     = mkLoopState l' h started sent true).
Proof.
  split; [|split; [|split]].
  - intros [c Hc]. unfold StartListening. by rewrite Hc.
  - done.
  - done.
  - intros turns h started sent l'. apply listenLoop_closed.
    subst l'. by destruct net.
Qed.

(** X11. An open listener goes on through timeouts, through read errors
    other than that of a closed connection, and through packets that fail
    to be handled: up to the first turn that ends it the loop has handled
    exactly the packets read, it has not returned before that turn, and it
    returns at that turn without handling anything that follows. *)
Theorem listenLoop_runs_until_ended (pre rest : list Turn) (t : Turn) (l : Listener)
    (h : Store) (started : list (Handler * nat)) (sent : list Datagram) :
  forallb keeps_listening pre = true ->
  keeps_listening t = false ->
  closed l = false -> is_Some (conn l) ->
  let u := handle_packets unmarshalMulticastDto pre (md l) h started sent in
  let r := listenLoop unmarshalMulticastDto (pre ++ t :: rest) l h started sent in
  ls_returned (listenLoop unmarshalMulticastDto pre l h started sent) = false /\
  ls_returned r = true /\
  md (ls_listener r) = u.1.1.1 /\ ls_store r = u.1.1.2 /\
  ls_started r = u.1.2 /\ ls_sent r = u.2.
Proof.
  intros Hpre Ht Hopen Hconn u r.
  pose proof (listenLoop_prefix pre [] Hpre l h started sent Hopen Hconn) as Hnil.
  pose proof (listenLoop_prefix pre (t :: rest) Hpre l h started sent Hopen Hconn) as Hr.
  cbn zeta in Hnil, Hr. fold u in Hnil, Hr. fold r in Hr.
  rewrite app_nil_r in Hnil.
  assert (false || bool_decide (conn l = None) = false) as Hcond
    by (destruct Hconn as [c ->]; done).
  split.
  - rewrite Hnil. cbn [listenLoop closed conn]. by rewrite Hcond.
  - rewrite Hr. clear Hr Hnil.
    destruct t as [| |timeout message|now net_ok data addr]; try done.
    + cbn [listenLoop closed conn]. rewrite Hcond.
      by rewrite listenLoop_closed.
    + cbn [listenLoop closed conn]. rewrite Hcond.
      simpl in Ht. apply orb_false_iff in Ht as [-> Ht].
      apply negb_false_iff in Ht. by rewrite Ht.
Qed.

End listener.

Lemma discovery_response_never_answered_witness :
  let g := discovery.ToPeer "10.0.0.2" 53317 (discovery.with_Announce self_dto false) in
  dto_Announce (payload g) = false /\
  discovery.pr_sent
    (discovery.handlePacket unmarshal_wire md_peer ∅ 1001 true "self-response"
       (discovery.UDPAddr "10.0.0.1" 53317)) = [].
Proof.
  intros g.
  apply (discovery_response_never_answered unmarshal_wire sample.md0 md_peer ∅ ∅
           1000 1001 true true "peer" "self-response"
           (discovery.UDPAddr "10.0.0.2" 53317) (discovery.UDPAddr "10.0.0.1" 53317) g).
  - vm_compute. constructor.
  - reflexivity.
Defined.

Lemma handlePacket_error_changes_nothing_witness :
  discovery.handlePacket unmarshal_wire md0 records 1000 true "peer"
    (discovery.OtherAddr "unix")
  = discovery.mkPacketResult md0 records [] [] (Some "unexpected address type").
Proof.
  destruct (handlePacket_error_changes_nothing unmarshal_wire md0 records 1000 true
              "peer" (discovery.OtherAddr "unix")) as [E _].
  - vm_compute. discriminate.
  - exact E.
Defined.

Lemma registry_wf_empty (h : discovery.Store) : registry_wf ∅ h.
Proof. intros id p Hp. by rewrite lookup_empty in Hp. Qed.

Lemma listen_registry_consistent_witness :
  let turns := (rough_turns
                ++ [multicast.ReadPacket 3000 true "peer"
                      (discovery.UDPAddr "10.0.0.7" 53317)])%list in
  let r := multicast.listenLoop unmarshal_wire turns listener0 ∅ [] [] in
  registry_wf (discovery.md_devices (multicast.md (multicast.ls_listener r)))
    (multicast.ls_store r) /\
  NoDup (multicast.md_GetDevices (multicast.md (multicast.ls_listener r))).
Proof.
  intros turns.
  apply (listen_registry_consistent unmarshal_wire turns listener0 ∅ [] []).
  apply registry_wf_empty.
Defined.

Lemma stopped_listener_never_listens_again_witness :
  multicast.StartListening listener0 (multicast.Listens 8)
  = (listener0, Some "already listening", false) /\
  let l' := (multicast.StartListening (multicast.Stop listener0) (multicast.Listens 8)).1.1 in
  multicast.conn l' = Some 8%nat /\
  multicast.listenLoop unmarshal_wire rough_turns l' ∅ [] []
  = multicast.mkLoopState l' ∅ [] [] true.
Proof.
  destruct (stopped_listener_never_listens_again unmarshal_wire listener0
              (multicast.Listens 8)) as (Hbusy & _ & _ & Hloop).
  split; [apply Hbusy; by eexists|].
  split; [reflexivity|]. apply Hloop.
Defined.

Lemma listenLoop_runs_until_ended_witness :
  let rest := [multicast.ReadPacket 3000 true "peer" (discovery.UDPAddr "10.0.0.7" 53317)] in
  let u := handle_packets unmarshal_wire rough_turns md0 ∅ [] [] in
  let r := multicast.listenLoop unmarshal_wire (rough_turns ++ multicast.Stopped :: rest)
             listener0 ∅ [] [] in
  multicast.ls_returned (multicast.listenLoop unmarshal_wire rough_turns listener0 ∅ [] [])
  = false /\
  multicast.ls_returned r = true /\
  multicast.md (multicast.ls_listener r) = u.1.1.1 /\ multicast.ls_store r = u.1.1.2 /\
  multicast.ls_started r = u.1.2 /\ multicast.ls_sent r = u.2.
Proof.
  intros rest.
  apply (listenLoop_runs_until_ended unmarshal_wire rough_turns rest multicast.Stopped
           listener0 ∅ [] []).
  - reflexivity.
  - reflexivity.
  - reflexivity.
  - by eexists.
Defined.

(** ** Discovery over HTTP *)

Section http_probe.
Import register discovery_handlers http_discovery.
Variable client_Get : string -> HttpResult.
Variable unmarshalInfoDto : string -> option InfoDto.
Variable clock : string -> Z.
Variable schedule : list string -> list string.

Local Abbreviation fetch := (fetchDeviceInfo client_Get unmarshalInfoDto clock).
Local Abbreviation Fetch := (FetchDeviceInfo client_Get unmarshalInfoDto clock).

Lemma fetchDeviceInfo_inl (ip : string) (port : Z) (scheme : ProtocolType) (d : Device) :
  fetch ip port scheme = inl d <->
  exists body info,
    client_Get (info_url scheme ip port) = HttpResponse StatusOK (Some body) /\
    unmarshalInfoDto body = Some info /\
    d = {| IP := ip; Version := info_Version info; Protocol := scheme; Port := port;
           Alias := info_Alias info; Fingerprint := info_Fingerprint info;
           DeviceModel := info_DeviceModel info; DeviceType_ := info_DeviceType info;
           Download := info_Download info; LastSeen := clock ip; Available := true |}.
Proof.
  unfold fetchDeviceInfo. split.
  - destruct (client_Get (info_url scheme ip port)) as [|msg|status [body|]]; try done.
    + case_decide as Hs; [done|]. subst status.
      destruct (unmarshalInfoDto body) as [info|] eqn:E; [|done].
      intros [= <-]. by exists body, info.
    + by case_decide.
  - intros (body & info & -> & Hinfo & ->).
    rewrite decide_False by (intros H; by apply H). by rewrite Hinfo.
Qed.

Lemma probe_found_at (ip : string) (port : Z) :
  probe client_Get unmarshalInfoDto clock ip port
  = found_at client_Get unmarshalInfoDto clock port ip.
Proof.
  unfold probe, found_at, FetchDeviceInfo.
  destruct (fetch ip port ProtocolTypeHTTPS); [done|].
  by destruct (fetch ip port ProtocolTypeHTTP).
Qed.

Lemma FetchDeviceInfo_address (ip : string) (port : Z) (d : Device) :
  Fetch ip port = inl d -> IP d = ip /\ Port d = port /\ Protocol d ∈ [ProtocolTypeHTTPS; ProtocolTypeHTTP].
Proof.
  unfold FetchDeviceInfo. intros Hd.
  destruct (fetch ip port ProtocolTypeHTTPS) eqn:E.
  - injection Hd as ->. apply fetchDeviceInfo_inl in E as (? & ? & _ & _ & ->).
    repeat split. set_solver.
  - apply fetchDeviceInfo_inl in Hd as (? & ? & _ & _ & ->).
    repeat split. set_solver.
Qed.

(** X12. [FetchDeviceInfo] prefers HTTPS and falls back to HTTP, whose
    error is the one reported.  Every device it returns comes from a 200
    answer, on the scheme recorded as its protocol, whose body decodes to
    the device's identity; its address and port are the probed ones. *)
Theorem fetch_device_info_sound (ip : string) (port : Z) :
  (forall d, fetch ip port ProtocolTypeHTTPS = inl d -> Fetch ip port = inl d) /\
  (forall e, fetch ip port ProtocolTypeHTTPS = inr e ->
             Fetch ip port = fetch ip port ProtocolTypeHTTP) /\
  (forall d, Fetch ip port = inl d ->
     IP d = ip /\ Port d = port /\ Available d = true /\ LastSeen d = clock ip /\
     exists body,
       client_Get (info_url (Protocol d) ip port) = HttpResponse StatusOK (Some body) /\
       unmarshalInfoDto body = Some (Device_ToInfoDto d)).
Proof.
  unfold FetchDeviceInfo. split; [|split].
  - by intros d ->.
  - by intros e ->.
  - intros d Hd.
    assert (exists scheme, fetch ip port scheme = inl d) as [scheme Hs].
    { destruct (fetch ip port ProtocolTypeHTTPS) eqn:E;
        [exists ProtocolTypeHTTPS; congruence | by exists ProtocolTypeHTTP]. }
    apply fetchDeviceInfo_inl in Hs as (body & info & Hget & Hinfo & ->).
    repeat split. exists body. split; [done|]. rewrite Hinfo. by destruct info.
Qed.

(** X13. [ScanNetwork] never fails, and whatever order the probes complete
    in, its result holds, for each address given, as often as it is given,
    the device [FetchDeviceInfo] finds there, and nothing else. *)
Theorem scan_network_sound_complete (ips : list string) (port : Z) :
  (forall l, schedule l ≡ₚ l) ->
  (ScanNetwork client_Get unmarshalInfoDto clock schedule ips port).2 = None /\
  (ScanNetwork client_Get unmarshalInfoDto clock schedule ips port).1
  ≡ₚ omap (found_at client_Get unmarshalInfoDto clock port) ips /\
  (forall d, d ∈ (ScanNetwork client_Get unmarshalInfoDto clock schedule ips port).1 ->
             IP d ∈ ips /\ Port d = port).
Proof.
  intros Hsched. unfold ScanNetwork. cbn [fst snd].
  assert (omap (λ ip, probe client_Get unmarshalInfoDto clock ip port) (schedule ips)
          ≡ₚ omap (found_at client_Get unmarshalInfoDto clock port) ips) as Hperm.
  { rewrite (Hsched ips). clear Hsched.
    induction ips as [|ip ips IH]; [done|]. simpl. rewrite probe_found_at.
    destruct (found_at client_Get unmarshalInfoDto clock port ip); by rewrite IH. }
  split; [done|]. split; [done|].
  intros d Hd. rewrite Hperm in Hd.
  apply list_elem_of_omap in Hd as (ip & Hip & Hfound). unfold found_at in Hfound.
  destruct (Fetch ip port) as [d'|] eqn:E; [|done]. injection Hfound as ->.
  destruct (FetchDeviceInfo_address ip port d E) as (-> & -> & _). done.
Qed.

End http_probe.

(** ** The node as seen by its peers *)

Section http_endpoints.
Import register discovery_handlers http_discovery.
Variable client_Get : string -> HttpResult.
Variable unmarshalInfoDto : string -> option InfoDto.
Variable clock : string -> Z.
Variable schedule : list string -> list string.
Variable client_Post : string -> string -> HttpResult.
Variable marshalRegisterDto : RegisterDto -> option string.
Variable decodeRegister : string -> option RegisterDto.

(** A probe carries no fingerprint, so [InfoHandler] answers it with the
    node's identity. *)
Lemma InfoHandler_probe (cfg : Config) (r : Request) :
  Get (Query r) "fingerprint" = "" ->
  InfoHandler cfg true r = respond StatusOK (InfoJson (ToInfoDto cfg)).
Proof.
  intros Hq. unfold InfoHandler. cbn [negb]. rewrite Hq.
  by rewrite decide_False by (by intros [? _]).
Qed.

Lemma fetch_served (cfg : Config) (ip : string) (port : Z) (scheme : ProtocolType) :
  info_served_by cfg client_Get unmarshalInfoDto (info_url scheme ip port) ->
  exists d, fetchDeviceInfo client_Get unmarshalInfoDto clock ip port scheme = inl d /\
            IP d = ip /\ Port d = port /\ Protocol d = scheme /\
            Device_ToInfoDto d = ToInfoDto cfg.
Proof.
  intros (r & body & Hq & Hget & Hbody).
  rewrite (InfoHandler_probe cfg r Hq) in Hget, Hbody. cbn in Hget.
  specialize (Hbody _ eq_refl).
  eexists. split.
  - apply fetchDeviceInfo_inl. by exists body, (ToInfoDto cfg).
  - done.
Qed.

(** X14. A scan of the local network fails only when the local addresses
    cannot be listed.  Otherwise it always probes the loopback address,
    and since a probe names no fingerprint the self-discovery check of
    [InfoHandler] does not apply: when the node's own server answers
    HTTPS there, the scan lists the node itself. *)
Theorem local_scan_finds_self (cfg : Config) (localIPs : list string) (port : Z) :
  (forall l, schedule l ≡ₚ l) ->
  info_served_by cfg client_Get unmarshalInfoDto
    (info_url ProtocolTypeHTTPS "127.0.0.1" port) ->
  (forall e, ScanLocalNetwork client_Get unmarshalInfoDto clock schedule (inr e) port
             = ([], Some "could not get local ip addresses to scan")) /\
  (ScanLocalNetwork client_Get unmarshalInfoDto clock schedule (inl localIPs) port).2
  = None /\
  exists d,
    d ∈ (ScanLocalNetwork client_Get unmarshalInfoDto clock schedule (inl localIPs) port).1 /\
    IP d = "127.0.0.1" /\ Protocol d = ProtocolTypeHTTPS /\
    Fingerprint d = cfg_CertificateHash cfg /\
    Device_ToInfoDto d = ToInfoDto cfg.
Proof.
  intros Hsched Hself. split; [done|]. split; [done|].
  destruct (fetch_served cfg "127.0.0.1" port ProtocolTypeHTTPS Hself)
    as (d & Hd & Hip & Hport & Hproto & Hinfo).
  exists d. split; [|repeat split; try done].
  - unfold ScanLocalNetwork, ScanNetwork. cbn [fst].
    apply list_elem_of_omap. exists "127.0.0.1". split.
    + rewrite Hsched. apply elem_of_app. right. by apply list_elem_of_singleton.
    + unfold probe. by rewrite Hd.
  - exact (f_equal info_Fingerprint Hinfo).
Qed.

Lemma RegisterHandler_decoded (cfg : Config) (r : Request) (dto : RegisterDto) :
  Method r = MethodPost ->
  decodeRegister (Body r) = Some dto ->
  RegisterHandler decodeRegister cfg true r
  = if decide (reg_Fingerprint dto = cfg_CertificateHash cfg)
    then respond StatusPreconditionFailed (InfoError "Self-discovered")
    else respond StatusOK (InfoJson (ToInfoDto cfg)).
Proof.
  intros HPost Hdec. unfold RegisterHandler. cbn [negb].
  rewrite decide_False by (intros H; by apply H). by rewrite Hdec.
Qed.

(** X15. [RegisterWithDevice] always posts over plain HTTP.  Against a
    node's [RegisterHandler], a register message carrying that node's own
    fingerprint is refused, which the caller reports as the unexpected
    status 412; any other is answered with the node's identity, from which
    the caller builds a device at the address and port it called. *)
Theorem register_with_device_outcomes (cfg : Config) (dto : RegisterDto)
    (ip : string) (port : Z) (jsonData : string) :
  marshalRegisterDto dto = Some jsonData ->
  decodeRegister jsonData = Some dto ->
  register_served_by cfg decodeRegister client_Post unmarshalInfoDto
    (register_url ProtocolTypeHTTP ip port) jsonData ->
  (reg_Fingerprint dto = cfg_CertificateHash cfg ->
   RegisterWithDevice unmarshalInfoDto clock client_Post marshalRegisterDto dto ip port
   = inr "unexpected status code: 412") /\
  (reg_Fingerprint dto ≠ cfg_CertificateHash cfg ->
   exists d,
     RegisterWithDevice unmarshalInfoDto clock client_Post marshalRegisterDto dto ip port
     = inl d /\
     IP d = ip /\ Port d = port /\ Protocol d = ProtocolTypeHTTP /\
     LastSeen d = clock ip /\ Device_ToInfoDto d = ToInfoDto cfg).
Proof.
  intros Hmarshal Hdecode (r & body & HPost & Hbody & Hresp & Hjson).
  rewrite <- Hbody in Hdecode.
  rewrite (RegisterHandler_decoded cfg r dto HPost Hdecode) in Hresp, Hjson.
  unfold RegisterWithDevice. rewrite Hmarshal, Hresp.
  destruct (decide (reg_Fingerprint dto = cfg_CertificateHash cfg)) as [Hself|Hpeer];
    cbn [ir_StatusCode respond].
  - split; [|done]. intros _. by rewrite decide_True by done.
  - split; [done|]. intros _.
    rewrite decide_False by (intros H; by apply H).
    rewrite (Hjson _ eq_refl). eexists. split; [done|]. done.
Qed.

(** X16. However the node tells who it is, it tells the same: the body of
    a 200 answer of [InfoHandler] and of [RegisterHandler], the device a
    peer builds from the node's register message, and the device a peer
    builds from the multicast message [Discover] and [Start] send, all
    carry the identity [Config.ToInfoDto] gives; the port in both devices
    is the configured one when that is positive. *)
Theorem identity_consistent (cfg : Config) (hasSecurityContext : bool) (r : Request)
    (ip : string) (detectedPort now : Z) (detectedHttps : bool)
    (s : discovery.Service) (md : discovery.MulticastDiscovery) (h : discovery.Store)
    (net_ok : bool) (start : Z) (evs : list discovery.Event) :
  (0 < cfg_Port cfg)%Z ->
  (ir_StatusCode (InfoHandler cfg hasSecurityContext r) = StatusOK ->
   ir_Written (InfoHandler cfg hasSecurityContext r) = InfoJson (ToInfoDto cfg)) /\
  (ir_StatusCode (RegisterHandler decodeRegister cfg hasSecurityContext r) = StatusOK ->
   ir_Written (RegisterHandler decodeRegister cfg hasSecurityContext r)
   = InfoJson (ToInfoDto cfg)) /\
  (let d := NewDevice (ToRegisterDto cfg) ip detectedPort detectedHttps now in
   Device_ToInfoDto d = ToInfoDto cfg /\ Port d = cfg_Port cfg) /\
  (let announced :=
     discovery.dto (discovery.Discover s md h net_ok start evs (cfg_Alias cfg)
                      (cfg_Port cfg)
                      (cfg_CertificateHash cfg) (cfg_DeviceType cfg)
                      (cfg_DeviceModel cfg)).1.1 in
   let d := FromMulticastDto announced ip now in
   announced = announcement_of cfg /\
   Device_ToInfoDto d = ToInfoDto cfg /\ Port d = cfg_Port cfg).
Proof.
  intros Hport. split; [|split; [|split]].
  - unfold InfoHandler. destruct hasSecurityContext; [|done]. cbn [negb].
    by case_decide.
  - unfold RegisterHandler. destruct hasSecurityContext; [|done]. cbn [negb].
    case_decide; [done|]. destruct (decodeRegister (Body r)); [|done].
    by case_decide.
  - cbn zeta. split; [done|]. unfold NewDevice, ToRegisterDto. cbn.
    destruct (cfg_Port cfg <=? 0)%Z eqn:E; [|done]. apply Z.leb_le in E. lia.
  - unfold discovery.Discover. cbn zeta.
    destruct (discovery.SendDiscoveryAnnouncement _ net_ok). done.
Qed.

End http_endpoints.

Lemma fetch_device_info_sound_witness :
  http_discovery.FetchDeviceInfo net_get wire_info clock0 "10.0.0.2" 53317
  = http_discovery.fetchDeviceInfo net_get wire_info clock0 "10.0.0.2" 53317
      ProtocolTypeHTTP /\
  IP peer_probed = "10.0.0.2" /\ Port peer_probed = 53317%Z /\
  Available peer_probed = true /\ LastSeen peer_probed = clock0 "10.0.0.2" /\
  exists body,
    net_get (http_discovery.info_url (Protocol peer_probed) "10.0.0.2" 53317)
    = http_discovery.HttpResponse StatusOK (Some body) /\
    wire_info body = Some (register.Device_ToInfoDto peer_probed).
Proof.
  destruct (fetch_device_info_sound net_get wire_info clock0 "10.0.0.2" 53317)
    as (_ & Hfallback & Hsound).
  split.
  - apply (Hfallback "failed to send request"). vm_compute. reflexivity.
  - apply (Hsound peer_probed). vm_compute. reflexivity.
Defined.

Lemma scan_network_sound_complete_witness :
  let ips := ["10.0.0.3"; "10.0.0.2"; "127.0.0.1"] in
  (http_discovery.ScanNetwork net_get wire_info clock0 reverse ips 53317).2 = None /\
  (http_discovery.ScanNetwork net_get wire_info clock0 reverse ips 53317).1
  ≡ₚ omap (found_at net_get wire_info clock0 53317) ips /\
  (forall d, d ∈ (http_discovery.ScanNetwork net_get wire_info clock0 reverse ips 53317).1 ->
             IP d ∈ ips /\ Port d = 53317%Z).
Proof.
  intros ips.
  apply (scan_network_sound_complete net_get wire_info clock0 reverse ips 53317).
  intros l. apply reverse_Permutation.
Defined.

Lemma receiver_serves_info :
  info_served_by cfg0 net_get wire_info
    (http_discovery.info_url ProtocolTypeHTTPS "127.0.0.1" 53317).
Proof.
  exists get_req, "receiver-info". split; [reflexivity|]. split.
  - vm_compute. reflexivity.
  - intros dto Hdto. vm_compute in Hdto. injection Hdto as <-. reflexivity.
Qed.

Lemma local_scan_finds_self_witness :
  exists d,
    d ∈ (http_discovery.ScanLocalNetwork net_get wire_info clock0 reverse
           (inl ["10.0.0.1"; "10.0.0.2"]) 53317).1 /\
    IP d = "127.0.0.1" /\ Protocol d = ProtocolTypeHTTPS /\
    Fingerprint d = "local-fp" /\
    register.Device_ToInfoDto d = ToInfoDto cfg0.
Proof.
  destruct (local_scan_finds_self net_get wire_info clock0 reverse cfg0
              ["10.0.0.1"; "10.0.0.2"] 53317) as (_ & _ & Hself).
  - intros l. apply reverse_Permutation.
  - exact receiver_serves_info.
  - exact Hself.
Defined.

Lemma receiver_serves_register (body : string) :
  register_served_by cfg0 wire_register net_post wire_info
    (http_discovery.register_url ProtocolTypeHTTP "127.0.0.1" 53317) body.
Proof.
  exists (post_req body),
    match discovery_handlers.ir_Written
            (discovery_handlers.RegisterHandler wire_register cfg0 true (post_req body))
    with
    | discovery_handlers.InfoJson _ => "receiver-info"
    | discovery_handlers.InfoError _ => "error"
    end.
  split; [reflexivity|]. split; [reflexivity|]. split.
  - unfold net_post. rewrite decide_True by (vm_compute; reflexivity). reflexivity.
  - intros dto Hdto. rewrite Hdto.
    unfold discovery_handlers.RegisterHandler in Hdto. cbn [negb] in Hdto.
    rewrite decide_False in Hdto by (intros H; by apply H).
    destruct (wire_register (Body (post_req body))); [|done].
    case_decide; [done|]. injection Hdto as <-. reflexivity.
Qed.

Lemma register_with_device_outcomes_witness :
  http_discovery.RegisterWithDevice wire_info clock0 net_post marshal_register
    (register.ToRegisterDto cfg0) "127.0.0.1" 53317
  = inr "unexpected status code: 412" /\
  exists d,
    http_discovery.RegisterWithDevice wire_info clock0 net_post marshal_register
      peer_register "127.0.0.1" 53317 = inl d /\
    IP d = "127.0.0.1" /\ Port d = 53317%Z /\ Protocol d = ProtocolTypeHTTP /\
    LastSeen d = clock0 "127.0.0.1" /\ register.Device_ToInfoDto d = ToInfoDto cfg0.
Proof.
  split.
  - apply (register_with_device_outcomes wire_info clock0 net_post marshal_register
             wire_register cfg0 (register.ToRegisterDto cfg0) "127.0.0.1" 53317
             "receiver-register" eq_refl eq_refl
             (receiver_serves_register "receiver-register")).
    reflexivity.
  - apply (register_with_device_outcomes wire_info clock0 net_post marshal_register
             wire_register cfg0 peer_register "127.0.0.1" 53317
             "peer-register" eq_refl eq_refl
             (receiver_serves_register "peer-register")).
    vm_compute. discriminate.
Defined.

Lemma identity_consistent_witness :
  discovery_handlers.ir_Written (discovery_handlers.InfoHandler cfg0 true get_req)
  = discovery_handlers.InfoJson (ToInfoDto cfg0) /\
  register.Device_ToInfoDto
    (FromMulticastDto (announcement_of cfg0) "10.0.0.1" 1000) = ToInfoDto cfg0.
Proof.
  destruct (identity_consistent wire_register cfg0 true get_req "10.0.0.1" 53317 1000
              true service0 md0 ∅ true 0 [] ltac:(reflexivity))
    as (Hinfo & _ & _ & Hdto & Hdev & _).
  split; [apply Hinfo; reflexivity|].
  rewrite <- Hdto. exact Hdev.
Defined.

(** ** Starting the discovery service *)

Section service_lifecycle.
Import discovery multicast lifecycle.
Variable unmarshalMulticastDto : string -> option MulticastDto.

(** X17. [Start] is not idempotent.  On a listener without a socket it
    succeeds; a second [Start] fails, starts no loop and sends nothing,
    yet it has replaced the announced identity and registered the
    service's handler once more. *)
Theorem start_twice_fails_but_registers (s : Service) (l : Listener) (c : nat)
    (net : ListenOutcome) (net_ok1 net_ok2 : bool)
    (alias1 alias2 : string) (port1 port2 : Z) (fingerprint1 fingerprint2 : string)
    (deviceType1 deviceType2 : DeviceType) (deviceModel1 deviceModel2 : option string) :
  conn l = None ->
  let r1 := Start s l (Listens c) net_ok1 alias1 port1 fingerprint1 deviceType1
              deviceModel1 in
  let r2 := Start s (sr_listener r1) net net_ok2 alias2 port2 fingerprint2 deviceType2
              deviceModel2 in
  sr_err r1 = None /\ sr_listening r1 = true /\
  sr_err r2 = Some "failed to start multicast discovery" /\
  sr_listening r2 = false /\ sr_announcing r2 = false /\ sr_sent r2 = [] /\
  conn (sr_listener r2) = Some c /\
  md_handlers (md (sr_listener r2))
  = (md_handlers (md l) ++ [ServiceUpdate; ServiceUpdate])%list /\
  dto_Fingerprint (dto (md (sr_listener r2))) = fingerprint2 /\
  dto_Alias (dto (md (sr_listener r2))) = alias2.
Proof.
  intros Hconn r1 r2.
  assert (exists m1, sr_listener r1 = {| md := m1; conn := Some c; closed := closed l |} /\
                     md_handlers m1 = (md_handlers (md l) ++ [ServiceUpdate])%list /\
                     sr_err r1 = None /\ sr_listening r1 = true)
    as (m1 & Hl1 & Hh1 & He1 & Hs1).
  { subst r1. unfold Start, StartListening. cbn [conn]. rewrite Hconn.
    unfold SendDiscoveryAnnouncement. destruct net_ok1; eexists; done. }
  split; [done|]. split; [done|].
  subst r2. unfold Start. rewrite Hl1. unfold StartListening. cbn.
  rewrite Hh1, <- (assoc_L (++)). done.
Qed.

(** X18. The listening path, end to end.  A freshly created multicast
    instance is started for a service that does not know the peer; the
    listen loop reads the peer's first packet.  Then the peer's record is
    allocated and registered, exactly one handler is started on it, and
    running that handler enters the same record into the service
    registry, where [GetDevice] finds it at once; the peer is answered if
    and only if its message was an announcement and the network allows. *)
Theorem started_service_learns_peer (s : Service) (mconfig : option MulticastConfig)
    (dto0 : MulticastDto) (c : nat) (net_ok net_ok' : bool)
    (alias : string) (port : Z) (fingerprint : string)
    (deviceType : DeviceType) (deviceModel : option string)
    (h : Store) (now : Z) (data : string) (msg : MulticastDto) (ip : string) (pport : Z) :
  unmarshalMulticastDto data = Some msg ->
  dto_Fingerprint msg ≠ fingerprint ->
  devices s !! dto_Fingerprint msg = None ->
  (0 <= DeviceTimeout (config s))%Z ->
  let r := Start s (NewMulticastDiscovery mconfig dto0) (Listens c) net_ok alias port
             fingerprint deviceType deviceModel in
  let ls := listenLoop unmarshalMulticastDto [ReadPacket now net_ok' data (UDPAddr ip pport)]
              (sr_listener r) h [] [] in
  sr_err r = None /\ sr_listening r = true /\
  exists p,
    h !! p = None /\
    ls_store ls = <[p := FromMulticastDto msg ip now]> h /\
    ls_started ls = [(ServiceUpdate, p)] /\
    md_GetDevices (md (ls_listener ls)) = [p] /\
    (ls_sent ls = if dto_Announce msg && net_ok'
                  then [ToPeer ip pport (with_Announce (dto (md (sr_listener r))) false)]
                  else []) /\
    exists s',
      run_handler s (ls_store ls) now (ServiceUpdate, p)
      = Some (s', ls_store ls, (λ handler, (handler, p)) <$> handlers s) /\
      GetDevice s' (ls_store ls) now (dto_Fingerprint msg) = Some p.
Proof.
  intros Hdec Hpeer Hnew Hto r ls.
  assert (exists m, sr_listener r = {| md := m; conn := Some c; closed := false |} /\
                    md_devices m = ∅ /\ md_handlers m = [ServiceUpdate] /\
                    dto_Fingerprint (dto m) = fingerprint /\
                    sr_err r = None /\ sr_listening r = true)
    as (m & Hl & Hdevs & Hhs & Hfp & Herr & Hlist).
  { subst r. unfold Start, NewMulticastDiscovery, StartListening. cbn [conn md closed].
    unfold SendDiscoveryAnnouncement. destruct net_ok; eexists; done. }
  split; [done|]. split; [done|].
  subst ls. rewrite Hl. cbn [listenLoop closed conn md orb].
  rewrite bool_decide_eq_false_2 by done.
  rewrite (handlePacket_peer unmarshalMulticastDto m h now net_ok' data msg ip pport Hdec)
    by (by rewrite Hfp).
  set (d := FromMulticastDto msg ip now).
  destruct (alloc_spec h d) as (Hrec & Hfresh & Hrest).
  change (Fingerprint d) with (dto_Fingerprint msg).
  rewrite Hdevs, lookup_empty, Hhs.
  cbn [fst snd pr_md pr_store pr_started pr_sent ls_store ls_started ls_sent
         ls_listener md md_devices app fmap list_fmap].
  exists (alloc h d).2. split; [done|]. split; [done|]. split; [done|].
  split; [unfold md_GetDevices; cbn [md_devices];
          by rewrite insert_empty, map_to_list_singleton|].
  split; [done|].
  unfold run_handler, updateDevice. cbn [fst snd]. rewrite Hrec.
  change (Fingerprint d) with (dto_Fingerprint msg). rewrite Hnew.
  eexists. split; [done|].
  unfold GetDevice, fresh_at. cbn [devices config].
  rewrite lookup_insert_eq, Hrec. unfold IsStale. cbn [LastSeen d FromMulticastDto].
  replace (now - now)%Z with 0%Z by lia.
  destruct (DeviceTimeout (config s) <? 0)%Z eqn:E; [|done].
  apply Z.ltb_lt in E. lia.
Qed.

End service_lifecycle.

Lemma start_twice_fails_but_registers_witness :
  let l := multicast.NewMulticastDiscovery None self_dto in
  let r1 := lifecycle.Start service0 l (multicast.Listens 7) true "receiver" 53317
              "local-fp" DeviceTypeDesktop None in
  let r2 := lifecycle.Start service0 (lifecycle.sr_listener r1) (multicast.Listens 8) true
              "renamed" 53318 "other-fp" DeviceTypeDesktop None in
  lifecycle.sr_err r2 = Some "failed to start multicast discovery" /\
  discovery.md_handlers (multicast.md (lifecycle.sr_listener r2))
  = [discovery.ServiceUpdate; discovery.ServiceUpdate] /\
  dto_Fingerprint (discovery.dto (multicast.md (lifecycle.sr_listener r2))) = "other-fp".
Proof.
  intros l r1 r2.
  destruct (start_twice_fails_but_registers service0 l 7 (multicast.Listens 8) true true
              "receiver" "renamed" 53317 53318 "local-fp" "other-fp"
              DeviceTypeDesktop DeviceTypeDesktop None None eq_refl)
    as (_ & _ & Herr & _ & _ & _ & _ & Hhs & Hfp & _).
  split; [exact Herr|]. split; [exact Hhs|exact Hfp].
Defined.

Lemma started_service_learns_peer_witness :
  let r := lifecycle.Start service0 (multicast.NewMulticastDiscovery None self_dto)
             (multicast.Listens 7) true "receiver" 53317 "local-fp" DeviceTypeDesktop
             (Some "GoDevice") in
  let ls := multicast.listenLoop unmarshal_wire
              [multicast.ReadPacket 1000 true "peer" (discovery.UDPAddr "10.0.0.2" 53317)]
              (lifecycle.sr_listener r) ∅ [] [] in
  exists p,
    multicast.ls_started ls = [(discovery.ServiceUpdate, p)] /\
    multicast.md_GetDevices (multicast.md (multicast.ls_listener ls)) = [p] /\
    exists s',
      discovery.run_handler service0 (multicast.ls_store ls) 1000 (discovery.ServiceUpdate, p)
      = Some (s', multicast.ls_store ls,
              (λ handler, (handler, p)) <$> discovery.handlers service0) /\
      discovery.GetDevice s' (multicast.ls_store ls) 1000 "peer-fp" = Some p.
Proof.
  intros r ls.
  destruct (started_service_learns_peer unmarshal_wire service0 None self_dto 7 true true
              "receiver" 53317 "local-fp" DeviceTypeDesktop (Some "GoDevice")
              ∅ 1000 "peer" peer_dto "10.0.0.2" 53317)
    as (_ & _ & p & _ & _ & Hstarted & Hdevs & _ & s' & Hrun & Hget).
  - reflexivity.
  - vm_compute. discriminate.
  - reflexivity.
  - vm_compute. discriminate.
  - exists p. split; [exact Hstarted|]. split; [exact Hdevs|].
    exists s'. split; [exact Hrun|exact Hget].
Defined.

(** ** The scan of [Discover] *)

Section discover_scan.
Import discovery.

Lemma updateDevice_registry (s s' : Service) (h h' : Store) (now : Z) (p : nat)
    (started : list (Handler * nat)) :
  registry_wf (devices s) h ->
  updateDevice s h now p = Some (s', h', started) ->
  registry_wf (devices s') h' /\
  forall id q, devices s !! id = Some q -> devices s' !! id = Some q.
Proof.
  intros Hwf. unfold updateDevice.
  destruct (h !! p) as [d|] eqn:Hp; [|done].
  destruct (devices s !! Fingerprint d) as [e|] eqn:He; intros [= <- <- <-].
  - split; [by apply registry_wf_alter|done].
  - split.
    + by apply registry_wf_insert.
    + intros id q Hq. cbn [devices]. rewrite lookup_insert_ne; [done|congruence].
Qed.

Lemma GetDevices_NoDup (s : Service) (h : Store) (now : Z) :
  registry_wf (devices s) h -> NoDup (GetDevices s h now).
Proof. intros Hwf. apply NoDup_filter. by eapply registry_wf_NoDup. Qed.

(** X19. [Discover] never returns an error, and the scan keeps the
    service registry consistent with the device records: the list it
    returns holds no record twice, and each record in it is still
    registered, under its own fingerprint, when the scan returns. *)
Theorem discover_result_consistent (s : Service) (md : MulticastDiscovery) (h : Store)
    (net_ok : bool) (start : Z) (evs : list Event) (alias : string) (port : Z)
    (fingerprint : string)
    (deviceType : DeviceType) (deviceModel : option string) (r : DiscoverResult) :
  registry_wf (devices s) h ->
  (Discover s md h net_ok start evs alias port fingerprint deviceType deviceModel).2
  = Some r ->
  err r = None /\
  registry_wf (devices (dr_service r)) (dr_store r) /\
  NoDup (found r) /\
  forall p, p ∈ found r ->
    exists d, dr_store r !! p = Some d /\
              devices (dr_service r) !! Fingerprint d = Some p.
Proof.
  intros Hwf Hr.
  assert (Discover_loop evs start start s h [] = Some r) as Hloop.
  { unfold Discover in Hr. by destruct (SendDiscoveryAnnouncement _ net_ok). }
  clear Hr.
  assert (forall last taken s h,
            registry_wf (devices s) h -> NoDup last ->
            (forall p, p ∈ last -> exists id, devices s !! id = Some p) ->
            Discover_loop evs start taken s h last = Some r ->
            err r = None /\ registry_wf (devices (dr_service r)) (dr_store r) /\
            NoDup (found r) /\
            forall p, p ∈ found r -> exists id, devices (dr_service r) !! id = Some p)
    as Hinv.
  { clear. induction evs as [|e evs IH]; intros last taken s h Hwf Hnd Hreg Hloop; [done|].
    destruct e as [t|t|t d]; cbn [Discover_loop] in Hloop.
    - by injection Hloop as <-.
    - case_decide; [|done].
      apply (IH _ t s h Hwf (GetDevices_NoDup s h t Hwf)); [|done].
      intros p Hp. by apply elem_of_GetDevices in Hp as [_ ?].
    - destruct (alloc h d) as [h1 p] eqn:Ea.
      destruct (updateDevice s h1 t p) as [[[s' h2] started]|] eqn:Eu; [|done].
      assert (registry_wf (devices s) h1) as Hwf1.
      { replace h1 with (alloc h d).1 by (by rewrite Ea). by apply registry_wf_alloc. }
      destruct (updateDevice_registry s s' h1 h2 t p started Hwf1 Eu) as [Hwf2 Hmono].
      apply (IH last taken s' h2 Hwf2 Hnd); [|done].
      intros q Hq. destruct (Hreg q Hq) as [id Hid]. exists id. by apply Hmono. }
  assert (forall p : nat, p ∈ [] -> exists id, devices s !! id = Some p) as Hnil
    by (by intros p Hp%elem_of_nil).
  destruct (Hinv [] start s h Hwf (NoDup_nil_2) Hnil Hloop) as (Herr & Hwf' & Hnd & Hreg).
  split; [done|]. split; [done|]. split; [done|].
  intros p Hp. destruct (Hreg p Hp) as [id Hid].
  destruct (Hwf' id p Hid) as (d & Hd & <-). by exists d.
Qed.

End discover_scan.

Lemma discover_result_consistent_witness :
  let evs := [discovery.Sighting 100 (FromMulticastDto peer_dto "10.0.0.2" 100);
              discovery.Tick discovery.poll_interval;
              discovery.Sighting 300000000 (FromMulticastDto peer_dto "10.0.0.7" 300000000);
              discovery.Tick (2 * discovery.poll_interval);
              discovery.CtxDone (3 * discovery.poll_interval)] in
  exists r,
    (discovery.Discover service0 md0 ∅ true 0 evs "receiver" 53317 "local-fp"
       DeviceTypeDesktop None).2 = Some r /\
    discovery.err r = None /\
    NoDup (discovery.found r) /\
    forall p, p ∈ discovery.found r ->
      exists d, discovery.dr_store r !! p = Some d /\
                discovery.devices (discovery.dr_service r) !! Fingerprint d = Some p.
Proof.
  intros evs.
  destruct (discovery.Discover service0 md0 ∅ true 0 evs "receiver" 53317 "local-fp"
              DeviceTypeDesktop None).2 as [r|] eqn:E; [|vm_compute in E; discriminate].
  exists r. split; [reflexivity|].
  destruct (discover_result_consistent service0 md0 ∅ true 0 evs "receiver" 53317 "local-fp"
              DeviceTypeDesktop None r (registry_wf_empty ∅) E) as (He & _ & Hnd & Hreg).
  split; [exact He|]. split; [exact Hnd|exact Hreg].
Defined.

(** ** What an upload does to the disk *)

Section upload_disk.
Variable SplitHostPort : string -> string.
Variable os : storage.OS.

Local Abbreviation Upload := (UploadHandlerV2 SplitHostPort os).

Lemma SaveStreamToFile_frame (fs : storage.FS) (stream path q : string) :
  q ≠ path -> (storage.SaveStreamToFile os fs stream path).1 !! q = fs !! q.
Proof.
  intros Hq. unfold storage.SaveStreamToFile.
  destruct (storage.EnsureDirExists os _); [done|].
  destruct (storage.Create_fails os path); [done|].
  destruct (storage.Copy_fails os path); [|by apply lookup_insert_ne].
  destruct (storage.Remove_fails os path); cbn [fst].
  - by apply lookup_insert_ne.
  - by apply lookup_delete_ne.
Qed.

Lemma SaveStreamToFile_cases (fs : storage.FS) (stream path : string) :
  let res := storage.SaveStreamToFile os fs stream path in
  (res.2 = None /\ res.1 = <[path := stream]> fs) \/
  (res.2 ≠ None /\
   (res.1 = fs \/ res.1 = delete path fs \/ exists written, res.1 = <[path := written]> fs)).
Proof.
  unfold storage.SaveStreamToFile.
  destruct (storage.EnsureDirExists os _); [right; split; [done|by left]|].
  destruct (storage.Create_fails os path); [right; split; [done|by left]|].
  destruct (storage.Copy_fails os path) as [written|]; [|by left].
  right. split; [done|]. right.
  destruct (storage.Remove_fails os path); [right; by exists written|by left].
Qed.

(** X20. An upload writes nothing but the destination of the pending file
    it names.  Answered 200, it has stored there exactly the request body;
    answered 500, it has left the disk as it was, or removed what was
    stored at the destination, or left a partial file there; with any
    other answer the disk is untouched. *)
Theorem upload_disk_effect (cfg : Config) (st : ReceiveState) (r : Request) :
  let st' := (Upload cfg st r).1 in
  let code := StatusCode (Upload cfg st r).2 in
  (code ≠ StatusOK -> code ≠ StatusInternalServerError -> disk st' = disk st) /\
  (code = StatusOK \/ code = StatusInternalServerError ->
   exists session f,
     currentSession (receiveService st) = Some session /\
     sess_Files session !! Get (Query r) "fileId" = Some f /\
     (forall q, q ≠ destination os cfg f -> disk st' !! q = disk st !! q) /\
     (code = StatusOK -> disk st' = <[destination os cfg f := Body r]> (disk st)) /\
     (code = StatusInternalServerError ->
      disk st' = disk st \/ disk st' = delete (destination os cfg f) (disk st) \/
      exists written, disk st' = <[destination os cfg f := written]> (disk st))).
Proof.
  unfold UploadHandlerV2, destination.
  case_decide as Hm; [by split; [|intros [?|?]]|].
  case_decide as Hp; [by split; [|intros [?|?]]|].
  destruct (GetSessionByID _ _) as [session|] eqn:Hs; [|by split; [|intros [?|?]]].
  apply GetSessionByID_Some in Hs as [Hcur _].
  case_decide as Hip; [by split; [|intros [?|?]]|].
  destruct (sess_Files session !! _) as [f|] eqn:Hf; [|by split; [|intros [?|?]]].
  case_decide as Ht; [by split; [|intros [?|?]]|].
  pose proof (SaveStreamToFile_frame (disk st) (Body r)
                (filepath.Join_on (storage.goos os)
                   [DownloadDir cfg; FileName (Dto f)])) as Hframe.
  pose proof (SaveStreamToFile_cases (disk st) (Body r)
                (filepath.Join_on (storage.goos os)
                   [DownloadDir cfg; FileName (Dto f)])) as Hcases.
  cbn zeta in Hcases.
  destruct (storage.SaveStreamToFile os (disk st) (Body r) _) as [disk' [e|]];
    cbn [fst snd StatusCode RespondError RespondJSON disk] in *.
  - split; [done|]. intros _. exists session, f. repeat split; try done.
    destruct Hcases as [[? _]|[_ ?]]; done.
  - split; [done|]. intros _. exists session, f. repeat split; try done.
    destruct Hcases as [[_ ?]|[? _]]; done.
Qed.

(** X21. Two pending files that carry the same file name have the same
    destination: uploaded one after the other, both are answered 200 and
    the second replaces the first, whose content is gone. *)
Theorem same_name_uploads_overwrite (cfg : Config) (st : ReceiveState)
    (session : ActiveReceiveSession) (f1 f2 : ActiveFile) (r1 r2 : Request) :
  sink_never_fails os ->
  currentSession (receiveService st) = Some session ->
  proper_upload SplitHostPort session r1 ->
  proper_upload SplitHostPort session r2 ->
  has_upload_params r1 -> has_upload_params r2 ->
  Get (Query r1) "fileId" ≠ Get (Query r2) "fileId" ->
  sess_Files session !! Get (Query r1) "fileId" = Some f1 ->
  sess_Files session !! Get (Query r2) "fileId" = Some f2 ->
  FileName (Dto f1) = FileName (Dto f2) ->
  let st1 := (Upload cfg st r1).1 in
  let st2 := (Upload cfg st1 r2).1 in
  StatusCode (Upload cfg st r1).2 = StatusOK /\
  StatusCode (Upload cfg st1 r2).2 = StatusOK /\
  destination os cfg f1 = destination os cfg f2 /\
  disk st1 !! destination os cfg f1 = Some (Body r1) /\
  disk st2 = <[destination os cfg f2 := Body r2]> (disk st).
Proof.
  intros Hsink Hcur (HPost1 & Hsid1 & Hip1 & g1 & Hg1 & Htok1)
    (HPost2 & Hsid2 & Hip2 & g2 & Hg2 & Htok2) Hp1 Hp2 Hne Hf1 Hf2 Hname st1 st2.
  rewrite Hf1 in Hg1. injection Hg1 as <-. rewrite Hf2 in Hg2. injection Hg2 as <-.
  assert (forall fs body path,
            storage.SaveStreamToFile os fs body path = (<[path := body]> fs, None))
    as Hsave.
  { intros fs body path. specialize (Hsink fs body path).
    destruct (SaveStreamToFile_cases fs body path) as [[_ E]|[E _]]; [|done].
    destruct (storage.SaveStreamToFile os fs body path). simpl in *. by subst. }
  assert (destination os cfg f1 = destination os cfg f2) as Hdest
    by (unfold destination; by rewrite Hname).
  assert (GetSessionByID (receiveService st) (Get (Query r1) "sessionId") = Some session)
    as Hget1 by (by apply GetSessionByID_Some).
  pose proof (upload_accepted SplitHostPort os cfg st r1 session f1 HPost1 Hp1 Hget1
                Hip1 Hf1 (eq_sym Htok1) (Hsink _ _ _)) as E1.
  rewrite Hsave in E1. cbn [fst] in E1.
  rewrite Hsid1, (RemoveFileFromSession_active _ session _ Hcur) in E1.
  rewrite decide_False in E1.
  2:{ intros He. assert (delete (Get (Query r1) "fileId") (sess_Files session)
                          !! Get (Query r2) "fileId" = Some f2) as Hk
        by (by rewrite lookup_delete_ne). by rewrite He in Hk. }
  subst st2 st1. rewrite E1. cbn [fst snd StatusCode RespondJSON].
  set (session' := {| SessionID := SessionID session; Sender := Sender session;
                      sess_Files := delete (Get (Query r1) "fileId") (sess_Files session) |}).
  set (st1 := {| receiveService := {| currentSession := Some session' |};
                 drawn := drawn st;
                 disk := <[destination os cfg f1 := Body r1]> (disk st) |}).
  assert (GetSessionByID (receiveService st1) (Get (Query r2) "sessionId") = Some session')
    as Hget2 by (by apply GetSessionByID_Some).
  assert (sess_Files session' !! Get (Query r2) "fileId" = Some f2) as Hf2'
    by (cbn; by rewrite lookup_delete_ne).
  pose proof (upload_accepted SplitHostPort os cfg st1 r2 session' f2 HPost2 Hp2 Hget2
                Hip2 Hf2' (eq_sym Htok2) (Hsink _ _ _)) as E2.
  rewrite Hsave in E2. rewrite E2. cbn [fst snd StatusCode RespondJSON disk st1].
  split; [done|]. split; [done|]. split; [done|].
  split; [apply lookup_insert_eq|].
  rewrite Hdest. apply insert_insert_eq.
Qed.

End upload_disk.

Lemma upload_disk_effect_witness :
  let r := upload_req "s1" "f1" "t1" "10.0.0.2:40000" in
  disk (UploadHandlerV2 host_of os_ok cfg0 busy_on_used_disk r).1
  = {[ "downloads/a.txt" := "Hello, file!" ]} /\
  StatusCode (UploadHandlerV2 host_of os_disk_full cfg0 busy_on_used_disk r).2
  = StatusInternalServerError /\
  disk (UploadHandlerV2 host_of os_disk_full cfg0 busy_on_used_disk r).1 = ∅ /\
  disk (UploadHandlerV2 host_of os_ok cfg0 busy_on_used_disk
          (upload_req "s1" "f1" "wrong" "10.0.0.2:40000")).1
  = disk busy_on_used_disk.
Proof.
  intros r.
  destruct (upload_disk_effect host_of os_ok cfg0 busy_on_used_disk r) as [_ Hok].
  destruct (Hok (or_introl eq_refl)) as (session & f & Hcur & Hf & _ & Hstored & _).
  injection Hcur as <-. vm_compute in Hf. injection Hf as <-.
  split; [rewrite (Hstored eq_refl); vm_compute; reflexivity|].
  split; [reflexivity|]. split; [vm_compute; reflexivity|].
  apply (upload_disk_effect host_of os_ok cfg0 busy_on_used_disk
           (upload_req "s1" "f1" "wrong" "10.0.0.2:40000")); vm_compute; discriminate.
Defined.

Lemma same_name_uploads_overwrite_witness :
  let r1 := upload_req "s4" "f1" "t1" "10.0.0.2:40000" in
  let st1 := (UploadHandlerV2 host_of os_ok cfg0 busy_twins r1).1 in
  let st2 := (UploadHandlerV2 host_of os_ok cfg0 st1 second_upload).1 in
  StatusCode (UploadHandlerV2 host_of os_ok cfg0 busy_twins r1).2 = StatusOK /\
  StatusCode (UploadHandlerV2 host_of os_ok cfg0 st1 second_upload).2 = StatusOK /\
  disk st1 !! "downloads/a.txt" = Some "Hello, file!" /\
  disk st2 = {[ "downloads/a.txt" := "Second body" ]}.
Proof.
  intros r1.
  destruct (same_name_uploads_overwrite host_of os_ok cfg0 busy_twins session_twins
              {| Dto := file_a; Token := "t1" |}
              {| Dto := mkFileDto "f2" "a.txt" 11 "text/plain" None; Token := "t2" |}
              r1 second_upload os_ok_never_fails eq_refl)
    as (H1 & H2 & _ & H3 & H4).
  - repeat split; try reflexivity. by eexists.
  - repeat split; try reflexivity. by eexists.
  - repeat split; done.
  - repeat split; done.
  - done.
  - reflexivity.
  - reflexivity.
  - reflexivity.
  - split; [exact H1|]. split; [exact H2|]. split; [exact H3|].
    rewrite H4. vm_compute. reflexivity.
Defined.

(** ** A whole transfer *)

Section whole_transfer.
Variable supply : nat -> string.
Variable decodePrepareUpload : string -> option PrepareUploadRequestDto.
Variable SplitHostPort : string -> string.
Variable os : storage.OS.

Local Abbreviation PrepareUpload :=
  (PrepareUploadHandlerV2 supply decodePrepareUpload SplitHostPort).

(** X22. The receive protocol, end to end.  An idle receiver accepts a
    prepare-upload request that names at least one file; if the sender
    then uploads each file once, in any order, with the session ID and the
    tokens of the answer, from the same host, every upload is answered 200
    and the receiver is idle again: provided the identifiers generated are
    not empty, no file is declared under the empty ID, and the sink does
    not fail. *)
Theorem prepared_transfer_completes (cfg : Config) (st : ReceiveState) (r0 : Request)
    (requestDto : PrepareUploadRequestDto) :
  (forall n, supply n ≠ "") ->
  sink_never_fails os ->
  Method r0 = MethodPost ->
  pin_accepted cfg r0 ->
  currentSession (receiveService st) = None ->
  decodePrepareUpload (Body r0) = Some requestDto ->
  Files requestDto ≠ ∅ ->
  Files requestDto !! "" = None ->
  exists sessionId tokens,
    StatusCode (PrepareUpload cfg st r0).2 = StatusOK /\
    Written (PrepareUpload cfg st r0).2
    = PayloadJson
        (JPrepareUploadResponse {| resp_SessionID := sessionId; resp_Files := tokens |}) /\
    dom tokens = dom (Files requestDto) /\
    forall cfg' rs,
      follows_response SplitHostPort r0 sessionId tokens rs ->
      (run_uploads SplitHostPort os cfg' (PrepareUpload cfg st r0).1 rs).2
      = replicate (List.length rs) StatusOK /\
      currentSession
        (receiveService (run_uploads SplitHostPort os cfg' (PrepareUpload cfg st r0).1 rs).1)
      = None.
Proof.
  intros Hids Hsink HPost Hpin Hidle Hdec Hfiles Hblank.
  destruct (CreateSession_idle supply (receiveService st) (drawn st)
              {| di_Alias := info_Alias (Info requestDto);
                 di_Version := info_Version (Info requestDto);
                 di_DeviceModel := info_DeviceModel (Info requestDto);
                 di_DeviceType := info_DeviceType (Info requestDto);
                 di_Fingerprint := info_Fingerprint (Info requestDto);
                 di_IP := SplitHostPort (RemoteAddr r0) |}
              (Files requestDto) Hidle) as (sess & Hcs & Hsid & Hsender & Hin & Hout).
  assert (PrepareUpload cfg st r0
          = ({| receiveService := {| currentSession := Some sess |};
                drawn := drawn st + 1 + size (Files requestDto); disk := disk st |},
             RespondJSON ∅ StatusOK
               (JPrepareUploadResponse
                  {| resp_SessionID := SessionID sess;
                     resp_Files := Token <$> sess_Files sess |}))) as Hprep.
  { unfold PrepareUploadHandlerV2, pin_accepted, GetSession in *.
    rewrite decide_False by (intros H; by apply H).
    rewrite decide_False by (intros [? ?]; destruct Hpin; done).
    rewrite Hidle. rewrite decide_False by (by intros [? ?]).
    rewrite Hdec. rewrite decide_False by (intros Hz; by apply map_size_empty_inv in Hz).
    by rewrite Hcs. }
  assert (forall k f, sess_Files sess !! k = Some f ->
            exists i d, map_to_list (Files requestDto) !! i = Some (k, d) /\
                        Token f = supply (S (drawn st) + i)) as Hidx.
  { intros k f Hk. destruct (Files requestDto !! k) as [d|] eqn:Hfk.
    - apply elem_of_map_to_list, list_elem_of_lookup in Hfk as [i Hi].
      exists i, d. split; [done|]. rewrite (Hin i k d Hi) in Hk.
      by injection Hk as <-.
    - rewrite (Hout k Hfk) in Hk. done. }
  assert (forall k, is_Some (sess_Files sess !! k) <-> is_Some (Files requestDto !! k))
    as Hdom.
  { intros k. split.
    - intros [f Hf]. destruct (Files requestDto !! k) eqn:E; [done|].
      by rewrite (Hout k E) in Hf.
    - intros [d Hd]. apply elem_of_map_to_list, list_elem_of_lookup in Hd as [i Hi].
      by rewrite (Hin i k d Hi). }
  exists (SessionID sess), (Token <$> sess_Files sess). rewrite Hprep. cbn [fst snd].
  split; [done|]. split; [done|]. split.
  { apply set_eq. intros k. rewrite !elem_of_dom, lookup_fmap, fmap_is_Some. apply Hdom. }
  intros cfg' rs (Hnd & Hcover & Hall).
  apply (run_uploads_complete SplitHostPort os cfg' rs _ sess Hsink); [reflexivity|..].
  - rewrite Hsid. apply Hids.
  - intros k f Hk. split.
    + intros ->. assert (is_Some (Files requestDto !! "")) as [? ?]
        by (apply Hdom; by rewrite Hk). congruence.
    + destruct (Hidx k f Hk) as (i & d & _ & ->). apply Hids.
  - intros ->. apply Hfiles. apply map_eq. intros k. rewrite lookup_empty.
    destruct (Files requestDto !! k) eqn:E; [|done]. exfalso.
    assert (is_Some ((Token <$> sess_Files sess) !! k)) as Hk
      by (rewrite lookup_fmap, fmap_is_Some; apply Hdom; by rewrite E).
    apply Hcover in Hk. by apply elem_of_nil in Hk.
  - done.
  - intros k. rewrite Hcover, lookup_fmap, fmap_is_Some. done.
  - apply Forall_forall. intros r Hr. rewrite Forall_forall in Hall.
    destruct (Hall r Hr) as (HP & Hs & Hip & Htok).
    rewrite lookup_fmap in Htok.
    destruct (sess_Files sess !! Get (Query r) "fileId") as [f|] eqn:Hf; [|done].
    injection Htok as Htok.
    repeat split; try done.
    + by rewrite Hsender.
    + by exists f.
Qed.

End whole_transfer.

Lemma prepared_transfer_completes_witness :
  exists sessionId tokens,
    StatusCode
      (PrepareUploadHandlerV2 ids decode_sample host_of cfg0 idle
         (prepare_req [] "one-file")).2 = StatusOK /\
    Written
      (PrepareUploadHandlerV2 ids decode_sample host_of cfg0 idle
         (prepare_req [] "one-file")).2
    = PayloadJson
        (JPrepareUploadResponse {| resp_SessionID := sessionId; resp_Files := tokens |}) /\
    dom tokens = dom ({[ "f1" := file_a ]} : gmap string FileDto) /\
    forall cfg' rs,
      follows_response host_of (prepare_req [] "one-file") sessionId tokens rs ->
      (run_uploads host_of os_ok cfg'
         (PrepareUploadHandlerV2 ids decode_sample host_of cfg0 idle (prepare_req [] "one-file")).1 rs).2
      = replicate (List.length rs) StatusOK /\
      currentSession
        (receiveService
           (run_uploads host_of os_ok cfg'
              (PrepareUploadHandlerV2 ids decode_sample host_of cfg0 idle (prepare_req [] "one-file")).1
              rs).1)
      = None.
Proof.
  destruct (prepared_transfer_completes ids decode_sample host_of os_ok cfg0 idle
              (prepare_req [] "one-file")
              {| Info := mkInfoDto "sender" "2.1" None DeviceTypeMobile "peer-fp" false;
                 Files := {[ "f1" := file_a ]} |})
    as (sessionId & tokens & Hcode & Hresp & Hdom & Hrun).
  - exact ids_nonempty.
  - exact os_ok_never_fails.
  - reflexivity.
  - left. reflexivity.
  - reflexivity.
  - reflexivity.
  - intros He. apply (f_equal (λ m : gmap string FileDto, m !! "f1")) in He.
    vm_compute in He. discriminate.
  - reflexivity.
  - exists sessionId, tokens.
    split; [exact Hcode|]. split; [exact Hresp|]. split; [exact Hdom|exact Hrun].
Defined.

(** ** The router *)

Section router.
Import server.
Variable supply : nat -> string.
Variable decodePrepareUpload : string -> option PrepareUploadRequestDto.
Variable SplitHostPort : string -> string.
Variable os : storage.OS.
Variable decodeRegister : string -> option register.RegisterDto.

Local Abbreviation Serve :=
  (ServeHTTP supply decodePrepareUpload SplitHostPort os decodeRegister).

Lemma Match_Found (table : list (string * string * Route)) (path method : string)
    (mismatch : bool) (route : Route) :
  Match table path method mismatch = Found route -> (path, method, route) ∈ table.
Proof.
  revert mismatch. induction table as [|[[p m] rt] table IH]; intros mismatch; simpl.
  - by destruct mismatch.
  - case_decide as Hp; [case_decide as Hm|].
    + intros [= ->]. subst. by left.
    + intros H. right. by eapply IH.
    + intros H. right. by eapply IH.
Qed.

Lemma Match_MethodMismatch (table : list (string * string * Route)) (path method : string)
    (mismatch : bool) :
  Match table path method mismatch = MethodMismatch ->
  mismatch = true \/ exists m route, (path, m, route) ∈ table.
Proof.
  revert mismatch. induction table as [|[[p m] rt] table IH]; intros mismatch; simpl.
  - destruct mismatch; [by left|done].
  - case_decide as Hp; [case_decide as Hm|].
    + done.
    + intros _. right. exists m, rt. subst. by left.
    + intros H. destruct (IH _ H) as [?|(m' & rt' & Hin)]; [by left|].
      right. exists m', rt'. by right.
Qed.

(** The method each route is registered for. *)
Lemma route_method (path method : string) (route : Route) :
  Match configureRoutes path method false = Found route ->
  method = match route with
           | RouteInfo | RouteDownload => "GET"
           | _ => "POST"
           end.
Proof.
  intros H. apply Match_Found in H. unfold configureRoutes in H.
  repeat (apply elem_of_cons in H as [H|H]; [by injection H as _ -> ->|]).
  by apply elem_of_nil in H.
Qed.

(** X23. Behind the router only a POST can change the server: a request
    with any other method leaves both session managers, the identifier
    supply and the disk as they were.  The router answers 404 for a path
    it does not know, and every 405 is the router's own, sent without
    calling a handler: the 405 answers of the handlers themselves are
    never sent. *)
Theorem router_guards_methods (cfg : Config) (hasSecurityContext : bool)
    (srv : Server) (path : string) (r : Request) :
  (Method r ≠ MethodPost -> (Serve cfg hasSecurityContext srv path r).1 = srv) /\
  (status_of (Serve cfg hasSecurityContext srv path r).2 = StatusMethodNotAllowed ->
   Serve cfg hasSecurityContext srv path r = (srv, FromRouter StatusMethodNotAllowed)) /\
  ((forall m route, (path, m, route) ∉ configureRoutes) ->
   Serve cfg hasSecurityContext srv path r = (srv, FromRouter StatusNotFound)).
Proof.
  unfold ServeHTTP.
  destruct (Match configureRoutes path (Method r) false) as [route| |] eqn:E.
  - pose proof (route_method _ _ _ E) as Hm. split; [|split].
    + intros Hne. destruct route; try (by destruct Hne); done.
    + destruct route; cbn [status_of snd fst after_receive after_send]; try done.
      * unfold discovery_handlers.InfoHandler.
        destruct hasSecurityContext; [|done]. cbn [negb]. by case_decide.
      * unfold discovery_handlers.RegisterHandler.
        destruct hasSecurityContext; [|done]. cbn [negb].
        rewrite decide_False by (intros H; by apply H).
        destruct (decodeRegister (Body r)); [|done]. by case_decide.
      * unfold PrepareUploadHandlerV1, PrepareUploadHandlerV2.
        rewrite decide_False by (intros H; by apply H).
        repeat (case_decide || case_match); done.
      * unfold PrepareUploadHandlerV2.
        rewrite decide_False by (intros H; by apply H).
        repeat (case_decide || case_match); done.
      * unfold UploadHandlerV2.
        rewrite decide_False by (intros H; by apply H).
        repeat (case_decide || case_match); done.
      * unfold CancelHandler.
        rewrite decide_False by (intros H; by apply H).
        repeat (case_decide || case_match); done.
      * unfold PrepareDownloadHandler, Send_CreateSession, uuid.NewString.
        repeat (case_decide || case_match); done.
      * unfold DownloadHandler, Fprint. repeat (case_decide || case_match); done.
    + intros Hnone. apply Match_Found in E. by apply Hnone in E.
  - split; [done|]. split; [done|]. intros Hnone.
    apply Match_MethodMismatch in E as [?|(m & route & Hin)]; [done|].
    by apply Hnone in Hin.
  - done.
Qed.

End router.

(** ** The sender against the receiver *)

Section sender.
Import server send.
Variable supply : nat -> string.
Variable decodePrepareUpload : string -> option PrepareUploadRequestDto.
Variable SplitHostPort : string -> string.
Variable os : storage.OS.
Variable decodeRegister : string -> option register.RegisterDto.
Variable valid_url : Url -> bool.
Variable NewString : string.
Variable Stat : string -> option Z.
Variable Open : string -> option string.
Variable marshalPrepare : PrepareUploadRequestDto -> option string.
Variable decodePrepareResponse : Served -> option PrepareUploadResponseDto.
Variable Status : Z -> string.
Variable cfg : Config.
Variable peer : Url -> string.

Local Abbreviation network :=
  (deliver supply decodePrepareUpload SplitHostPort os decodeRegister cfg peer).
Local Abbreviation Send :=
  (sendToDevice Server network valid_url NewString Stat Open marshalPrepare
     decodePrepareResponse Status).

Lemma prepare_upload_accepted (st : ReceiveState) (r0 : Request)
    (requestDto : PrepareUploadRequestDto) :
  Method r0 = MethodPost ->
  pin_accepted cfg r0 ->
  currentSession (receiveService st) = None ->
  decodePrepareUpload (Body r0) = Some requestDto ->
  Files requestDto ≠ ∅ ->
  exists sess,
    PrepareUploadHandlerV2 supply decodePrepareUpload SplitHostPort cfg st r0
    = ({| receiveService := {| currentSession := Some sess |};
          drawn := drawn st + 1 + size (Files requestDto); disk := disk st |},
       RespondJSON ∅ StatusOK
         (JPrepareUploadResponse
            {| resp_SessionID := SessionID sess;
               resp_Files := Token <$> sess_Files sess |})) /\
    SessionID sess = supply (drawn st) /\
    di_IP (Sender sess) = SplitHostPort (RemoteAddr r0) /\
    (forall i k d, map_to_list (Files requestDto) !! i = Some (k, d) ->
       sess_Files sess !! k = Some {| Dto := d; Token := supply (S (drawn st) + i) |}) /\
    (forall k, Files requestDto !! k = None -> sess_Files sess !! k = None).
Proof.
  intros HPost Hpin Hidle Hdec Hfiles.
  destruct (CreateSession_idle supply (receiveService st) (drawn st)
              {| di_Alias := info_Alias (Info requestDto);
                 di_Version := info_Version (Info requestDto);
                 di_DeviceModel := info_DeviceModel (Info requestDto);
                 di_DeviceType := info_DeviceType (Info requestDto);
                 di_Fingerprint := info_Fingerprint (Info requestDto);
                 di_IP := SplitHostPort (RemoteAddr r0) |}
              (Files requestDto) Hidle) as (sess & Hcs & Hsid & Hsender & Hin & Hout).
  exists sess. split; [|by rewrite Hsender].
  unfold PrepareUploadHandlerV2, pin_accepted, GetSession in *.
  rewrite decide_False by (intros H; by apply H).
  rewrite decide_False by (intros [? ?]; destruct Hpin; done).
  rewrite Hidle. rewrite decide_False by (by intros [? ?]).
  rewrite Hdec. rewrite decide_False by (intros Hz; by apply map_size_empty_inv in Hz).
  by rewrite Hcs.
Qed.

Lemma after_receive_unchanged (srv : Server) (resp : Response) :
  after_receive srv (receive_state srv, resp) = (srv, FromHandler resp).
Proof. by destruct srv. Qed.

(** X24. The sender never passes a PIN: against a receiver that has one
    configured, [sendToDevice] stops at the prepare request, which is
    answered 401; it reports that status and the receiver is left as it
    was. *)
Theorem send_to_pin_protected_fails (srv : Server) (device : Device)
    (filePath : string) (size : Z) (jsonData : string) :
  PIN cfg ≠ "" ->
  Stat filePath = Some size ->
  marshalPrepare (prepare_message NewString device filePath size) = Some jsonData ->
  Send srv device filePath
  = (srv, Some ("prepare request failed with status: " ++ Status StatusUnauthorized)).
Proof.
  intros Hpin Hstat Hmarshal. unfold sendToDevice. rewrite Hstat.
  change (marshalPrepare _)
    with (marshalPrepare (prepare_message NewString device filePath size)).
  rewrite Hmarshal. unfold deliver, ServeHTTP. cbn [url_path].
  set (r0 := request_of _ _ jsonData).
  change (Match configureRoutes "/api/localsend/v2/prepare-upload" (Method r0) false)
    with (Found RoutePrepareUploadV2).
  cbn iota.
  assert (PrepareUploadHandlerV2 supply decodePrepareUpload SplitHostPort cfg
            (receive_state srv) r0
          = (receive_state srv, RespondError ∅ StatusUnauthorized "Invalid PIN")) as ->.
  { unfold PrepareUploadHandlerV2.
    rewrite decide_False by (intros H; by apply H).
    by rewrite decide_True by (split; [done|]; intros H; by rewrite <- H in Hpin). }
  rewrite after_receive_unchanged.
  cbn [fst snd status_of StatusCode RespondError RespondJSON].
  by rewrite decide_True.
Qed.

(** X25. The sender against an idle receiver without a PIN.  When the
    file can be read, the messages survive their encoding, both
    connections come from the same host, the identifiers generated on
    either side are not empty and the receiver's sink does not fail,
    [sendToDevice] succeeds; the receiver has drawn two identifiers, is
    idle again, and holds the file's content under the base name of the
    sender's path, in its download directory. *)
Theorem send_to_device_delivers (srv : Server) (device : Device)
    (filePath : string) (fileSize : Z) (content : string) :
  PIN cfg = "" ->
  currentSession (srv_receiveService srv) = None ->
  Stat filePath = Some fileSize ->
  Open filePath = Some content ->
  (forall url, valid_url url = true) ->
  (exists jsonData,
     marshalPrepare (prepare_message NewString device filePath fileSize) = Some jsonData /\
     decodePrepareUpload jsonData
     = Some (prepare_message NewString device filePath fileSize)) ->
  (forall resp dto,
     StatusCode resp = StatusOK ->
     Written resp = PayloadJson (JPrepareUploadResponse dto) ->
     decodePrepareResponse (FromHandler resp) = Some dto) ->
  (forall url url', SplitHostPort (peer url) = SplitHostPort (peer url')) ->
  NewString ≠ "" ->
  (forall n, supply n ≠ "") ->
  sink_never_fails os ->
  Send srv device filePath
  = ({| srv_receiveService := {| currentSession := None |};
        srv_sendService := srv_sendService srv;
        srv_drawn := srv_drawn srv + 2;
        srv_disk := <[filepath.Join_on (storage.goos os)
                        [DownloadDir cfg; Base filePath] := content]>
                      (srv_disk srv) |},
     None).
Proof.
  intros Hpin Hidle Hstat Hopen Hvalid Hwire Hresp Hpeer Hnew Hids Hsink.
  unfold sendToDevice. rewrite Hstat.
  set (fileDto := {| ID := NewString; FileName := Base filePath; Size := fileSize;
                     FileType := DetectContentType_empty; SHA256 := None |}).
  change (marshalPrepare _)
    with (marshalPrepare (prepare_message NewString device filePath fileSize)).
  set (prepareDto := prepare_message NewString device filePath fileSize) in *.
  destruct Hwire as (jsonData & -> & Hdec).
  set (scheme := match Protocol device with
                 | ProtocolTypeHTTPS => ProtocolTypeHTTPS
                 | ProtocolTypeHTTP => ProtocolTypeHTTP
                 end).
  set (url1 := {| url_scheme := scheme; url_path := "/api/localsend/v2/prepare-upload" |}).
  unfold deliver at 1. unfold ServeHTTP. cbn [url_path url1 request_of Method fst snd].
  change (Match configureRoutes "/api/localsend/v2/prepare-upload" "POST" false)
    with (Found RoutePrepareUploadV2).
  cbn iota.
  destruct (prepare_upload_accepted (receive_state srv)
              (request_of (peer url1) url1 jsonData) prepareDto)
    as (sess & Hprep & Hsid & Hip & Hin & Hout); try done.
  { by left. }
  rewrite Hprep. clear Hprep.
  cbn [after_receive fst snd status_of StatusCode RespondJSON receiveService drawn disk
         receive_state srv_drawn srv_disk].
  rewrite decide_False by (intros H; by apply H).
  rewrite (Hresp (RespondJSON ∅ StatusOK
                    (JPrepareUploadResponse
                       {| resp_SessionID := SessionID sess;
                          resp_Files := Token <$> sess_Files sess |}))
             {| resp_SessionID := SessionID sess;
                resp_Files := Token <$> sess_Files sess |} eq_refl eq_refl).
  cbn [resp_SessionID resp_Files ID fileDto].
  assert (sess_Files sess !! NewString
          = Some {| Dto := fileDto; Token := supply (S (srv_drawn srv)) |}) as Hfile.
  { rewrite (Hin 0 NewString fileDto).
    - by rewrite Nat.add_0_r.
    - unfold prepareDto, prepare_message. cbn [Files]. by rewrite map_to_list_singleton. }
  rewrite lookup_fmap, Hfile. cbn [fmap option_fmap option_map default Token].
  unfold uploadFile. rewrite Hopen, Hvalid. cbn [negb].
  set (url2 := {| url_scheme := scheme; url_path := "/api/localsend/v2/upload" |}).
  set (srv1 := {| srv_receiveService := {| currentSession := Some sess |} |}).
  unfold deliver. unfold ServeHTTP. cbn [url_path url2].
  set (r2 := request_of (peer url2) url2 content).
  change (Match configureRoutes "/api/localsend/v2/upload" (Method r2) false)
    with (Found RouteUpload).
  cbn iota.
  assert (Get (Query r2) "sessionId" = SessionID sess /\
          Get (Query r2) "fileId" = NewString /\
          Get (Query r2) "token" = supply (S (srv_drawn srv))) as (Hq1 & Hq2 & Hq3).
  { subst r2. repeat split. }
  assert (size (Files prepareDto) = 1) as Hsize
    by (unfold prepareDto, prepare_message; cbn [Files]; apply map_size_singleton).
  assert (GetSessionByID (receiveService (receive_state srv1)) (Get (Query r2) "sessionId")
          = Some sess) as Hget by (by apply GetSessionByID_Some).
  rewrite (upload_accepted SplitHostPort os cfg (receive_state srv1) r2 sess
             {| Dto := fileDto; Token := supply (S (srv_drawn srv)) |}); try done.
  - cbn [after_receive fst snd status_of StatusCode RespondJSON receiveService drawn disk
           receive_state srv_drawn srv_disk srv1 srv_receiveService srv_sendService].
    rewrite decide_False by (intros H; by apply H).
    rewrite Hq1, Hq2.
    rewrite (RemoveFileFromSession_active {| currentSession := Some sess |} sess NewString)
      by done.
    assert (delete NewString (sess_Files sess) = ∅) as Hempty.
    { apply map_eq. intros k. rewrite lookup_empty.
      destruct (decide (k = NewString)) as [->|Hk]; [apply lookup_delete_eq|].
      rewrite lookup_delete_ne by done. apply Hout.
      unfold prepareDto, prepare_message. cbn [Files]. by apply lookup_singleton_ne. }
    rewrite decide_True by done.
    change (Body r2) with content.
    destruct (SaveStreamToFile_cases os (srv_disk srv) content
                (destination os cfg {| Dto := fileDto; Token := supply (S (srv_drawn srv)) |}))
      as [[_ ->]|[Hfail _]]; [|by rewrite Hsink in Hfail].
    rewrite Hsize.
    replace (srv_drawn srv + 1 + 1) with (srv_drawn srv + 2) by lia.
    reflexivity.
  - repeat split; [rewrite Hq1, Hsid; apply Hids | by rewrite Hq2 | rewrite Hq3; apply Hids].
  - subst r2. cbn [RemoteAddr]. rewrite Hip. apply Hpeer.
Qed.

End sender.

Lemma router_guards_methods_witness :
  server.ServeHTTP ids decode_sample host_of os_ok wire_register cfg0 true
    (server.NewServer 0 ∅) "/api/localsend/v2/cancel" get_req
  = (server.NewServer 0 ∅, server.FromRouter StatusMethodNotAllowed) /\
  server.ServeHTTP ids decode_sample host_of os_ok wire_register cfg0 true
    (server.NewServer 0 ∅) "/api/localsend/v3/info" get_req
  = (server.NewServer 0 ∅, server.FromRouter StatusNotFound).
Proof.
  split.
  - apply (router_guards_methods ids decode_sample host_of os_ok wire_register cfg0 true
             (server.NewServer 0 ∅) "/api/localsend/v2/cancel" get_req).
    reflexivity.
  - apply (router_guards_methods ids decode_sample host_of os_ok wire_register cfg0 true
             (server.NewServer 0 ∅) "/api/localsend/v3/info" get_req).
    intros m route Hin. unfold server.configureRoutes in Hin.
    repeat (apply elem_of_cons in Hin as [Hin|Hin]; [discriminate Hin|]).
    by apply elem_of_nil in Hin.
Defined.

Lemma send_to_pin_protected_fails_witness :
  send.sendToDevice server.Server
    (deliver ids wire_prepare host_of os_ok wire_register cfg_pin (λ _, "10.0.0.2:40000"))
    (λ _, true) "file-1" stat_sample open_sample (λ _, Some "prepare-report")
    decode_answer status_line (server.NewServer 0 ∅) receiver_probed
    "/home/user/docs/report.txt"
  = (server.NewServer 0 ∅,
     Some "prepare request failed with status: 401 Unauthorized").
Proof.
  apply (send_to_pin_protected_fails ids wire_prepare host_of os_ok wire_register
           (λ _, true) "file-1" stat_sample open_sample (λ _, Some "prepare-report")
           decode_answer status_line cfg_pin (λ _, "10.0.0.2:40000")
           (server.NewServer 0 ∅) receiver_probed "/home/user/docs/report.txt" 12
           "prepare-report").
  - vm_compute. discriminate.
  - reflexivity.
  - reflexivity.
Defined.

Lemma send_to_device_delivers_witness :
  send.sendToDevice server.Server
    (deliver ids wire_prepare host_of os_ok wire_register cfg0 (λ _, "10.0.0.2:40000"))
    (λ _, true) "file-1" stat_sample open_sample (λ _, Some "prepare-report")
    decode_answer status_line (server.NewServer 0 ∅) receiver_probed
    "/home/user/docs/report.txt"
  = ({| server.srv_receiveService := {| currentSession := None |};
        server.srv_sendService := NewSendService;
        server.srv_drawn := 2;
        server.srv_disk := {[ "downloads/report.txt" := "Hello, file!" ]} |},
     None).
Proof.
  rewrite (send_to_device_delivers ids wire_prepare host_of os_ok wire_register
             (λ _, true) "file-1" stat_sample open_sample (λ _, Some "prepare-report")
             decode_answer status_line cfg0 (λ _, "10.0.0.2:40000")
             (server.NewServer 0 ∅) receiver_probed "/home/user/docs/report.txt" 12
             "Hello, file!").
  - vm_compute. reflexivity.
  - reflexivity.
  - reflexivity.
  - reflexivity.
  - reflexivity.
  - reflexivity.
  - by exists "prepare-report".
  - intros resp dto _ Hwritten. unfold decode_answer. by rewrite Hwritten.
  - reflexivity.
  - done.
  - exact ids_nonempty.
  - exact os_ok_never_fails.
Defined.

(** ** Output of the command line *)

Section cli_output.
Import multicast cli.

Lemma length_append (s t : string) :
  String.length (s ++ t) = String.length s + String.length t.
Proof. induction s as [|a s IH]; [done|]. rewrite append_cons. simpl. by rewrite IH. Qed.

Lemma append_assoc (s t u : string) : (s ++ t) ++ u = s ++ (t ++ u).
Proof. induction s as [|a s IH]; [done|]. rewrite !append_cons. by f_equal. Qed.

Lemma length_substring (n : nat) (s : string) :
  n <= String.length s -> String.length (String.substring 0 n s) = n.
Proof.
  revert s. induction n as [|n IH]; intros [|a s] Hn; simpl in *; try done; try lia.
  rewrite IH; [done|lia].
Qed.

Lemma substring_prefix (n : nat) (s : string) :
  n <= String.length s ->
  exists rest, s = String.substring 0 n s ++ rest.
Proof.
  revert s. induction n as [|n IH]; intros [|a s] Hn; simpl in *; try lia.
  - by exists "".
  - by exists (String a s).
  - destruct (IH s ltac:(lia)) as [rest Hrest]. exists rest.
    rewrite append_cons. by f_equal.
Qed.

Lemma slice_to_Some (s : string) (k : Z) :
  (0 <= k <= Z.of_nat (String.length s))%Z ->
  exists head rest,
    slice_to s k = Some head /\ s = head ++ rest /\
    Z.of_nat (String.length head) = k.
Proof.
  intros Hk. unfold slice_to.
  destruct (k <? 0)%Z eqn:E1; [apply Z.ltb_lt in E1; lia|].
  destruct (Z.of_nat (String.length s) <? k)%Z eqn:E2; [apply Z.ltb_lt in E2; lia|].
  cbn [orb].
  destruct (substring_prefix (Z.to_nat k) s ltac:(lia)) as [rest Hrest].
  exists (String.substring 0 (Z.to_nat k) s), rest. split; [done|]. split; [done|].
  rewrite length_substring by lia. lia.
Qed.

Lemma slice_to_None (s : string) (k : Z) :
  (k < 0 \/ Z.of_nat (String.length s) < k)%Z -> slice_to s k = None.
Proof.
  intros Hk. unfold slice_to.
  destruct (k <? 0)%Z eqn:E1; [done|]. apply Z.ltb_ge in E1.
  destruct (Z.of_nat (String.length s) <? k)%Z eqn:E2; [done|].
  apply Z.ltb_ge in E2. lia.
Qed.

(** X26. The two shortening helpers.  [truncateString] returns a string of
    at most [maxLen] bytes, the string itself when it fits and otherwise a
    prefix of it followed by three dots, when [maxLen] is at least three;
    for a smaller [maxLen] and a longer string it panics.
    [getShortFingerprint] never panics: it returns the fingerprint when
    that has at most eight bytes, and its first eight bytes followed by
    three dots otherwise. *)
Theorem shortening_helpers (s : string) (maxLen : Z) :
  ((Z.of_nat (String.length s) <= maxLen)%Z -> truncateString s maxLen = Some s) /\
  ((maxLen < Z.of_nat (String.length s))%Z -> (3 <= maxLen)%Z ->
   exists head rest,
     truncateString s maxLen = Some (head ++ "...") /\ s = head ++ rest /\
     Z.of_nat (String.length (head ++ "...")) = maxLen) /\
  ((maxLen < Z.of_nat (String.length s))%Z -> (maxLen < 3)%Z ->
   truncateString s maxLen = None) /\
  (String.length s <= 8 -> getShortFingerprint s = s) /\
  (8 < String.length s ->
   exists head rest,
     getShortFingerprint s = head ++ "..." /\ s = head ++ rest /\
     String.length head = 8).
Proof.
  unfold truncateString, getShortFingerprint. repeat split.
  - intros Hfit. apply Z.leb_le in Hfit. by rewrite Hfit.
  - intros Hlong Hmin.
    destruct (Z.of_nat (String.length s) <=? maxLen)%Z eqn:E;
      [apply Z.leb_le in E; lia|].
    destruct (slice_to_Some s (maxLen - 3) ltac:(lia)) as (head & rest & -> & Hs & Hlen).
    exists head, rest. split; [done|]. split; [done|].
    rewrite length_append. simpl. lia.
  - intros Hlong Hmin.
    destruct (Z.of_nat (String.length s) <=? maxLen)%Z eqn:E;
      [apply Z.leb_le in E; lia|].
    by rewrite slice_to_None by lia.
  - intros Hshort.
    destruct (8 <? Z.of_nat (String.length s))%Z eqn:E; [|done].
    apply Z.ltb_lt in E. lia.
  - intros Hlong.
    destruct (8 <? Z.of_nat (String.length s))%Z eqn:E;
      [|apply Z.ltb_ge in E; lia].
    destruct (slice_to_Some s 8 ltac:(lia)) as (head & rest & -> & Hs & Hlen).
    exists head, rest. split; [done|]. split; [done|]. lia.
Qed.

Lemma quiet_line_Some (device : Device) :
  16 <= String.length (Fingerprint device) -> is_Some (quiet_line device).
Proof.
  intros Hlen. unfold quiet_line.
  destruct (slice_to_Some (Fingerprint device) 16 ltac:(lia)) as (head & rest & -> & _).
  by eexists.
Qed.

Lemma quiet_line_None (device : Device) :
  String.length (Fingerprint device) < 16 -> quiet_line device = None.
Proof.
  intros Hlen. unfold quiet_line. by rewrite slice_to_None by lia.
Qed.

Lemma writeDevicesQuiet_app (pre post : list Device) :
  Forall (λ d, 16 <= String.length (Fingerprint d)) pre ->
  forall stdout,
    exists lines,
      Forall2 (λ d line, quiet_line d = Some line) pre lines /\
      writeDevicesQuiet (pre ++ post) stdout
      = writeDevicesQuiet post (stdout ++ String.concat "" lines).
Proof.
  induction 1 as [|d pre Hd Hpre IH]; intros stdout.
  - exists []. split; [constructor|]. simpl. by rewrite append_empty_r.
  - destruct (quiet_line_Some d Hd) as [line Hline].
    destruct (IH (stdout ++ line)) as (lines & Hlines & Hrun).
    exists (line :: lines). split; [by constructor|].
    cbn [app writeDevicesQuiet]. rewrite Hline, Hrun. f_equal.
    rewrite append_assoc. f_equal.
    destruct lines as [|l ls]; simpl; [by rewrite append_empty_r|done].
Qed.

(** X27. The quiet device list prints one line per device, in order, as
    long as every fingerprint has at least sixteen bytes; at the first
    device with a shorter fingerprint it panics, the lines of the devices
    before it having been printed. *)
Theorem quiet_list_panics_on_short_fingerprint (devices : list Device)
    (stdout : string) :
  (Forall (λ d, 16 <= String.length (Fingerprint d)) devices ->
   exists lines,
     Forall2 (λ d line, quiet_line d = Some line) devices lines /\
     writeDevicesQuiet devices stdout = (stdout ++ String.concat "" lines, false)) /\
  (forall pre d post,
     devices = (pre ++ d :: post)%list ->
     Forall (λ d, 16 <= String.length (Fingerprint d)) pre ->
     String.length (Fingerprint d) < 16 ->
     exists lines,
       Forall2 (λ d line, quiet_line d = Some line) pre lines /\
       writeDevicesQuiet devices stdout = (stdout ++ String.concat "" lines, true)).
Proof.
  split.
  - intros Hall.
    destruct (writeDevicesQuiet_app devices [] Hall stdout) as (lines & Hlines & Hrun).
    rewrite app_nil_r in Hrun. by exists lines.
  - intros pre d post -> Hpre Hshort.
    destruct (writeDevicesQuiet_app pre (d :: post) Hpre stdout) as (lines & Hlines & Hrun).
    exists lines. split; [done|]. rewrite Hrun. simpl.
    by rewrite (quiet_line_None d Hshort).
Qed.

End cli_output.

Lemma shortening_helpers_witness :
  cli.truncateString "receiver" 20 = Some "receiver" /\
  cli.truncateString "abc" 2 = None /\
  (exists head rest,
     cli.truncateString "a-rather-long-device-alias" 20 = Some (head ++ "...") /\
     "a-rather-long-device-alias" = head ++ rest /\
     Z.of_nat (String.length (head ++ "...")) = 20%Z) /\
  exists head rest,
    multicast.getShortFingerprint "0123456789abcdef" = head ++ "..." /\
    "0123456789abcdef" = head ++ rest /\ String.length head = 8.
Proof.
  destruct (shortening_helpers "receiver" 20) as (Hfit & _).
  destruct (shortening_helpers "abc" 2) as (_ & _ & Hpanic & _ & _).
  destruct (shortening_helpers "a-rather-long-device-alias" 20)
    as (_ & Hcut & _ & _ & _).
  destruct (shortening_helpers "0123456789abcdef" 20) as (_ & _ & _ & _ & Hshort).
  split; [|split; [|split]].
  - apply Hfit. vm_compute. discriminate.
  - apply Hpanic; vm_compute; reflexivity.
  - apply Hcut; [vm_compute; reflexivity | vm_compute; discriminate].
  - apply Hshort. vm_compute. lia.
Defined.

Lemma quiet_list_panics_on_short_fingerprint_witness :
  let good := FromMulticastDto
                (mkMulticastDto "laptop" "2.1" None DeviceTypeLaptop
                   "0123456789abcdef0123" 53317 ProtocolTypeHTTPS false true)
                "10.0.0.5" 1000 in
  let short := FromMulticastDto peer_dto "10.0.0.2" 1000 in
  exists lines,
    Forall2 (λ d line, cli.quiet_line d = Some line) [good] lines /\
    cli.writeDevicesQuiet [good; short; good] "" = ("" ++ String.concat "" lines, true).
Proof.
  intros good short.
  destruct (quiet_list_panics_on_short_fingerprint [good; short; good] "")
    as [_ Hpanic].
  apply (Hpanic [good] short [good] eq_refl).
  - apply Forall_singleton. vm_compute. lia.
  - vm_compute. lia.
Defined.

(** ** The name a sender declares *)

Section sent_name.
Import send.

Lemma last_nonempty_Some (reversed : list string) (e : string) :
  last_nonempty reversed = Some e -> e ∈ reversed /\ e ≠ "".
Proof.
  induction reversed as [|x l IH]; simpl; [done|].
  case_decide as Hx.
  - intros H. destruct (IH H). split; [by right|done].
  - intros [= <-]. split; [by left|done].
Qed.

(** X28. [sendToDevice] declares the base name of the path it is given.
    That name is never empty; it is the last element of a path that ends
    in a plain name; and it holds no separator unless the path consists of
    separators only.  So, unless the base name is [..], a receiver on a
    Unix-like system writes the file inside its download directory. *)
Theorem sent_name_stays_inside (filePath dir : string) :
  Base filePath ≠ "" /\
  (Base filePath = "/" \/ contains_separator (Base filePath) = false) /\
  (forall d n, contains_separator n = false -> n ≠ "" -> Base (d ++ "/" ++ n) = n) /\
  (dir ≠ "" -> Base filePath ≠ ".." ->
   filepath.within dir (filepath.Join [dir; Base filePath]) = true).
Proof.
  assert (Base filePath ≠ "" /\
          (Base filePath = "/" \/ contains_separator (Base filePath) = false))
    as [Hne Hsep].
  { unfold Base. case_decide; [by split; [|right]|].
    destruct (last_nonempty _) as [e|] eqn:E; [|by split; [|left]].
    apply last_nonempty_Some in E as [Hin He]. split; [done|]. right.
    rewrite elem_of_reverse in Hin.
    pose proof (elements_sepfree filePath) as Hall. rewrite Forall_forall in Hall.
    by apply Hall. }
  split; [done|]. split; [done|]. split.
  - intros d n Hn Hnn. unfold Base.
    rewrite decide_False by (by destruct d).
    rewrite elements_join, (elements_plain n Hn), reverse_app. simpl.
    by rewrite decide_False.
  - intros Hdir Hdd. apply no_dotdot_stays_inside; [done|].
    apply bool_decide_eq_false. destruct Hsep as [->|Hplain].
    + vm_compute. intros Hin. repeat (apply elem_of_cons in Hin as [?|Hin]; [done|]).
      by apply elem_of_nil in Hin.
    + rewrite (elements_plain _ Hplain). intros Hin.
      by apply list_elem_of_singleton in Hin.
Qed.

End sent_name.

Lemma sent_name_stays_inside_witness :
  send.Base "/home/user/docs/report.txt" = "report.txt" /\
  filepath.within "./downloads"
    (filepath.Join ["./downloads"; send.Base "/home/user/docs/report.txt"]) = true.
Proof.
  destruct (sent_name_stays_inside "/home/user/docs/report.txt" "./downloads")
    as (_ & _ & Hlast & Hin).
  split.
  - apply (Hlast "/home/user/docs" "report.txt"); [reflexivity|done].
  - apply Hin; [done|]. vm_compute. discriminate.
Defined.

(** ** The server over its lifetime *)

Section server_lifetime.
Import server.
Variable supply : nat -> string.
Variable decodePrepareUpload : string -> option PrepareUploadRequestDto.
Variable SplitHostPort : string -> string.
Variable os : storage.OS.
Variable decodeRegister : string -> option register.RegisterDto.
Variable cfg : Config.
Variable hasSecurityContext : bool.

Local Abbreviation Serve :=
  (ServeHTTP supply decodePrepareUpload SplitHostPort os decodeRegister cfg
     hasSecurityContext).
Local Abbreviation ServeAll :=
  (serve_all supply decodePrepareUpload SplitHostPort os decodeRegister cfg
     hasSecurityContext).

(** What one request can do to the two managers and to the supply. *)
Lemma ServeHTTP_step (srv : Server) (path : string) (r : Request) :
  let srv' := (Serve srv path r).1 in
  srv_drawn srv <= srv_drawn srv' /\
  (forall session, send_currentSession (srv_sendService srv) = Some session ->
                   srv_sendService srv' = srv_sendService srv) /\
  (srv_receiveService srv' = srv_receiveService srv \/
   (exists route, Match configureRoutes path (Method r) false = Found route /\
      status_of (Serve srv path r).2 = StatusOK /\
      match route with
      | RoutePrepareUploadV1 | RoutePrepareUploadV2 =>
          currentSession (srv_receiveService srv) = None /\
          is_Some (currentSession (srv_receiveService srv'))
      | RouteUpload =>
          srv_receiveService srv'
          = RemoveFileFromSession (srv_receiveService srv)
              (Get (Query r) "sessionId") (Get (Query r) "fileId")
      | RouteCancel => srv_receiveService srv' = {| currentSession := None |}
      | _ => False
      end)).
Proof.
  unfold ServeHTTP.
  destruct (Match configureRoutes path (Method r) false) as [route| |] eqn:E;
    [|by split; [|split; [|left]]..].
  assert (forall st, let res := PrepareUploadHandlerV2 supply decodePrepareUpload
                                  SplitHostPort cfg st r in
            drawn st <= drawn res.1 /\
            (receiveService res.1 = receiveService st \/
             StatusCode res.2 = StatusOK /\ currentSession (receiveService st) = None /\
             is_Some (currentSession (receiveService res.1)))) as Hprep.
  { intros st. unfold PrepareUploadHandlerV2, GetSession.
    case_decide; [by split; [|left]|]. case_decide; [by split; [|left]|].
    case_decide as Hbusy; [by split; [|left]|].
    destruct (decodePrepareUpload (Body r)) as [dto|]; [|by split; [|left]].
    case_decide; [by split; [|left]|].
    assert (currentSession (receiveService st) = None) as Hidle
      by (destruct (currentSession (receiveService st)); [by destruct Hbusy|done]).
    destruct (CreateSession_idle supply (receiveService st) (drawn st)
                {| di_Alias := info_Alias (Info dto);
                   di_Version := info_Version (Info dto);
                   di_DeviceModel := info_DeviceModel (Info dto);
                   di_DeviceType := info_DeviceType (Info dto);
                   di_Fingerprint := info_Fingerprint (Info dto);
                   di_IP := SplitHostPort (RemoteAddr r) |} (Files dto) Hidle)
      as (sess & -> & _). cbn. split; [lia|]. right. by split; [|split]. }
  destruct route; cbn [fst snd after_receive after_send status_of receive_state
                         send_state srv_drawn srv_sendService srv_receiveService].
  - by split; [|split; [|left]].
  - by split; [|split; [|left]].
  - destruct (Hprep (receive_state srv)) as [Hd [Hsame|(Hok & Hidle & Hsome)]].
    + unfold PrepareUploadHandlerV1. split; [done|]. split; [done|]. by left.
    + unfold PrepareUploadHandlerV1. split; [done|]. split; [done|]. right.
      exists RoutePrepareUploadV1. by repeat split.
  - destruct (Hprep (receive_state srv)) as [Hd [Hsame|(Hok & Hidle & Hsome)]].
    + split; [done|]. split; [done|]. by left.
    + split; [done|]. split; [done|]. right.
      exists RoutePrepareUploadV2. by repeat split.
  - destruct (upload_service_effect SplitHostPort os cfg (receive_state srv) r)
      as [Hno Hyes].
    assert (drawn (UploadHandlerV2 SplitHostPort os cfg (receive_state srv) r).1
            = srv_drawn srv) as ->.
    { unfold UploadHandlerV2. repeat (case_decide || case_match); done. }
    split; [done|]. split; [done|].
    destruct (decide (StatusCode (UploadHandlerV2 SplitHostPort os cfg
                                    (receive_state srv) r).2 = StatusOK)) as [Hok|Hnok].
    + right. exists RouteUpload. split; [done|]. split; [done|]. by apply Hyes.
    + left. by apply Hno.
  - unfold CancelHandler. case_decide; [by split; [|split; [|left]]|].
    case_decide; [by split; [|split; [|left]]|].
    destruct (GetSessionByID _ _); [|by split; [|split; [|left]]].
    cbn. split; [done|]. split; [done|]. right. exists RouteCancel. by repeat split.
  - split; [|split; [|by left]].
    + unfold PrepareDownloadHandler, Send_CreateSession, uuid.NewString.
      repeat (case_decide || case_match); simplify_eq; cbn; lia.
    + intros session Hs.
      by destruct (prepare_download_busy supply cfg (send_state srv) r session Hs).
  - by split; [|split; [|left]].
Qed.

(** X29. Over any sequence of requests, for any paths and methods: the
    supply of identifiers only moves forward, and a send session, once
    active, is never released or replaced. *)
Theorem send_session_outlives_requests (requests : list (string * Request)) :
  forall (srv : Server) (session : ActiveSendSession),
    send_currentSession (srv_sendService srv) = Some session ->
    send_currentSession (srv_sendService (ServeAll srv requests)) = Some session /\
    srv_drawn srv <= srv_drawn (ServeAll srv requests).
Proof.
  induction requests as [|[path r] rest IH]; intros srv session Hs; [done|].
  cbn [serve_all].
  destruct (ServeHTTP_step srv path r) as (Hd & Hsend & _).
  destruct (IH (Serve srv path r).1 session) as [Hs' Hd'].
  - by rewrite (Hsend session Hs).
  - split; [done|lia].
Qed.

(** X30. The life of a receive session, as one request can change it: a
    session appears only with a prepare-upload answered 200 on an idle
    receiver; it disappears only with a cancel answered 200 or an upload
    answered 200; and while it lasts its ID and sender stay and its
    pending files can only become fewer. *)
Theorem receive_session_transitions (srv : Server) (path : string) (r : Request) :
  let srv' := (Serve srv path r).1 in
  let answered route :=
    Match configureRoutes path (Method r) false = Found route /\
    status_of (Serve srv path r).2 = StatusOK in
  (currentSession (srv_receiveService srv) = None ->
   is_Some (currentSession (srv_receiveService srv')) ->
   answered RoutePrepareUploadV1 \/ answered RoutePrepareUploadV2) /\
  (is_Some (currentSession (srv_receiveService srv)) ->
   currentSession (srv_receiveService srv') = None ->
   answered RouteUpload \/ answered RouteCancel) /\
  (forall session session',
     currentSession (srv_receiveService srv) = Some session ->
     currentSession (srv_receiveService srv') = Some session' ->
     SessionID session' = SessionID session /\ Sender session' = Sender session /\
     sess_Files session' ⊆ sess_Files session).
Proof.
  destruct (ServeHTTP_step srv path r) as (_ & _ & [Hsame|(route & Hm & Hok & Hroute)]).
  - cbn zeta. rewrite Hsame. split; [|split].
    + intros -> [? ?]. done.
    + intros [? ->]. done.
    + intros session session' -> [= ->]. done.
  - cbn zeta. split; [|split].
    + intros Hidle Hsome. destruct route; try done; [by left|by right| |].
      * rewrite Hroute in Hsome. unfold RemoveFileFromSession in Hsome.
        rewrite Hidle in Hsome. rewrite Hidle in Hsome. by destruct Hsome.
      * rewrite Hroute in Hsome. by destruct Hsome.
    + intros Hbusy Hnone. destruct route; try done; [| |by left|by right].
      * destruct Hroute as [Hidle _]. rewrite Hidle in Hbusy. by destruct Hbusy.
      * destruct Hroute as [Hidle _]. rewrite Hidle in Hbusy. by destruct Hbusy.
    + intros session session' Hs Hs'. destruct route; try done.
      * destruct Hroute as [Hidle _]. congruence.
      * destruct Hroute as [Hidle _]. congruence.
      * rewrite Hroute in Hs'. unfold RemoveFileFromSession in Hs'. rewrite Hs in Hs'.
        case_decide; [|by simplify_eq].
        case_decide; [done|]. cbn in Hs'. injection Hs' as <-. cbn.
        split; [done|]. split; [done|]. apply delete_subseteq.
      * rewrite Hroute in Hs'. done.
Qed.

End server_lifetime.

Lemma send_session_outlives_requests_witness :
  let requests := [("/api/localsend/v2/prepare-download", post_req "");
                   ("/api/localsend/v2/cancel", cancel_req "s1");
                   ("/api/localsend/v2/download", download_req "id-1" "id-0");
                   ("/api/localsend/v2/prepare-upload", prepare_req [] "one-file")] in
  let srv' := serve_all ids decode_sample host_of os_ok wire_register cfg0 true
                busy_server requests in
  send_currentSession (server.srv_sendService srv')
  = send_currentSession (server.srv_sendService busy_server) /\
  server.srv_drawn busy_server <= server.srv_drawn srv'.
Proof.
  intros requests.
  apply (send_session_outlives_requests ids decode_sample host_of os_ok wire_register
           cfg0 true requests busy_server _ eq_refl).
Defined.

Lemma receive_session_transitions_witness :
  let r := cancel_req "s1" in
  let path := "/api/localsend/v2/cancel" in
  let served := server.ServeHTTP ids decode_sample host_of os_ok wire_register cfg0 true
                  busy_server path r in
  (server.Match server.configureRoutes path (Method r) false
   = server.Found server.RouteUpload /\
   server.status_of served.2 = StatusOK) \/
  (server.Match server.configureRoutes path (Method r) false
   = server.Found server.RouteCancel /\
   server.status_of served.2 = StatusOK).
Proof.
  intros r path served.
  destruct (receive_session_transitions ids decode_sample host_of os_ok wire_register
              cfg0 true busy_server path r) as (_ & Hend & _).
  apply Hend.
  - by eexists.
  - reflexivity.
Defined.
